(** * OFAC screening server: the screening pipeline of [checker.js] and the
      progress channel of [server.js]

    The development embeds the JavaScript of the two files as Rocq
    functions and proves the properties of the pipeline over them.

    Modelling conventions.
    - In the pipeline a JavaScript string is a [string] of ASCII text: the
      operations of module [Str] are those of JavaScript on code units
      below 128.  [normalizeText], the one function whose result depends
      on the letters and the white space of Unicode, is also embedded over
      UTF-16 code units, with the white space of the language and its full
      upper-case mapping (module [Utf16]); on ASCII text the two
      embeddings agree.
    - A JavaScript array is a [list]; [push] appends at the end.
    - A thrown exception is the [Throw] case of a result.
    - The browser session, the CSV folder, the uploaded sheet and the
      outcome of each write of a file are inputs of the run (the [world]).
      Creating the folders and reading the uploaded sheet are assumed to
      succeed. *)

From Stdlib Require Import List Bool Arith Lia.
From Stdlib Require Import Ascii String.
From Stdlib Require Import ZArith NArith QArith Qreduction ZifyBool.
From Stdlib Require Import DecimalNat DecimalString.
Import ListNotations.

Local Open Scope string_scope.
Local Open Scope list_scope.
Local Open Scope nat_scope.

(* ================================================================= *)
(** ** Strings *)

Module Str.

(** The white space class [\s] of a regular expression, which is also what
    [trim] removes: tab, line feed, vertical tab, form feed, carriage
    return and space. *)
Definition is_space (c : ascii) : bool :=
  match c with
  | "009"%char | "010"%char | "011"%char | "012"%char | "013"%char
  | " "%char => true
  | _ => false
  end.

(** The character class [[\.,\-']]. *)
Definition is_punct (c : ascii) : bool :=
  match c with
  | "."%char | ","%char | "-"%char | "'"%char => true
  | _ => false
  end.

(** The character class [[a-zA-Z0-9]]. *)
Definition is_alnum (c : ascii) : bool :=
  let n := nat_of_ascii c in
  ((97 <=? n) && (n <=? 122)) || ((65 <=? n) && (n <=? 90))
  || ((48 <=? n) && (n <=? 57)).

Definition upper_char (c : ascii) : ascii :=
  let n := nat_of_ascii c in
  if (97 <=? n) && (n <=? 122) then ascii_of_nat (n - 32) else c.

Fixpoint map (f : ascii -> ascii) (s : string) : string :=
  match s with
  | EmptyString => EmptyString
  | String c r => String (f c) (map f r)
  end.

Fixpoint remove (p : ascii -> bool) (s : string) : string :=
  match s with
  | EmptyString => EmptyString
  | String c r => if p c then remove p r else String c (remove p r)
  end.

Fixpoint all (p : ascii -> bool) (s : string) : bool :=
  match s with
  | EmptyString => true
  | String c r => p c && all p r
  end.

(** [s.toUpperCase()] *)
Definition toUpperCase (s : string) : string := map upper_char s.

(** [s.replace(/\s+/g, " ")]: every maximal run of white space becomes one
    space.  [in_run] tells that the previous character was white space. *)
Fixpoint collapse_from (in_run : bool) (s : string) : string :=
  match s with
  | EmptyString => EmptyString
  | String c r =>
      if is_space c
      then if in_run then collapse_from true r
           else String " " (collapse_from true r)
      else String c (collapse_from false r)
  end.

Definition collapse (s : string) : string := collapse_from false s.

Fixpoint trimStart (s : string) : string :=
  match s with
  | EmptyString => EmptyString
  | String c r => if is_space c then trimStart r else s
  end.

Fixpoint trimEnd (s : string) : string :=
  match s with
  | EmptyString => EmptyString
  | String c r =>
      match trimEnd r with
      | EmptyString => if is_space c then EmptyString else String c EmptyString
      | r' => String c r'
      end
  end.

(** [s.trim()] *)
Definition trim (s : string) : string := trimEnd (trimStart s).

(** [s.split(" ")]: never the empty array; the empty string splits into
    one empty token. *)
Fixpoint split (s : string) : list string :=
  match s with
  | EmptyString => [EmptyString]
  | String c r =>
      if Ascii.eqb c " " then EmptyString :: split r
      else match split r with
           | [] => [String c EmptyString]
           | w :: ws => String c w :: ws
           end
  end.

(** [s.startsWith(p)] *)
Definition startsWith (s p : string) : bool := prefix p s.

(** [s.endsWith(suf)] *)
Definition endsWith (s suf : string) : bool :=
  let n := String.length s in
  let m := String.length suf in
  (m <=? n) && String.eqb (substring (n - m) m s) suf.

(** [s.slice(0, n)] for [0 <= n]. *)
Definition slice0 (n : nat) (s : string) : string := substring 0 n s.

(** [a.join(sep)] on an array of strings. *)
Definition join (sep : string) (l : list string) : string := concat sep l.

(** Decimal rendering of a natural number, as a template literal does. *)
Definition of_nat (n : nat) : string :=
  NilEmpty.string_of_uint (Nat.to_uint n).

End Str.

(* ================================================================= *)
(** ** Values *)

(** The values a cell of the uploaded sheet, or an argument of
    [normalizeText], can be: a sheet yields strings, numbers and booleans,
    a missing key yields [undefined].  A number is given by what the code
    reads of it: whether it is truthy (neither [0] nor [NaN]) and the text
    [toString] renders it to. *)
Inductive value : Type :=
| VUndefined
| VNull
| VBool (b : bool)
| VNum (nonzero : bool) (text : string)
| VStr (s : string).

(** Truthiness, as [!text] and [a || b] test it. *)
Definition truthy (v : value) : bool :=
  match v with
  | VUndefined | VNull => false
  | VBool b => b
  | VNum nonzero _ => nonzero
  | VStr s => negb (String.eqb s "")
  end.

(** [v.toString()] and [`${v}`]. *)
Definition toString (v : value) : string :=
  match v with
  | VUndefined => "undefined"
  | VNull => "null"
  | VBool true => "true"
  | VBool false => "false"
  | VNum _ text => text
  | VStr s => s
  end.

(** [a || b] *)
Definition or_else (a b : value) : value := if truthy a then a else b.

(* ================================================================= *)
(** ** checker.js: configuration *)

Definition CSV_FOLDER : string := "./data".
Definition SAVE_JSON_RESPONSES : bool := true.
Definition MAX_CELL_LENGTH : nat := 32 * 1000.
Definition OFAC_URL : string := "https://sanctionssearch.ofac.treas.gov/".
Definition TRUNCATION_MARKER : string := " ...[truncated]".

(* ================================================================= *)
(** ** checker.js: normalizeText *)

Definition normalizeString (s : string) : string :=
  Str.trim (Str.collapse (Str.remove Str.is_punct (Str.toUpperCase s))).

Definition normalizeText (text : value) : string :=
  if negb (truthy text) then ""
  else normalizeString (toString text).

(* ================================================================= *)
(** ** Numbers *)

(** A JavaScript number, as far as the pipeline computes one: the quotient
    of two array lengths.  The quotient of two lengths below [2^53] is
    rounded to [1] only when the lengths are equal, so a rational kept in
    lowest terms decides [score === 1] as the floating-point quotient
    does. *)
Inductive number : Type :=
| NaN
| Infinity
| Fin (q : Q).

Definition one : number := Fin 1.

(** [a / b] for two array lengths. *)
Definition div_length (a b : nat) : number :=
  match b with
  | O => match a with O => NaN | S _ => Infinity end
  | S _ => Fin (Qred (Z.of_nat a # Pos.of_nat b))
  end.

(** [x === y] on numbers. *)
Definition strict_eq (x y : number) : bool :=
  match x, y with
  | Fin p, Fin q => Qeq_bool p q
  | Infinity, Infinity => true
  | _, _ => false
  end.

Definition two_digits (n : nat) : string :=
  if n <? 10 then "0" ++ Str.of_nat n else Str.of_nat n.

(** [x.toFixed(2)] for [x >= 0]: the nearest multiple of [1/100], the
    larger one on a tie. *)
Definition toFixed2 (x : number) : string :=
  match x with
  | NaN => "NaN"
  | Infinity => "Infinity"
  | Fin q =>
      let n := Z.to_nat ((200 * Qnum q + Zpos (Qden q)) / (2 * Zpos (Qden q))) in
      Str.of_nat (n / 100) ++ "." ++ two_digits (n mod 100)
  end.

(* ================================================================= *)
(** ** Results of fallible code *)

Inductive error : Type :=
| Error (message : string)
| TypeError (message : string)
| StreamError                 (* the [error] event of a parser stream *)
| LaunchError                 (* [puppeteer.launch] or [newPage] rejects *)
| PageError                   (* a call on the page rejects *)
| WriteError (path : string). (* the write of a file throws *)

Inductive result (A : Type) : Type :=
| Return (a : A)
| Throw (e : error).

Arguments Return {A} a.
Arguments Throw {A} e.

Definition bind {A B : Type} (r : result A) (k : A -> result B) : result B :=
  match r with
  | Return a => k a
  | Throw e => Throw e
  end.

Notation "x <- r ;; k" := (bind r (fun x => k))
  (at level 61, r at next level, right associativity).

(* ================================================================= *)
(** ** checker.js: loadCSVFolder *)

(** A reference entry: [{ id, name, words }]. *)
Record entry : Type := mkEntry {
  entry_id : string;
  entry_name : string;
  entry_words : list string
}.

(** A file of the folder: its name and what the parser stream
    [fs.createReadStream(...).pipe(csv())] emits: the rows, each as
    [Object.values(row)], then [end]; or [error] ([None]), the one event
    that rejects the promise.  An error of the read stream itself has no
    listener in the code: it is an uncaught exception of the process, and
    is outside this model. *)
Record csvFile : Type := mkCsvFile {
  file_name : string;
  file_rows : option (list (list string))
}.

(** The [data] handler: every value of the row is normalized and pushed
    when the normalized text is not empty. *)
Definition pushRow (entries : list string) (row : list string) : list string :=
  fold_left
    (fun acc val =>
       let normalized := normalizeText (VStr val) in
       if truthy (VStr normalized) then acc ++ [normalized] else acc)
    row entries.

(** One turn of [for (const file of files)]. *)
Definition readCsv (entries : list string) (file : csvFile)
  : result (list string) :=
  match file_rows file with
  | None => Throw StreamError
  | Some rows => Return (fold_left pushRow rows entries)
  end.

Fixpoint readAll (entries : list string) (files : list csvFile)
  : result (list string) :=
  match files with
  | [] => Return entries
  | file :: rest => entries' <- readCsv entries file ;; readAll entries' rest
  end.

(** [a.map((x, i) => f x i)], counting from [i]. *)
Fixpoint mapi_from {A B : Type} (i : nat) (f : A -> nat -> B) (l : list A)
  : list B :=
  match l with
  | [] => []
  | x :: r => f x i :: mapi_from (S i) f r
  end.

Definition mkReference (name : string) (i : nat) : entry :=
  {| entry_id := "entry_" ++ Str.of_nat (i + 1);
     entry_name := name;
     entry_words := Str.split name |}.

Definition loadCSVFolder (folder : list csvFile) : result (list entry) :=
  let files :=
    filter (fun f => Str.endsWith (file_name f) ".csv") folder in
  if List.length files =? 0 then Throw (Error "No CSV files found in folder.")
  else
    entries <- readAll [] files ;;
    if List.length entries =? 0 then Throw (Error "No entries loaded from CSVs.")
    else Return (mapi_from 0 mkReference entries).

(* ================================================================= *)
(** ** checker.js: searchName *)

(** A match: [{ id, matchedName, score }]. *)
Record matchResult : Type := mkMatch {
  match_id : string;
  matchedName : string;
  score : number
}.

(** [a.filter(Boolean)] on an array of objects and [null]s. *)
Fixpoint filterBoolean {A : Type} (l : list (option A)) : list A :=
  match l with
  | [] => []
  | Some a :: r => a :: filterBoolean r
  | None :: r => filterBoolean r
  end.

Definition matchEntry (pubWords : list string) (e : entry)
  : option matchResult :=
  let matchedWords :=
    filter (fun pw => existsb (fun ew => Str.startsWith ew pw) (entry_words e))
           pubWords in
  let score := div_length (List.length matchedWords) (List.length pubWords) in
  if strict_eq score one
  then Some {| match_id := entry_id e; matchedName := entry_name e;
               score := score |}
  else None.

Definition searchName (publisherName : value) (entries : list entry)
  : list matchResult :=
  let pubWords := Str.split (normalizeText publisherName) in
  filterBoolean (List.map (matchEntry pubWords) entries).

(* ================================================================= *)
(** ** checker.js: takeScreenshot *)

(** The calls [takeScreenshot] makes on the shared page. *)
Inductive step : Type :=
| PageGoto
| PageEvaluate
| PageType
| PageClick
| PageWaitForSelector
| PageScreenshot.

(** [takeScreenshot(name, filepath, page)].  [page s] tells whether the
    call [s] on the page resolves; a rejected call throws, except
    [waitForSelector], whose rejection is caught and logged.  [files] are
    the paths written so far; [page.screenshot] writes [filepath]. *)
Definition takeScreenshot (name : value) (filepath : string)
    (page : step -> bool) (files : list string) : result (list string) :=
  if negb (truthy name) then Return files
  else if negb (page PageGoto) then Throw PageError
  else if negb (page PageEvaluate) then Throw PageError
  else if negb (page PageType) then Throw PageError
  else if negb (page PageClick) then Throw PageError
  else
    let _logged := negb (page PageWaitForSelector) in
    if negb (page PageScreenshot) then Throw PageError
    else Return (files ++ [filepath]).

(* ================================================================= *)
(** ** checker.js: runChecker *)

(** A row of [XLSX.utils.sheet_to_json(sheet)], read at the two headers
    the code looks up; an absent key reads as [undefined]. *)
Record sheetRow : Type := mkSheetRow {
  name_as_per_bank_account : value;
  name_column : value
}.

Record publisher : Type := mkPublisher { Name : value }.

(** A call of [progressCallback(current, total, publisherName, extraText)]. *)
Record progressCall : Type := mkCall {
  call_current : nat;
  call_total : nat;
  call_name : value;
  call_text : string
}.

(** The [Screenshot] field of a row: [{ text, hyperlink }], or the empty
    string that [if (r.Screenshot)] tests for. *)
Inductive cell : Type :=
| Blank
| Hyperlink (text hyperlink : string).

Record reportRow : Type := mkRow {
  Publisher : value;
  MatchStatus : string;
  MatchCount : nat;
  Matches : string;
  Screenshot : cell
}.

(** What a run reads from outside. *)
Record world : Type := mkWorld {
  csvFolder : list csvFile;      (* the files of CSV_FOLDER *)
  sheet : list sheetRow;         (* the first sheet of the uploaded file *)
  isoTime : string;              (* new Date().toISOString() *)
  launches : bool;               (* puppeteer.launch and newPage resolve *)
  page : nat -> step -> bool;    (* the page calls of iteration i *)
  writable : string -> bool      (* fs.writeFileSync and XLSX.writeFile of
                                    the path succeed *)
}.

(** The quotation mark. *)
Definition dquote : string := String "034"%char EmptyString.

(** [path.join(a, b)] of a folder path in normal form and a name; the
    normalization [path.join] does on other paths is not modelled. *)
Definition path_join (a b : string) : string := a ++ "/" ++ b.

(** [path.basename(p)] of a path that does not end in a separator. *)
Fixpoint basename_from (acc p : string) : string :=
  match p with
  | EmptyString => acc
  | String c r =>
      if Ascii.eqb c "/" then basename_from EmptyString r
      else basename_from (acc ++ String c EmptyString) r
  end.

Definition basename (p : string) : string := basename_from EmptyString p.

(** The message of the TypeError of a call of [replace] on a number or a
    boolean, as V8 words it. *)
Definition replaceTypeError : string :=
  "(pub.Name || " ++ dquote ++ "EMPTY" ++ dquote
  ++ ").replace is not a function".

(** [(pub.Name || "EMPTY").replace(/[^a-zA-Z0-9]/g, "_")]: only a string
    has [replace]. *)
Definition safeNameOf (pub : publisher) : result string :=
  match or_else (Name pub) (VStr "EMPTY") with
  | VStr s =>
      Return (Str.map (fun c => if Str.is_alnum c then c else "_"%char) s)
  | _ => Throw (TypeError replaceTypeError)
  end.

(** [`${m.matchedName} (score: ${m.score.toFixed(2)})`] *)
Definition showMatch (m : matchResult) : string :=
  matchedName m ++ " (score: " ++ toFixed2 (score m) ++ ")".

(** The cut of an overlong cell. *)
Definition truncateCell (matchesString : string) : string :=
  if MAX_CELL_LENGTH <? String.length matchesString
  then Str.slice0 MAX_CELL_LENGTH matchesString ++ TRUNCATION_MARKER
  else matchesString.

(** What the loop has done so far. *)
Record progress : Type := mkProgress {
  calls : list progressCall;     (* calls of progressCallback, in order *)
  files : list string;           (* paths written, in order *)
  results : list reportRow       (* the array [results] *)
}.

Definition notify (progressCallback : bool) (c : progressCall)
    (st : progress) : progress :=
  if progressCallback
  then {| calls := calls st ++ [c]; files := files st; results := results st |}
  else st.

Definition writeFile (path : string) (st : progress) : progress :=
  {| calls := calls st; files := files st ++ [path]; results := results st |}.

Definition pushRowOf (r : reportRow) (st : progress) : progress :=
  {| calls := calls st; files := files st; results := results st ++ [r] |}.

(** The body of [for (let i = 0; i < total; i++)]: the state it leaves
    and whether it threw.  The call of [replace] and the write of the JSON
    file stand outside the [try]; the capture stands inside. *)
Definition iteration (w : world) (screeningEntries : list entry)
    (screenshotsFolder responsesFolder : string) (progressCallback : bool)
    (total i : nat) (pub : publisher) (st : progress)
  : progress * result unit :=
  match safeNameOf pub with
  | Throw e => (st, Throw e)
  | Return safeName =>
      let st :=
        notify progressCallback
          (mkCall (i + 1) total (Name pub) "Searching SDN/ALT lists") st in
      let matches := searchName (Name pub) screeningEntries in
      let status := if 0 <? List.length matches then "MATCH" else "CLEAR" in
      let jsonPath :=
        path_join responsesFolder
          (safeName ++ "_" ++ Str.of_nat (i + 1) ++ ".json") in
      if SAVE_JSON_RESPONSES && negb (writable w jsonPath)
      then (st, Throw (WriteError jsonPath))
      else
        let st := if SAVE_JSON_RESPONSES then writeFile jsonPath st else st in
        let screenshotPath :=
          path_join screenshotsFolder
            (safeName ++ "_" ++ Str.of_nat (i + 1) ++ ".png") in
        let st :=
          notify progressCallback
            (mkCall (i + 1) total (Name pub)
               ("Taking screenshot for " ++ dquote ++ toString (Name pub)
                ++ dquote)) st in
        let st :=
          match takeScreenshot (Name pub) screenshotPath (page w i)
                  (files st) with
          | Return files' =>
              {| calls := calls st; files := files'; results := results st |}
          | Throw _ => st
          end in
        let screenshotLink :=
          ("./screenshots/" ++ safeName ++ "_" ++ Str.of_nat (i + 1)
           ++ ".png")%string in
        let matchesString :=
          truncateCell (Str.join "; " (List.map showMatch matches)) in
        (pushRowOf
           {| Publisher := Name pub;
              MatchStatus := status;
              MatchCount := List.length matches;
              Matches := matchesString;
              Screenshot := Hyperlink "View Screenshot" screenshotLink |}
           st,
         Return tt)
  end.

(** The loop over [publishers], from index [i]; a throw leaves the loop
    with what was done before it. *)
Fixpoint forLoop (w : world) (screeningEntries : list entry)
    (screenshotsFolder responsesFolder : string) (progressCallback : bool)
    (total i : nat) (pubs : list publisher) (st : progress)
  : progress * result unit :=
  match pubs with
  | [] => (st, Return tt)
  | pub :: rest =>
      match iteration w screeningEntries screenshotsFolder responsesFolder
              progressCallback total i pub st with
      | (st', Return _) =>
          forLoop w screeningEntries screenshotsFolder responsesFolder
            progressCallback total (S i) rest st'
      | (st', Throw e) => (st', Throw e)
      end
  end.

Definition loadPublishers (rows : list sheetRow) : list publisher :=
  List.map
    (fun r =>
       {| Name := or_else (or_else (name_as_per_bank_account r) (name_column r))
                    (VStr "") |})
    rows.

(** The outcome of a run: the calls of the callback, the paths written and
    what [runChecker] returns, with the rows of the sheet it wrote. *)
Record run : Type := mkRun {
  run_calls : list progressCall;
  run_files : list string;
  run_result : result (string * list reportRow)
}.

Definition runChecker (w : world) (downloadsFolder : string)
    (progressCallback : bool) : run :=
  match loadCSVFolder (csvFolder w) with
  | Throw e => {| run_calls := []; run_files := []; run_result := Throw e |}
  | Return screeningEntries =>
      let publishers := loadPublishers (sheet w) in
      let total := List.length publishers in
      let timestamp :=
        Str.map
          (fun c => if Ascii.eqb c ":" || Ascii.eqb c "." then "-"%char else c)
          (isoTime w) in
      let resultsFolder :=
        path_join downloadsFolder ("OFAC Results " ++ timestamp) in
      let screenshotsFolder := path_join resultsFolder "screenshots" in
      let responsesFolder := path_join resultsFolder "responses" in
      if negb (launches w)
      then {| run_calls := []; run_files := []; run_result := Throw LaunchError |}
      else
        let '(st, r) :=
          forLoop w screeningEntries screenshotsFolder responsesFolder
            progressCallback total 0 publishers
            {| calls := []; files := []; results := [] |} in
        match r with
        | Throw e =>
            {| run_calls := calls st; run_files := files st;
               run_result := Throw e |}
        | Return _ =>
            let workbook := path_join resultsFolder "OFAC_Results.xlsx" in
            if writable w workbook
            then {| run_calls := calls st;
                    run_files := files st ++ [workbook];
                    run_result := Return (resultsFolder, results st) |}
            else {| run_calls := calls st; run_files := files st;
                    run_result := Throw (WriteError workbook) |}
        end
  end.

(* ================================================================= *)
(** ** server.js: the progress channel of POST /upload *)

(** What is written on the event stream. *)
Inductive sseMessage : Type :=
| Data (current total : nat) (status : string)
| Done (zipFilename : string).

(** The callback handed to [runChecker]: [extraText] when it is not empty,
    else the default text. *)
Definition statusOf (c : progressCall) : string :=
  if truthy (VStr (call_text c)) then call_text c
  else "Processing " ++ dquote ++ toString (call_name c) ++ dquote ++ " ("
       ++ Str.of_nat (call_current c) ++ "/" ++ Str.of_nat (call_total c)
       ++ ")...".

(** The writes of the callback.  [currentSSE k] tells whether a consumer is
    connected when the [k]-th write is attempted; without one the event is
    dropped. *)
Fixpoint writes (currentSSE : nat -> bool) (k : nat) (cs : list progressCall)
  : list sseMessage :=
  match cs with
  | [] => []
  | c :: rest =>
      (if currentSSE k
       then [Data (call_current c) (call_total c) (statusOf c)]
       else [])
      ++ writes currentSSE (S k) rest
  end.

(** The stream of one upload with a file: the progress events of the run,
    then the terminal event when the run returned and a consumer is
    connected.  The archive of the results is assumed to be written. *)
Definition upload (w : world) (dirname : string) (currentSSE : nat -> bool)
  : list sseMessage :=
  let TEMP_FOLDER := path_join dirname "temp" in
  let r := runChecker w TEMP_FOLDER true in
  let sent := writes currentSSE 0 (run_calls r) in
  match run_result r with
  | Return (resultsFolder, _) =>
      let zipName := (basename resultsFolder ++ ".zip")%string in
      sent ++
      (if currentSSE (List.length (run_calls r)) then [Done zipName] else [])
  | Throw _ => sent
  end.

(* ================================================================= *)
(** ** Vocabulary of the properties *)

(** White space occurs in [s] only as single spaces; [prev] tells that a
    space stands just before [s]. *)
Fixpoint tidy (prev : bool) (s : string) : bool :=
  match s with
  | EmptyString => true
  | String c r =>
      if Str.is_space c
      then Ascii.eqb c " " && negb prev && tidy true r
      else tidy false r
  end.

(** The canonical form [normalizeText] produces. *)
Definition canonical (s : string) : Prop :=
  Str.all (fun c => Ascii.eqb (Str.upper_char c) c) s = true
  /\ Str.all (fun c => negb (Str.is_punct c)) s = true
  /\ tidy false s = true
  /\ Str.trimStart s = s
  /\ Str.trimEnd s = s.

(** [p] is a prefix of [t]. *)
Definition IsPrefix (p t : string) : Prop := exists rest, t = (p ++ rest)%string.

(** Full coverage: every subject token is a prefix of some token of the
    entry. *)
Definition Covers (tokens : list string) (e : entry) : Prop :=
  forall p, In p tokens -> exists t, In t (entry_words e) /\ IsPrefix p t.

Definition coversb (tokens : list string) (e : entry) : bool :=
  forallb (fun pw => existsb (fun ew => Str.startsWith ew pw) (entry_words e))
          tokens.

(** The match an entry gives when it is retained. *)
Definition matchOf (e : entry) : matchResult :=
  {| match_id := entry_id e; matchedName := entry_name e; score := one |}.

(** The cells of the readable files, in reading order. *)
Definition cellsOf (files : list csvFile) : list string :=
  flat_map
    (fun f => match file_rows f with
              | Some rows => List.concat rows
              | None => []
              end)
    files.

Definition nonEmpty (s : string) : bool := negb (String.eqb s "").

(** The normalized cells that are not empty, in reading order. *)
Definition referenceNames (files : list csvFile) : list string :=
  filter nonEmpty (List.map (fun v => normalizeText (VStr v)) (cellsOf files)).

Definition qualifying (folder : list csvFile) : list csvFile :=
  filter (fun f => Str.endsWith (file_name f) ".csv") folder.

(** The [current] fields of the progress events of a stream, and its
    terminal events. *)
Definition currents (l : list sseMessage) : list nat :=
  flat_map (fun m => match m with Data c _ _ => [c] | Done _ => [] end) l.

Definition terminals (l : list sseMessage) : list string :=
  flat_map (fun m => match m with Data _ _ _ => [] | Done z => [z] end) l.

(** [1, 1, 2, 2, ..., n, n] counted from [i + 1]: two events a subject. *)
Fixpoint twice_from (i n : nat) : list nat :=
  match n with
  | O => []
  | S n' => (i + 1) :: (i + 1) :: twice_from (S i) n'
  end.

Fixpoint strictly_increasing (l : list nat) : Prop :=
  match l with
  | [] => True
  | x :: r => match r with
              | [] => True
              | y :: _ => x < y /\ strictly_increasing r
              end
  end.

Fixpoint nondecreasing (l : list nat) : Prop :=
  match l with
  | [] => True
  | x :: r => match r with
              | [] => True
              | y :: _ => x <= y /\ nondecreasing r
              end
  end.

(** The joined matches of a subject, before the cut. *)
Definition joinedMatches (entries : list entry) (pub : publisher) : string :=
  Str.join "; " (List.map showMatch (searchName (Name pub) entries)).

(** The link of iteration [i] for a subject. *)
Definition linkOf (safeName : string) (i : nat) : string :=
  "./screenshots/" ++ safeName ++ "_" ++ Str.of_nat (i + 1) ++ ".png".

(** [row] is the row iteration [i] builds for [pub]. *)
Record RowFor (entries : list entry) (i : nat) (pub : publisher)
    (row : reportRow) : Prop := {
  row_publisher : Publisher row = Name pub;
  row_count : MatchCount row = List.length (searchName (Name pub) entries);
  row_status :
    MatchStatus row = if 0 <? MatchCount row then "MATCH" else "CLEAR";
  row_matches : Matches row = truncateCell (joinedMatches entries pub);
  row_link :
    exists safeName,
      safeNameOf pub = Return safeName
      /\ Screenshot row = Hyperlink "View Screenshot" (linkOf safeName i)
}.

(** [rows] are the rows of the subjects [pubs], the first at index [i]. *)
Inductive RowsFrom (entries : list entry)
  : nat -> list publisher -> list reportRow -> Prop :=
| RowsNil (i : nat) : RowsFrom entries i [] []
| RowsCons (i : nat) (pub : publisher) (row : reportRow)
    (pubs : list publisher) (rows : list reportRow) :
    RowFor entries i pub row ->
    RowsFrom entries (S i) pubs rows ->
    RowsFrom entries i (pub :: pubs) (row :: rows).

(** The name of a subject is a string. *)
Definition isString (v : value) : bool :=
  match v with
  | VStr _ => true
  | _ => false
  end.

(** Whether a computation returned, and what a run returned. *)
Definition returned {A : Type} (r : result A) : bool :=
  match r with
  | Return _ => true
  | Throw _ => false
  end.

Definition entriesOf (r : result (list entry)) : list entry :=
  match r with
  | Return entries => entries
  | Throw _ => []
  end.

Definition folderOf (r : run) : string :=
  match run_result r with
  | Return (folder, _) => folder
  | Throw _ => ""
  end.

Definition rowsOf (r : run) : list reportRow :=
  match run_result r with
  | Return (_, rows) => rows
  | Throw _ => []
  end.

(* ================================================================= *)
(** ** Sample inputs *)

(** The corpus of the examples: two reference names and a cell that
    normalizes to nothing, next to a file that does not qualify. *)
Definition sample_folder : list csvFile :=
  [ {| file_name := "sdn.csv";
       file_rows := Some [["John Smith"; "."]; ["John Smithson"]] |};
    {| file_name := "notes.txt"; file_rows := Some [["JANE DOE"]] |} ].

Definition sample_entries : list entry :=
  entriesOf (loadCSVFolder sample_folder).

(** Three subjects, the second with no name; every page call fails for
    the third (index 2). *)
Definition sample_world : world :=
  {| csvFolder := sample_folder;
     sheet := [ {| name_as_per_bank_account := VUndefined;
                   name_column := VStr "John Smit" |};
                {| name_as_per_bank_account := VUndefined;
                   name_column := VUndefined |};
                {| name_as_per_bank_account := VStr "Jane Doe";
                   name_column := VStr "ignored" |} ];
     isoTime := "2024-01-02T03:04:05.678Z";
     launches := true;
     page := fun i _ => negb (i =? 2);
     writable := fun _ => true |}.

(** The same run with a page on which every call fails. *)
Definition failing_world : world :=
  {| csvFolder := sample_folder;
     sheet := sheet sample_world;
     isoTime := isoTime sample_world;
     launches := true;
     page := fun _ _ => false;
     writable := fun _ => true |}.

(** A folder whose only CSV file holds punctuation and blanks. *)
Definition blank_world : world :=
  {| csvFolder := [ {| file_name := "sdn.csv";
                       file_rows := Some [["."; " - "]; [""]] |};
                    {| file_name := "notes.txt";
                       file_rows := Some [["JOHN SMITH"]] |} ];
     sheet := sheet sample_world;
     isoTime := isoTime sample_world;
     launches := true;
     page := fun _ _ => true;
     writable := fun _ => true |}.

(** A corpus that repeats one name 1300 times, for the overlong cell. *)
Definition long_world : world :=
  {| csvFolder := [ {| file_name := "sdn.csv";
                       file_rows := Some (repeat ["JOHN SMITH"] 1300) |} ];
     sheet := [ {| name_as_per_bank_account := VStr "John";
                   name_column := VUndefined |} ];
     isoTime := isoTime sample_world;
     launches := true;
     page := fun _ _ => true;
     writable := fun _ => true |}.

(** A corpus in which one name fills three cells, once in another
    spelling. *)
Definition repeated_folder : list csvFile :=
  [ {| file_name := "sdn.csv";
       file_rows := Some [["John Smith"; "Acme"]; ["JOHN SMITH"]] |};
    {| file_name := "alt.csv"; file_rows := Some [["john  smith."]] |} ].

Definition repeated_entries : list entry :=
  entriesOf (loadCSVFolder repeated_folder).

Definition blank_row : reportRow :=
  {| Publisher := VUndefined; MatchStatus := ""; MatchCount := 0;
     Matches := ""; Screenshot := Blank |}.

(** The run on [sample_world]: its folder and its rows. *)
Definition sample_results_folder : string :=
  "/srv/temp/OFAC Results 2024-01-02T03-04-05-678Z".

Definition sample_rows : list reportRow :=
  rowsOf (runChecker sample_world "/srv/temp" true).

(* ================================================================= *)
(** ** server.js: the routes and the connection of the event stream *)

(** What a route answers: a status with a text, the JSON body
    [{ zipFilename }], or [res.download] of a path of the temporary
    folder. *)
Inductive response : Type :=
| Status (code : nat) (body : string)
| Json (zipFilename : string)
| SendFile (filename : string).

(** The two folders the server keeps: the paths [multer] stored under
    [uploads/] and the names present in [TEMP_FOLDER]. *)
Record disk : Type := mkDisk {
  uploads : list string;
  temp : list string
}.

(** [fs.existsSync] on a name of a folder. *)
Definition existsSync (name : string) (names : list string) : bool :=
  existsb (String.eqb name) names.

(** [fs.removeSync] *)
Definition removeSync (name : string) (names : list string) : list string :=
  filter (fun n => negb (String.eqb name n)) names.

(** Creating a folder or writing a file under a name: nothing new when
    the name is there. *)
Definition create (name : string) (names : list string) : list string :=
  if existsSync name names then names else names ++ [name].

(** The folder [runChecker] creates under [downloadsFolder]. *)
Definition resultsFolderOf (w : world) (downloadsFolder : string) : string :=
  path_join downloadsFolder
    ("OFAC Results "
     ++ Str.map
          (fun c => if Ascii.eqb c ":" || Ascii.eqb c "." then "-"%char else c)
          (isoTime w)).

(** [app.post("/upload")]: the answer, the event stream and the folders
    afterwards.  [file] is [req.file]: the path of the stored upload, when
    there is one.  [runChecker] creates its folder once the corpus and the
    sheet are loaded; the archive is written beside it when the run
    returns, and only then is the upload removed. *)
Definition postUpload (file : option string) (w : world) (dirname : string)
    (currentSSE : nat -> bool) (d : disk)
  : response * list sseMessage * disk :=
  match file with
  | None => (Status 400 "No file uploaded.", [], d)
  | Some uploadedPath =>
      let TEMP_FOLDER := path_join dirname "temp" in
      let r := runChecker w TEMP_FOLDER true in
      let stream := upload w dirname currentSSE in
      let made :=
        if returned (loadCSVFolder (csvFolder w))
        then create (basename (resultsFolderOf w TEMP_FOLDER)) (temp d)
        else temp d in
      match run_result r with
      | Return (resultsFolder, _) =>
          let zipName := (basename resultsFolder ++ ".zip")%string in
          (Json zipName, stream,
           {| uploads := removeSync uploadedPath (uploads d);
              temp := create zipName made |})
      | Throw _ =>
          (Status 500 "Error processing the file. Check server logs.",
           stream, {| uploads := uploads d; temp := made |})
      end
  end.

(** [app.get("/download/:zip")] for a parameter that is the plain name of
    a file: the file is sent and removed once sent; a name that is not
    there answers 404.  The name of a folder and a parameter with an
    encoded separator are outside this model. *)
Definition getDownload (zip : string) (d : disk) : response * disk :=
  if existsSync zip (temp d)
  then (SendFile zip,
        {| uploads := uploads d; temp := removeSync zip (temp d) |})
  else (Status 404 "File not found.", d).

(** [app.get("/upload-progress")] keeps the response of the last request
    in [currentSSE]; the [close] of a request clears [currentSSE]. *)
Inductive sseEvent : Type :=
| Connect (res : nat)
| Close (res : nat).

Definition sseStep (currentSSE : option nat) (e : sseEvent) : option nat :=
  match e with
  | Connect res => Some res
  | Close _ => None
  end.

Definition sseAfter (history : list sseEvent) : option nat :=
  fold_left sseStep history None.

(* ================================================================= *)
(** ** Vocabulary of the further properties *)

(** The stream of the file reads without an error. *)
Definition returned_rows (f : csvFile) : bool :=
  match file_rows f with
  | Some _ => true
  | None => false
  end.

(** A word: not empty and free of white space. *)
Definition wordlike (w : string) : Prop :=
  w <> "" /\ Str.all (fun c => negb (Str.is_space c)) w = true.

(** The subject has a name on which [replace] can be called. *)
Definition sanitizable (pub : publisher) : bool :=
  isString (or_else (Name pub) (VStr "EMPTY")).

(** The page calls of [takeScreenshot] whose rejection throws. *)
Definition stepsOk (page : step -> bool) : bool :=
  page PageGoto && page PageEvaluate && page PageType && page PageClick
  && page PageScreenshot.

(** The screenshot of subject [i] is written. *)
Definition captured (w : world) (i : nat) (pub : publisher) : bool :=
  truthy (Name pub) && stepsOk (page w i).

Definition safeNameText (pub : publisher) : string :=
  match safeNameOf pub with
  | Return s => s
  | Throw _ => ""
  end.





(** The path of the JSON file of subject [i]. *)
Definition jsonPathOf (responsesFolder : string) (pub : publisher) (i : nat)
  : string :=
  path_join responsesFolder
    (safeNameText pub ++ "_" ++ Str.of_nat (i + 1) ++ ".json").

(** The files iteration [i] writes for a subject when it does not throw. *)
Definition artifactsOf (w : world) (screenshotsFolder responsesFolder : string)
    (pub : publisher) (i : nat) : list string :=
  jsonPathOf responsesFolder pub i
  :: (if captured w i pub
      then [path_join screenshotsFolder
              (safeNameText pub ++ "_" ++ Str.of_nat (i + 1) ++ ".png")]
      else []).

(** What iteration [i] throws, when it throws: the TypeError of [replace]
    on a name that is no string, else the error of the write of the JSON
    file. *)
Definition stepError (w : world) (responsesFolder : string)
    (pub : publisher) (i : nat) : option error :=
  if negb (sanitizable pub) then Some (TypeError replaceTypeError)
  else if negb (writable w (jsonPathOf responsesFolder pub i))
       then Some (WriteError (jsonPathOf responsesFolder pub i))
       else None.

(** The turn does not throw. *)
Definition noError (o : option error) : bool :=
  match o with
  | None => true
  | Some _ => false
  end.

(** The first error of a list of outcomes. *)
Fixpoint firstSome {A : Type} (l : list (option A)) : option A :=
  match l with
  | [] => None
  | Some a :: _ => Some a
  | None :: r => firstSome r
  end.

(** The calls of the callback in iteration [i]. *)
Definition callsOf (total : nat) (pub : publisher) (i : nat)
  : list progressCall :=
  [ mkCall (i + 1) total (Name pub) "Searching SDN/ALT lists";
    mkCall (i + 1) total (Name pub)
      ("Taking screenshot for " ++ dquote ++ toString (Name pub) ++ dquote) ].

(** The row iteration [i] pushes for a subject. *)
Definition rowOf (entries : list entry) (pub : publisher) (i : nat)
  : reportRow :=
  {| Publisher := Name pub;
     MatchStatus :=
       if 0 <? List.length (searchName (Name pub) entries)
       then "MATCH" else "CLEAR";
     MatchCount := List.length (searchName (Name pub) entries);
     Matches := truncateCell (joinedMatches entries pub);
     Screenshot := Hyperlink "View Screenshot" (linkOf (safeNameText pub) i) |}.

(** The subjects the loop goes through, counted from index [i]: those
    before the first turn that throws. *)
Fixpoint processedFrom (w : world) (responsesFolder : string) (i : nat)
    (pubs : list publisher) : list publisher :=
  match pubs with
  | [] => []
  | pub :: rest =>
      match stepError w responsesFolder pub i with
      | None => pub :: processedFrom w responsesFolder (S i) rest
      | Some _ => []
      end
  end.

(** The turn that throws, if any: the calls of the callback made in that
    turn before the throw, and the error. *)
Fixpoint failureFrom (w : world) (responsesFolder : string) (total i : nat)
    (pubs : list publisher) : option (list progressCall * error) :=
  match pubs with
  | [] => None
  | pub :: rest =>
      match stepError w responsesFolder pub i with
      | None => failureFrom w responsesFolder total (S i) rest
      | Some e =>
          Some (if sanitizable pub
                then [mkCall (i + 1) total (Name pub)
                        "Searching SDN/ALT lists"]
                else [],
                e)
      end
  end.

(** Two worlds that differ at most in what the page calls do. *)
Definition same_inputs (w w' : world) : Prop :=
  csvFolder w = csvFolder w' /\ sheet w = sheet w'
  /\ isoTime w = isoTime w' /\ launches w = launches w'
  /\ (forall p, writable w p = writable w' p).

(** A name of three hundred letters. *)
Definition long_name : string :=
  String.concat "" (repeat "ABCDEFGHIJ" 30).

(** A world whose second subject has a name too long for a file: a path
    of more than 255 characters cannot be written. *)
Definition long_name_world : world :=
  {| csvFolder := sample_folder;
     sheet := [ {| name_as_per_bank_account := VUndefined;
                   name_column := VStr "John Smit" |};
                {| name_as_per_bank_account := VUndefined;
                   name_column := VStr long_name |};
                {| name_as_per_bank_account := VUndefined;
                   name_column := VNum true "42" |} ];
     isoTime := isoTime sample_world;
     launches := true;
     page := fun _ _ => true;
     writable := fun p => String.length p <=? 255 |}.

(** A world with a number in the name column of its second row. *)
Definition numeric_world : world :=
  {| csvFolder := sample_folder;
     sheet := [ {| name_as_per_bank_account := VUndefined;
                   name_column := VStr "John Smit" |};
                {| name_as_per_bank_account := VUndefined;
                   name_column := VNum true "42" |};
                {| name_as_per_bank_account := VStr "Jane Doe";
                   name_column := VUndefined |} ];
     isoTime := isoTime sample_world;
     launches := true;
     page := fun _ _ => true;
     writable := fun _ => true |}.

(** The sample run on a page where only the results table never shows. *)
Definition no_table_world : world :=
  {| csvFolder := sample_folder;
     sheet := sheet sample_world;
     isoTime := isoTime sample_world;
     launches := true;
     page := fun i s => match s with
                        | PageWaitForSelector => false
                        | _ => page sample_world i s
                        end;
     writable := fun _ => true |}.

Definition sample_disk : disk :=
  {| uploads := ["uploads/3f9a"]; temp := [] |}.

(* ================================================================= *)
(** ** The earlier variant of checker.js (src/unnamed/part_000)

    [normalizeText], [loadCSVFolder] and [searchName] are the same text as
    in checker.js.  [takeScreenshot] and [runChecker] differ: no browser is
    launched by [runChecker], the evidence is gathered only for a subject
    with matches, and the files are named after the subject alone. *)

Module Legacy.

(** [s.replace(/\s+/g, "_")] *)
Fixpoint underscore_from (in_run : bool) (s : string) : string :=
  match s with
  | EmptyString => EmptyString
  | String c r =>
      if Str.is_space c
      then if in_run then underscore_from true r
           else String "_" (underscore_from true r)
      else String c (underscore_from false r)
  end.

Definition underscore (s : string) : string := underscore_from false s.

(** [takeScreenshot(name, filepath)]: the body declares an inner function
    of the same name, which nothing calls, and then reads [browser], a
    name no scope declares: every call rejects with that ReferenceError,
    of which the caller logs the message. *)
Definition takeScreenshot (name : value) (filepath : string)
    (files : list string) : result (list string) :=
  Throw (Error "browser is not defined").

(** The row pushed at the end of a turn; an empty link gives an empty
    cell. *)
Definition rowWith (pub : publisher) (matches : list matchResult)
    (screenshotLink : string) : reportRow :=
  {| Publisher := Name pub;
     MatchStatus := if 0 <? List.length matches then "MATCH" else "CLEAR";
     MatchCount := List.length matches;
     Matches := truncateCell (Str.join "; " (List.map showMatch matches));
     Screenshot :=
       if truthy (VStr screenshotLink)
       then Hyperlink "View Screenshot" screenshotLink
       else Blank |}.

(** The message of the TypeError of [pub.Name.replace] on a number or a
    boolean, as V8 words it. *)
Definition replaceTypeError : string := "pub.Name.replace is not a function".

(** The body of the loop: the state it leaves and whether it threw.  The
    call of [replace] and the write of the JSON file stand outside the
    [try]. *)
Definition iteration (w : world) (screeningEntries : list entry)
    (screenshotsFolder responsesFolder : string) (progressCallback : bool)
    (total i : nat) (pub : publisher) (st : progress)
  : progress * result unit :=
  let st :=
    notify progressCallback
      (mkCall (i + 1) total (Name pub)
         ("Processing " ++ dquote ++ toString (Name pub) ++ dquote ++ " ("
          ++ Str.of_nat (i + 1) ++ "/" ++ Str.of_nat total ++ ")..."))
      st in
  let matches := searchName (Name pub) screeningEntries in
  if SAVE_JSON_RESPONSES && (0 <? List.length matches)
  then
    match Name pub with
    | VStr s =>
        let safeName := underscore s in
        let jsonPath := path_join responsesFolder (safeName ++ ".json") in
        if negb (writable w jsonPath)
        then (st, Throw (WriteError jsonPath))
        else
          let st := writeFile jsonPath st in
          let screenshotPath :=
            path_join screenshotsFolder (safeName ++ ".png") in
          let st :=
            notify progressCallback
              (mkCall (i + 1) total (Name pub)
                 ("Taking OFAC screenshot for " ++ dquote
                  ++ toString (Name pub) ++ dquote))
              st in
          match takeScreenshot (Name pub) screenshotPath (files st) with
          | Return files' =>
              (pushRowOf
                 (rowWith pub matches
                    ("./screenshots/" ++ safeName ++ ".png")%string)
                 {| calls := calls st; files := files';
                    results := results st |},
               Return tt)
          | Throw _ => (pushRowOf (rowWith pub matches "") st, Return tt)
          end
    | _ => (st, Throw (TypeError replaceTypeError))
    end
  else (pushRowOf (rowWith pub matches "") st, Return tt).

Fixpoint forLoop (w : world) (screeningEntries : list entry)
    (screenshotsFolder responsesFolder : string) (progressCallback : bool)
    (total i : nat) (pubs : list publisher) (st : progress)
  : progress * result unit :=
  match pubs with
  | [] => (st, Return tt)
  | pub :: rest =>
      match iteration w screeningEntries screenshotsFolder responsesFolder
              progressCallback total i pub st with
      | (st', Return _) =>
          forLoop w screeningEntries screenshotsFolder responsesFolder
            progressCallback total (S i) rest st'
      | (st', Throw e) => (st', Throw e)
      end
  end.

Definition runChecker (w : world) (downloadsFolder : string)
    (progressCallback : bool) : run :=
  match loadCSVFolder (csvFolder w) with
  | Throw e => {| run_calls := []; run_files := []; run_result := Throw e |}
  | Return screeningEntries =>
      let publishers := loadPublishers (sheet w) in
      let total := List.length publishers in
      let timestamp :=
        Str.map
          (fun c => if Ascii.eqb c ":" || Ascii.eqb c "." then "-"%char else c)
          (isoTime w) in
      let resultsFolder :=
        path_join downloadsFolder ("OFAC Results " ++ timestamp) in
      let screenshotsFolder := path_join resultsFolder "screenshots" in
      let responsesFolder := path_join resultsFolder "responses" in
      let '(st, r) :=
        forLoop w screeningEntries screenshotsFolder responsesFolder
          progressCallback total 0 publishers
          {| calls := []; files := []; results := [] |} in
      match r with
      | Throw e =>
          {| run_calls := calls st; run_files := files st;
             run_result := Throw e |}
      | Return _ =>
          let workbook := path_join resultsFolder "OFAC_Results.xlsx" in
          if writable w workbook
          then {| run_calls := calls st;
                  run_files := files st ++ [workbook];
                  run_result := Return (resultsFolder, results st) |}
          else {| run_calls := calls st; run_files := files st;
                  run_result := Throw (WriteError workbook) |}
      end
  end.

(** The files a turn writes: the JSON of a subject with matches. *)
Definition artifactsOf (entries : list entry) (responsesFolder : string)
    (pub : publisher) : list string :=
  if 0 <? List.length (searchName (Name pub) entries)
  then [path_join responsesFolder
          (underscore (toString (Name pub)) ++ ".json")]
  else [].

End Legacy.

(** Two rows give the same verdict: all but the evidence cell agree. *)
Definition same_verdict (a b : reportRow) : Prop :=
  Publisher a = Publisher b /\ MatchStatus a = MatchStatus b
  /\ MatchCount a = MatchCount b /\ Matches a = Matches b.

(* ================================================================= *)
(** ** normalizeText over UTF-16

    A JavaScript string is a sequence of UTF-16 code units.  The module
    embeds [normalizeText] over such sequences: [toUpperCase] works on the
    code points of the string, a surrogate pair being one code point and
    an unpaired surrogate a code point of its own; the two [replace] calls
    and [trim] work on the code units. *)

Module Utf16.

Local Open Scope N_scope.

(** The class [\s] of a regular expression, which is also what [trim]
    removes: the white space and the line terminators of the language. *)
Definition is_space (c : N) : bool :=
  ((9 <=? c) && (c <=? 13)) || (c =? 0x20) || (c =? 0xA0) || (c =? 0x1680)
  || ((0x2000 <=? c) && (c <=? 0x200A)) || (c =? 0x2028) || (c =? 0x2029)
  || (c =? 0x202F) || (c =? 0x205F) || (c =? 0x3000) || (c =? 0xFEFF).

(** The character class [[\.,\-']]. *)
Definition is_mark (c : N) : bool :=
  (c =? 0x2E) || (c =? 0x2C) || (c =? 0x2D) || (c =? 0x27).

(** Leading and trailing surrogates. *)
Definition is_high (c : N) : bool := (0xD800 <=? c) && (c <=? 0xDBFF).
Definition is_low (c : N) : bool := (0xDC00 <=? c) && (c <=? 0xDFFF).
Definition is_surrogate (c : N) : bool := is_high c || is_low c.

(** A code point that is no surrogate. *)
Definition scalar (cp : N) : bool :=
  (cp <? 0x110000) && negb (is_surrogate cp).

(** The code point of a surrogate pair, and the code units of a code
    point. *)
Definition decode (h l : N) : N :=
  0x10000 + (h - 0xD800) * 0x400 + (l - 0xDC00).

Definition encode (cp : N) : list N :=
  if cp <? 0x10000 then [cp]
  else [0xD800 + (cp - 0x10000) / 0x400; 0xDC00 + (cp - 0x10000) mod 0x400].

(** The string of a list of code points. *)
Definition units (cps : list N) : list N := flat_map encode cps.

(** The code points whose upper case is more than one code point, with
    that upper case: the unconditional mappings of SpecialCasing.txt
    (Unicode 14.0). *)
Definition upperSpecial : list (N * list N) :=
  [
    (0xDF, [0x53; 0x53]); (0x149, [0x2BC; 0x4E]); (0x1F0, [0x4A; 0x30C]);
    (0x390, [0x399; 0x308; 0x301]); (0x3B0, [0x3A5; 0x308; 0x301]);
    (0x587, [0x535; 0x552]); (0x1E96, [0x48; 0x331]); (0x1E97, [0x54; 0x308]);
    (0x1E98, [0x57; 0x30A]); (0x1E99, [0x59; 0x30A]); (0x1E9A, [0x41; 0x2BE]);
    (0x1F50, [0x3A5; 0x313]); (0x1F52, [0x3A5; 0x313; 0x300]);
    (0x1F54, [0x3A5; 0x313; 0x301]); (0x1F56, [0x3A5; 0x313; 0x342]);
    (0x1F80, [0x1F08; 0x399]); (0x1F81, [0x1F09; 0x399]);
    (0x1F82, [0x1F0A; 0x399]); (0x1F83, [0x1F0B; 0x399]);
    (0x1F84, [0x1F0C; 0x399]); (0x1F85, [0x1F0D; 0x399]);
    (0x1F86, [0x1F0E; 0x399]); (0x1F87, [0x1F0F; 0x399]);
    (0x1F88, [0x1F08; 0x399]); (0x1F89, [0x1F09; 0x399]);
    (0x1F8A, [0x1F0A; 0x399]); (0x1F8B, [0x1F0B; 0x399]);
    (0x1F8C, [0x1F0C; 0x399]); (0x1F8D, [0x1F0D; 0x399]);
    (0x1F8E, [0x1F0E; 0x399]); (0x1F8F, [0x1F0F; 0x399]);
    (0x1F90, [0x1F28; 0x399]); (0x1F91, [0x1F29; 0x399]);
    (0x1F92, [0x1F2A; 0x399]); (0x1F93, [0x1F2B; 0x399]);
    (0x1F94, [0x1F2C; 0x399]); (0x1F95, [0x1F2D; 0x399]);
    (0x1F96, [0x1F2E; 0x399]); (0x1F97, [0x1F2F; 0x399]);
    (0x1F98, [0x1F28; 0x399]); (0x1F99, [0x1F29; 0x399]);
    (0x1F9A, [0x1F2A; 0x399]); (0x1F9B, [0x1F2B; 0x399]);
    (0x1F9C, [0x1F2C; 0x399]); (0x1F9D, [0x1F2D; 0x399]);
    (0x1F9E, [0x1F2E; 0x399]); (0x1F9F, [0x1F2F; 0x399]);
    (0x1FA0, [0x1F68; 0x399]); (0x1FA1, [0x1F69; 0x399]);
    (0x1FA2, [0x1F6A; 0x399]); (0x1FA3, [0x1F6B; 0x399]);
    (0x1FA4, [0x1F6C; 0x399]); (0x1FA5, [0x1F6D; 0x399]);
    (0x1FA6, [0x1F6E; 0x399]); (0x1FA7, [0x1F6F; 0x399]);
    (0x1FA8, [0x1F68; 0x399]); (0x1FA9, [0x1F69; 0x399]);
    (0x1FAA, [0x1F6A; 0x399]); (0x1FAB, [0x1F6B; 0x399]);
    (0x1FAC, [0x1F6C; 0x399]); (0x1FAD, [0x1F6D; 0x399]);
    (0x1FAE, [0x1F6E; 0x399]); (0x1FAF, [0x1F6F; 0x399]);
    (0x1FB2, [0x1FBA; 0x399]); (0x1FB3, [0x391; 0x399]);
    (0x1FB4, [0x386; 0x399]); (0x1FB6, [0x391; 0x342]);
    (0x1FB7, [0x391; 0x342; 0x399]); (0x1FBC, [0x391; 0x399]);
    (0x1FC2, [0x1FCA; 0x399]); (0x1FC3, [0x397; 0x399]);
    (0x1FC4, [0x389; 0x399]); (0x1FC6, [0x397; 0x342]);
    (0x1FC7, [0x397; 0x342; 0x399]); (0x1FCC, [0x397; 0x399]);
    (0x1FD2, [0x399; 0x308; 0x300]); (0x1FD3, [0x399; 0x308; 0x301]);
    (0x1FD6, [0x399; 0x342]); (0x1FD7, [0x399; 0x308; 0x342]);
    (0x1FE2, [0x3A5; 0x308; 0x300]); (0x1FE3, [0x3A5; 0x308; 0x301]);
    (0x1FE4, [0x3A1; 0x313]); (0x1FE6, [0x3A5; 0x342]);
    (0x1FE7, [0x3A5; 0x308; 0x342]); (0x1FF2, [0x1FFA; 0x399]);
    (0x1FF3, [0x3A9; 0x399]); (0x1FF4, [0x38F; 0x399]);
    (0x1FF6, [0x3A9; 0x342]); (0x1FF7, [0x3A9; 0x342; 0x399]);
    (0x1FFC, [0x3A9; 0x399]); (0xFB00, [0x46; 0x46]); (0xFB01, [0x46; 0x49]);
    (0xFB02, [0x46; 0x4C]); (0xFB03, [0x46; 0x46; 0x49]);
    (0xFB04, [0x46; 0x46; 0x4C]); (0xFB05, [0x53; 0x54]);
    (0xFB06, [0x53; 0x54]); (0xFB13, [0x544; 0x546]);
    (0xFB14, [0x544; 0x535]); (0xFB15, [0x544; 0x53B]);
    (0xFB16, [0x54E; 0x546]); (0xFB17, [0x544; 0x53D])
  ].

(** The other code points that differ from their upper case, with that
    upper case: the simple mappings of UnicodeData.txt (Unicode 14.0). *)
Definition upperSimple : list (N * N) :=
  [
    (0x61, 0x41); (0x62, 0x42); (0x63, 0x43); (0x64, 0x44); (0x65, 0x45);
    (0x66, 0x46); (0x67, 0x47); (0x68, 0x48); (0x69, 0x49); (0x6A, 0x4A);
    (0x6B, 0x4B); (0x6C, 0x4C); (0x6D, 0x4D); (0x6E, 0x4E); (0x6F, 0x4F);
    (0x70, 0x50); (0x71, 0x51); (0x72, 0x52); (0x73, 0x53); (0x74, 0x54);
    (0x75, 0x55); (0x76, 0x56); (0x77, 0x57); (0x78, 0x58); (0x79, 0x59);
    (0x7A, 0x5A); (0xB5, 0x39C); (0xE0, 0xC0); (0xE1, 0xC1); (0xE2, 0xC2);
    (0xE3, 0xC3); (0xE4, 0xC4); (0xE5, 0xC5); (0xE6, 0xC6); (0xE7, 0xC7);
    (0xE8, 0xC8); (0xE9, 0xC9); (0xEA, 0xCA); (0xEB, 0xCB); (0xEC, 0xCC);
    (0xED, 0xCD); (0xEE, 0xCE); (0xEF, 0xCF); (0xF0, 0xD0); (0xF1, 0xD1);
    (0xF2, 0xD2); (0xF3, 0xD3); (0xF4, 0xD4); (0xF5, 0xD5); (0xF6, 0xD6);
    (0xF8, 0xD8); (0xF9, 0xD9); (0xFA, 0xDA); (0xFB, 0xDB); (0xFC, 0xDC);
    (0xFD, 0xDD); (0xFE, 0xDE); (0xFF, 0x178); (0x101, 0x100); (0x103, 0x102);
    (0x105, 0x104); (0x107, 0x106); (0x109, 0x108); (0x10B, 0x10A);
    (0x10D, 0x10C); (0x10F, 0x10E); (0x111, 0x110); (0x113, 0x112);
    (0x115, 0x114); (0x117, 0x116); (0x119, 0x118); (0x11B, 0x11A);
    (0x11D, 0x11C); (0x11F, 0x11E); (0x121, 0x120); (0x123, 0x122);
    (0x125, 0x124); (0x127, 0x126); (0x129, 0x128); (0x12B, 0x12A);
    (0x12D, 0x12C); (0x12F, 0x12E); (0x131, 0x49); (0x133, 0x132);
    (0x135, 0x134); (0x137, 0x136); (0x13A, 0x139); (0x13C, 0x13B);
    (0x13E, 0x13D); (0x140, 0x13F); (0x142, 0x141); (0x144, 0x143);
    (0x146, 0x145); (0x148, 0x147); (0x14B, 0x14A); (0x14D, 0x14C);
    (0x14F, 0x14E); (0x151, 0x150); (0x153, 0x152); (0x155, 0x154);
    (0x157, 0x156); (0x159, 0x158); (0x15B, 0x15A); (0x15D, 0x15C);
    (0x15F, 0x15E); (0x161, 0x160); (0x163, 0x162); (0x165, 0x164);
    (0x167, 0x166); (0x169, 0x168); (0x16B, 0x16A); (0x16D, 0x16C);
    (0x16F, 0x16E); (0x171, 0x170); (0x173, 0x172); (0x175, 0x174);
    (0x177, 0x176); (0x17A, 0x179); (0x17C, 0x17B); (0x17E, 0x17D);
    (0x17F, 0x53); (0x180, 0x243); (0x183, 0x182); (0x185, 0x184);
    (0x188, 0x187); (0x18C, 0x18B); (0x192, 0x191); (0x195, 0x1F6);
    (0x199, 0x198); (0x19A, 0x23D); (0x19E, 0x220); (0x1A1, 0x1A0);
    (0x1A3, 0x1A2); (0x1A5, 0x1A4); (0x1A8, 0x1A7); (0x1AD, 0x1AC);
    (0x1B0, 0x1AF); (0x1B4, 0x1B3); (0x1B6, 0x1B5); (0x1B9, 0x1B8);
    (0x1BD, 0x1BC); (0x1BF, 0x1F7); (0x1C5, 0x1C4); (0x1C6, 0x1C4);
    (0x1C8, 0x1C7); (0x1C9, 0x1C7); (0x1CB, 0x1CA); (0x1CC, 0x1CA);
    (0x1CE, 0x1CD); (0x1D0, 0x1CF); (0x1D2, 0x1D1); (0x1D4, 0x1D3);
    (0x1D6, 0x1D5); (0x1D8, 0x1D7); (0x1DA, 0x1D9); (0x1DC, 0x1DB);
    (0x1DD, 0x18E); (0x1DF, 0x1DE); (0x1E1, 0x1E0); (0x1E3, 0x1E2);
    (0x1E5, 0x1E4); (0x1E7, 0x1E6); (0x1E9, 0x1E8); (0x1EB, 0x1EA);
    (0x1ED, 0x1EC); (0x1EF, 0x1EE); (0x1F2, 0x1F1); (0x1F3, 0x1F1);
    (0x1F5, 0x1F4); (0x1F9, 0x1F8); (0x1FB, 0x1FA); (0x1FD, 0x1FC);
    (0x1FF, 0x1FE); (0x201, 0x200); (0x203, 0x202); (0x205, 0x204);
    (0x207, 0x206); (0x209, 0x208); (0x20B, 0x20A); (0x20D, 0x20C);
    (0x20F, 0x20E); (0x211, 0x210); (0x213, 0x212); (0x215, 0x214);
    (0x217, 0x216); (0x219, 0x218); (0x21B, 0x21A); (0x21D, 0x21C);
    (0x21F, 0x21E); (0x223, 0x222); (0x225, 0x224); (0x227, 0x226);
    (0x229, 0x228); (0x22B, 0x22A); (0x22D, 0x22C); (0x22F, 0x22E);
    (0x231, 0x230); (0x233, 0x232); (0x23C, 0x23B); (0x23F, 0x2C7E);
    (0x240, 0x2C7F); (0x242, 0x241); (0x247, 0x246); (0x249, 0x248);
    (0x24B, 0x24A); (0x24D, 0x24C); (0x24F, 0x24E); (0x250, 0x2C6F);
    (0x251, 0x2C6D); (0x252, 0x2C70); (0x253, 0x181); (0x254, 0x186);
    (0x256, 0x189); (0x257, 0x18A); (0x259, 0x18F); (0x25B, 0x190);
    (0x25C, 0xA7AB); (0x260, 0x193); (0x261, 0xA7AC); (0x263, 0x194);
    (0x265, 0xA78D); (0x266, 0xA7AA); (0x268, 0x197); (0x269, 0x196);
    (0x26A, 0xA7AE); (0x26B, 0x2C62); (0x26C, 0xA7AD); (0x26F, 0x19C);
    (0x271, 0x2C6E); (0x272, 0x19D); (0x275, 0x19F); (0x27D, 0x2C64);
    (0x280, 0x1A6); (0x282, 0xA7C5); (0x283, 0x1A9); (0x287, 0xA7B1);
    (0x288, 0x1AE); (0x289, 0x244); (0x28A, 0x1B1); (0x28B, 0x1B2);
    (0x28C, 0x245); (0x292, 0x1B7); (0x29D, 0xA7B2); (0x29E, 0xA7B0);
    (0x345, 0x399); (0x371, 0x370); (0x373, 0x372); (0x377, 0x376);
    (0x37B, 0x3FD); (0x37C, 0x3FE); (0x37D, 0x3FF); (0x3AC, 0x386);
    (0x3AD, 0x388); (0x3AE, 0x389); (0x3AF, 0x38A); (0x3B1, 0x391);
    (0x3B2, 0x392); (0x3B3, 0x393); (0x3B4, 0x394); (0x3B5, 0x395);
    (0x3B6, 0x396); (0x3B7, 0x397); (0x3B8, 0x398); (0x3B9, 0x399);
    (0x3BA, 0x39A); (0x3BB, 0x39B); (0x3BC, 0x39C); (0x3BD, 0x39D);
    (0x3BE, 0x39E); (0x3BF, 0x39F); (0x3C0, 0x3A0); (0x3C1, 0x3A1);
    (0x3C2, 0x3A3); (0x3C3, 0x3A3); (0x3C4, 0x3A4); (0x3C5, 0x3A5);
    (0x3C6, 0x3A6); (0x3C7, 0x3A7); (0x3C8, 0x3A8); (0x3C9, 0x3A9);
    (0x3CA, 0x3AA); (0x3CB, 0x3AB); (0x3CC, 0x38C); (0x3CD, 0x38E);
    (0x3CE, 0x38F); (0x3D0, 0x392); (0x3D1, 0x398); (0x3D5, 0x3A6);
    (0x3D6, 0x3A0); (0x3D7, 0x3CF); (0x3D9, 0x3D8); (0x3DB, 0x3DA);
    (0x3DD, 0x3DC); (0x3DF, 0x3DE); (0x3E1, 0x3E0); (0x3E3, 0x3E2);
    (0x3E5, 0x3E4); (0x3E7, 0x3E6); (0x3E9, 0x3E8); (0x3EB, 0x3EA);
    (0x3ED, 0x3EC); (0x3EF, 0x3EE); (0x3F0, 0x39A); (0x3F1, 0x3A1);
    (0x3F2, 0x3F9); (0x3F3, 0x37F); (0x3F5, 0x395); (0x3F8, 0x3F7);
    (0x3FB, 0x3FA); (0x430, 0x410); (0x431, 0x411); (0x432, 0x412);
    (0x433, 0x413); (0x434, 0x414); (0x435, 0x415); (0x436, 0x416);
    (0x437, 0x417); (0x438, 0x418); (0x439, 0x419); (0x43A, 0x41A);
    (0x43B, 0x41B); (0x43C, 0x41C); (0x43D, 0x41D); (0x43E, 0x41E);
    (0x43F, 0x41F); (0x440, 0x420); (0x441, 0x421); (0x442, 0x422);
    (0x443, 0x423); (0x444, 0x424); (0x445, 0x425); (0x446, 0x426);
    (0x447, 0x427); (0x448, 0x428); (0x449, 0x429); (0x44A, 0x42A);
    (0x44B, 0x42B); (0x44C, 0x42C); (0x44D, 0x42D); (0x44E, 0x42E);
    (0x44F, 0x42F); (0x450, 0x400); (0x451, 0x401); (0x452, 0x402);
    (0x453, 0x403); (0x454, 0x404); (0x455, 0x405); (0x456, 0x406);
    (0x457, 0x407); (0x458, 0x408); (0x459, 0x409); (0x45A, 0x40A);
    (0x45B, 0x40B); (0x45C, 0x40C); (0x45D, 0x40D); (0x45E, 0x40E);
    (0x45F, 0x40F); (0x461, 0x460); (0x463, 0x462); (0x465, 0x464);
    (0x467, 0x466); (0x469, 0x468); (0x46B, 0x46A); (0x46D, 0x46C);
    (0x46F, 0x46E); (0x471, 0x470); (0x473, 0x472); (0x475, 0x474);
    (0x477, 0x476); (0x479, 0x478); (0x47B, 0x47A); (0x47D, 0x47C);
    (0x47F, 0x47E); (0x481, 0x480); (0x48B, 0x48A); (0x48D, 0x48C);
    (0x48F, 0x48E); (0x491, 0x490); (0x493, 0x492); (0x495, 0x494);
    (0x497, 0x496); (0x499, 0x498); (0x49B, 0x49A); (0x49D, 0x49C);
    (0x49F, 0x49E); (0x4A1, 0x4A0); (0x4A3, 0x4A2); (0x4A5, 0x4A4);
    (0x4A7, 0x4A6); (0x4A9, 0x4A8); (0x4AB, 0x4AA); (0x4AD, 0x4AC);
    (0x4AF, 0x4AE); (0x4B1, 0x4B0); (0x4B3, 0x4B2); (0x4B5, 0x4B4);
    (0x4B7, 0x4B6); (0x4B9, 0x4B8); (0x4BB, 0x4BA); (0x4BD, 0x4BC);
    (0x4BF, 0x4BE); (0x4C2, 0x4C1); (0x4C4, 0x4C3); (0x4C6, 0x4C5);
    (0x4C8, 0x4C7); (0x4CA, 0x4C9); (0x4CC, 0x4CB); (0x4CE, 0x4CD);
    (0x4CF, 0x4C0); (0x4D1, 0x4D0); (0x4D3, 0x4D2); (0x4D5, 0x4D4);
    (0x4D7, 0x4D6); (0x4D9, 0x4D8); (0x4DB, 0x4DA); (0x4DD, 0x4DC);
    (0x4DF, 0x4DE); (0x4E1, 0x4E0); (0x4E3, 0x4E2); (0x4E5, 0x4E4);
    (0x4E7, 0x4E6); (0x4E9, 0x4E8); (0x4EB, 0x4EA); (0x4ED, 0x4EC);
    (0x4EF, 0x4EE); (0x4F1, 0x4F0); (0x4F3, 0x4F2); (0x4F5, 0x4F4);
    (0x4F7, 0x4F6); (0x4F9, 0x4F8); (0x4FB, 0x4FA); (0x4FD, 0x4FC);
    (0x4FF, 0x4FE); (0x501, 0x500); (0x503, 0x502); (0x505, 0x504);
    (0x507, 0x506); (0x509, 0x508); (0x50B, 0x50A); (0x50D, 0x50C);
    (0x50F, 0x50E); (0x511, 0x510); (0x513, 0x512); (0x515, 0x514);
    (0x517, 0x516); (0x519, 0x518); (0x51B, 0x51A); (0x51D, 0x51C);
    (0x51F, 0x51E); (0x521, 0x520); (0x523, 0x522); (0x525, 0x524);
    (0x527, 0x526); (0x529, 0x528); (0x52B, 0x52A); (0x52D, 0x52C);
    (0x52F, 0x52E); (0x561, 0x531); (0x562, 0x532); (0x563, 0x533);
    (0x564, 0x534); (0x565, 0x535); (0x566, 0x536); (0x567, 0x537);
    (0x568, 0x538); (0x569, 0x539); (0x56A, 0x53A); (0x56B, 0x53B);
    (0x56C, 0x53C); (0x56D, 0x53D); (0x56E, 0x53E); (0x56F, 0x53F);
    (0x570, 0x540); (0x571, 0x541); (0x572, 0x542); (0x573, 0x543);
    (0x574, 0x544); (0x575, 0x545); (0x576, 0x546); (0x577, 0x547);
    (0x578, 0x548); (0x579, 0x549); (0x57A, 0x54A); (0x57B, 0x54B);
    (0x57C, 0x54C); (0x57D, 0x54D); (0x57E, 0x54E); (0x57F, 0x54F);
    (0x580, 0x550); (0x581, 0x551); (0x582, 0x552); (0x583, 0x553);
    (0x584, 0x554); (0x585, 0x555); (0x586, 0x556); (0x10D0, 0x1C90);
    (0x10D1, 0x1C91); (0x10D2, 0x1C92); (0x10D3, 0x1C93); (0x10D4, 0x1C94);
    (0x10D5, 0x1C95); (0x10D6, 0x1C96); (0x10D7, 0x1C97); (0x10D8, 0x1C98);
    (0x10D9, 0x1C99); (0x10DA, 0x1C9A); (0x10DB, 0x1C9B); (0x10DC, 0x1C9C);
    (0x10DD, 0x1C9D); (0x10DE, 0x1C9E); (0x10DF, 0x1C9F); (0x10E0, 0x1CA0);
    (0x10E1, 0x1CA1); (0x10E2, 0x1CA2); (0x10E3, 0x1CA3); (0x10E4, 0x1CA4);
    (0x10E5, 0x1CA5); (0x10E6, 0x1CA6); (0x10E7, 0x1CA7); (0x10E8, 0x1CA8);
    (0x10E9, 0x1CA9); (0x10EA, 0x1CAA); (0x10EB, 0x1CAB); (0x10EC, 0x1CAC);
    (0x10ED, 0x1CAD); (0x10EE, 0x1CAE); (0x10EF, 0x1CAF); (0x10F0, 0x1CB0);
    (0x10F1, 0x1CB1); (0x10F2, 0x1CB2); (0x10F3, 0x1CB3); (0x10F4, 0x1CB4);
    (0x10F5, 0x1CB5); (0x10F6, 0x1CB6); (0x10F7, 0x1CB7); (0x10F8, 0x1CB8);
    (0x10F9, 0x1CB9); (0x10FA, 0x1CBA); (0x10FD, 0x1CBD); (0x10FE, 0x1CBE);
    (0x10FF, 0x1CBF); (0x13F8, 0x13F0); (0x13F9, 0x13F1); (0x13FA, 0x13F2);
    (0x13FB, 0x13F3); (0x13FC, 0x13F4); (0x13FD, 0x13F5); (0x1C80, 0x412);
    (0x1C81, 0x414); (0x1C82, 0x41E); (0x1C83, 0x421); (0x1C84, 0x422);
    (0x1C85, 0x422); (0x1C86, 0x42A); (0x1C87, 0x462); (0x1C88, 0xA64A);
    (0x1D79, 0xA77D); (0x1D7D, 0x2C63); (0x1D8E, 0xA7C6); (0x1E01, 0x1E00);
    (0x1E03, 0x1E02); (0x1E05, 0x1E04); (0x1E07, 0x1E06); (0x1E09, 0x1E08);
    (0x1E0B, 0x1E0A); (0x1E0D, 0x1E0C); (0x1E0F, 0x1E0E); (0x1E11, 0x1E10);
    (0x1E13, 0x1E12); (0x1E15, 0x1E14); (0x1E17, 0x1E16); (0x1E19, 0x1E18);
    (0x1E1B, 0x1E1A); (0x1E1D, 0x1E1C); (0x1E1F, 0x1E1E); (0x1E21, 0x1E20);
    (0x1E23, 0x1E22); (0x1E25, 0x1E24); (0x1E27, 0x1E26); (0x1E29, 0x1E28);
    (0x1E2B, 0x1E2A); (0x1E2D, 0x1E2C); (0x1E2F, 0x1E2E); (0x1E31, 0x1E30);
    (0x1E33, 0x1E32); (0x1E35, 0x1E34); (0x1E37, 0x1E36); (0x1E39, 0x1E38);
    (0x1E3B, 0x1E3A); (0x1E3D, 0x1E3C); (0x1E3F, 0x1E3E); (0x1E41, 0x1E40);
    (0x1E43, 0x1E42); (0x1E45, 0x1E44); (0x1E47, 0x1E46); (0x1E49, 0x1E48);
    (0x1E4B, 0x1E4A); (0x1E4D, 0x1E4C); (0x1E4F, 0x1E4E); (0x1E51, 0x1E50);
    (0x1E53, 0x1E52); (0x1E55, 0x1E54); (0x1E57, 0x1E56); (0x1E59, 0x1E58);
    (0x1E5B, 0x1E5A); (0x1E5D, 0x1E5C); (0x1E5F, 0x1E5E); (0x1E61, 0x1E60);
    (0x1E63, 0x1E62); (0x1E65, 0x1E64); (0x1E67, 0x1E66); (0x1E69, 0x1E68);
    (0x1E6B, 0x1E6A); (0x1E6D, 0x1E6C); (0x1E6F, 0x1E6E); (0x1E71, 0x1E70);
    (0x1E73, 0x1E72); (0x1E75, 0x1E74); (0x1E77, 0x1E76); (0x1E79, 0x1E78);
    (0x1E7B, 0x1E7A); (0x1E7D, 0x1E7C); (0x1E7F, 0x1E7E); (0x1E81, 0x1E80);
    (0x1E83, 0x1E82); (0x1E85, 0x1E84); (0x1E87, 0x1E86); (0x1E89, 0x1E88);
    (0x1E8B, 0x1E8A); (0x1E8D, 0x1E8C); (0x1E8F, 0x1E8E); (0x1E91, 0x1E90);
    (0x1E93, 0x1E92); (0x1E95, 0x1E94); (0x1E9B, 0x1E60); (0x1EA1, 0x1EA0);
    (0x1EA3, 0x1EA2); (0x1EA5, 0x1EA4); (0x1EA7, 0x1EA6); (0x1EA9, 0x1EA8);
    (0x1EAB, 0x1EAA); (0x1EAD, 0x1EAC); (0x1EAF, 0x1EAE); (0x1EB1, 0x1EB0);
    (0x1EB3, 0x1EB2); (0x1EB5, 0x1EB4); (0x1EB7, 0x1EB6); (0x1EB9, 0x1EB8);
    (0x1EBB, 0x1EBA); (0x1EBD, 0x1EBC); (0x1EBF, 0x1EBE); (0x1EC1, 0x1EC0);
    (0x1EC3, 0x1EC2); (0x1EC5, 0x1EC4); (0x1EC7, 0x1EC6); (0x1EC9, 0x1EC8);
    (0x1ECB, 0x1ECA); (0x1ECD, 0x1ECC); (0x1ECF, 0x1ECE); (0x1ED1, 0x1ED0);
    (0x1ED3, 0x1ED2); (0x1ED5, 0x1ED4); (0x1ED7, 0x1ED6); (0x1ED9, 0x1ED8);
    (0x1EDB, 0x1EDA); (0x1EDD, 0x1EDC); (0x1EDF, 0x1EDE); (0x1EE1, 0x1EE0);
    (0x1EE3, 0x1EE2); (0x1EE5, 0x1EE4); (0x1EE7, 0x1EE6); (0x1EE9, 0x1EE8);
    (0x1EEB, 0x1EEA); (0x1EED, 0x1EEC); (0x1EEF, 0x1EEE); (0x1EF1, 0x1EF0);
    (0x1EF3, 0x1EF2); (0x1EF5, 0x1EF4); (0x1EF7, 0x1EF6); (0x1EF9, 0x1EF8);
    (0x1EFB, 0x1EFA); (0x1EFD, 0x1EFC); (0x1EFF, 0x1EFE); (0x1F00, 0x1F08);
    (0x1F01, 0x1F09); (0x1F02, 0x1F0A); (0x1F03, 0x1F0B); (0x1F04, 0x1F0C);
    (0x1F05, 0x1F0D); (0x1F06, 0x1F0E); (0x1F07, 0x1F0F); (0x1F10, 0x1F18);
    (0x1F11, 0x1F19); (0x1F12, 0x1F1A); (0x1F13, 0x1F1B); (0x1F14, 0x1F1C);
    (0x1F15, 0x1F1D); (0x1F20, 0x1F28); (0x1F21, 0x1F29); (0x1F22, 0x1F2A);
    (0x1F23, 0x1F2B); (0x1F24, 0x1F2C); (0x1F25, 0x1F2D); (0x1F26, 0x1F2E);
    (0x1F27, 0x1F2F); (0x1F30, 0x1F38); (0x1F31, 0x1F39); (0x1F32, 0x1F3A);
    (0x1F33, 0x1F3B); (0x1F34, 0x1F3C); (0x1F35, 0x1F3D); (0x1F36, 0x1F3E);
    (0x1F37, 0x1F3F); (0x1F40, 0x1F48); (0x1F41, 0x1F49); (0x1F42, 0x1F4A);
    (0x1F43, 0x1F4B); (0x1F44, 0x1F4C); (0x1F45, 0x1F4D); (0x1F51, 0x1F59);
    (0x1F53, 0x1F5B); (0x1F55, 0x1F5D); (0x1F57, 0x1F5F); (0x1F60, 0x1F68);
    (0x1F61, 0x1F69); (0x1F62, 0x1F6A); (0x1F63, 0x1F6B); (0x1F64, 0x1F6C);
    (0x1F65, 0x1F6D); (0x1F66, 0x1F6E); (0x1F67, 0x1F6F); (0x1F70, 0x1FBA);
    (0x1F71, 0x1FBB); (0x1F72, 0x1FC8); (0x1F73, 0x1FC9); (0x1F74, 0x1FCA);
    (0x1F75, 0x1FCB); (0x1F76, 0x1FDA); (0x1F77, 0x1FDB); (0x1F78, 0x1FF8);
    (0x1F79, 0x1FF9); (0x1F7A, 0x1FEA); (0x1F7B, 0x1FEB); (0x1F7C, 0x1FFA);
    (0x1F7D, 0x1FFB); (0x1FB0, 0x1FB8); (0x1FB1, 0x1FB9); (0x1FBE, 0x399);
    (0x1FD0, 0x1FD8); (0x1FD1, 0x1FD9); (0x1FE0, 0x1FE8); (0x1FE1, 0x1FE9);
    (0x1FE5, 0x1FEC); (0x214E, 0x2132); (0x2170, 0x2160); (0x2171, 0x2161);
    (0x2172, 0x2162); (0x2173, 0x2163); (0x2174, 0x2164); (0x2175, 0x2165);
    (0x2176, 0x2166); (0x2177, 0x2167); (0x2178, 0x2168); (0x2179, 0x2169);
    (0x217A, 0x216A); (0x217B, 0x216B); (0x217C, 0x216C); (0x217D, 0x216D);
    (0x217E, 0x216E); (0x217F, 0x216F); (0x2184, 0x2183); (0x24D0, 0x24B6);
    (0x24D1, 0x24B7); (0x24D2, 0x24B8); (0x24D3, 0x24B9); (0x24D4, 0x24BA);
    (0x24D5, 0x24BB); (0x24D6, 0x24BC); (0x24D7, 0x24BD); (0x24D8, 0x24BE);
    (0x24D9, 0x24BF); (0x24DA, 0x24C0); (0x24DB, 0x24C1); (0x24DC, 0x24C2);
    (0x24DD, 0x24C3); (0x24DE, 0x24C4); (0x24DF, 0x24C5); (0x24E0, 0x24C6);
    (0x24E1, 0x24C7); (0x24E2, 0x24C8); (0x24E3, 0x24C9); (0x24E4, 0x24CA);
    (0x24E5, 0x24CB); (0x24E6, 0x24CC); (0x24E7, 0x24CD); (0x24E8, 0x24CE);
    (0x24E9, 0x24CF); (0x2C30, 0x2C00); (0x2C31, 0x2C01); (0x2C32, 0x2C02);
    (0x2C33, 0x2C03); (0x2C34, 0x2C04); (0x2C35, 0x2C05); (0x2C36, 0x2C06);
    (0x2C37, 0x2C07); (0x2C38, 0x2C08); (0x2C39, 0x2C09); (0x2C3A, 0x2C0A);
    (0x2C3B, 0x2C0B); (0x2C3C, 0x2C0C); (0x2C3D, 0x2C0D); (0x2C3E, 0x2C0E);
    (0x2C3F, 0x2C0F); (0x2C40, 0x2C10); (0x2C41, 0x2C11); (0x2C42, 0x2C12);
    (0x2C43, 0x2C13); (0x2C44, 0x2C14); (0x2C45, 0x2C15); (0x2C46, 0x2C16);
    (0x2C47, 0x2C17); (0x2C48, 0x2C18); (0x2C49, 0x2C19); (0x2C4A, 0x2C1A);
    (0x2C4B, 0x2C1B); (0x2C4C, 0x2C1C); (0x2C4D, 0x2C1D); (0x2C4E, 0x2C1E);
    (0x2C4F, 0x2C1F); (0x2C50, 0x2C20); (0x2C51, 0x2C21); (0x2C52, 0x2C22);
    (0x2C53, 0x2C23); (0x2C54, 0x2C24); (0x2C55, 0x2C25); (0x2C56, 0x2C26);
    (0x2C57, 0x2C27); (0x2C58, 0x2C28); (0x2C59, 0x2C29); (0x2C5A, 0x2C2A);
    (0x2C5B, 0x2C2B); (0x2C5C, 0x2C2C); (0x2C5D, 0x2C2D); (0x2C5E, 0x2C2E);
    (0x2C5F, 0x2C2F); (0x2C61, 0x2C60); (0x2C65, 0x23A); (0x2C66, 0x23E);
    (0x2C68, 0x2C67); (0x2C6A, 0x2C69); (0x2C6C, 0x2C6B); (0x2C73, 0x2C72);
    (0x2C76, 0x2C75); (0x2C81, 0x2C80); (0x2C83, 0x2C82); (0x2C85, 0x2C84);
    (0x2C87, 0x2C86); (0x2C89, 0x2C88); (0x2C8B, 0x2C8A); (0x2C8D, 0x2C8C);
    (0x2C8F, 0x2C8E); (0x2C91, 0x2C90); (0x2C93, 0x2C92); (0x2C95, 0x2C94);
    (0x2C97, 0x2C96); (0x2C99, 0x2C98); (0x2C9B, 0x2C9A); (0x2C9D, 0x2C9C);
    (0x2C9F, 0x2C9E); (0x2CA1, 0x2CA0); (0x2CA3, 0x2CA2); (0x2CA5, 0x2CA4);
    (0x2CA7, 0x2CA6); (0x2CA9, 0x2CA8); (0x2CAB, 0x2CAA); (0x2CAD, 0x2CAC);
    (0x2CAF, 0x2CAE); (0x2CB1, 0x2CB0); (0x2CB3, 0x2CB2); (0x2CB5, 0x2CB4);
    (0x2CB7, 0x2CB6); (0x2CB9, 0x2CB8); (0x2CBB, 0x2CBA); (0x2CBD, 0x2CBC);
    (0x2CBF, 0x2CBE); (0x2CC1, 0x2CC0); (0x2CC3, 0x2CC2); (0x2CC5, 0x2CC4);
    (0x2CC7, 0x2CC6); (0x2CC9, 0x2CC8); (0x2CCB, 0x2CCA); (0x2CCD, 0x2CCC);
    (0x2CCF, 0x2CCE); (0x2CD1, 0x2CD0); (0x2CD3, 0x2CD2); (0x2CD5, 0x2CD4);
    (0x2CD7, 0x2CD6); (0x2CD9, 0x2CD8); (0x2CDB, 0x2CDA); (0x2CDD, 0x2CDC);
    (0x2CDF, 0x2CDE); (0x2CE1, 0x2CE0); (0x2CE3, 0x2CE2); (0x2CEC, 0x2CEB);
    (0x2CEE, 0x2CED); (0x2CF3, 0x2CF2); (0x2D00, 0x10A0); (0x2D01, 0x10A1);
    (0x2D02, 0x10A2); (0x2D03, 0x10A3); (0x2D04, 0x10A4); (0x2D05, 0x10A5);
    (0x2D06, 0x10A6); (0x2D07, 0x10A7); (0x2D08, 0x10A8); (0x2D09, 0x10A9);
    (0x2D0A, 0x10AA); (0x2D0B, 0x10AB); (0x2D0C, 0x10AC); (0x2D0D, 0x10AD);
    (0x2D0E, 0x10AE); (0x2D0F, 0x10AF); (0x2D10, 0x10B0); (0x2D11, 0x10B1);
    (0x2D12, 0x10B2); (0x2D13, 0x10B3); (0x2D14, 0x10B4); (0x2D15, 0x10B5);
    (0x2D16, 0x10B6); (0x2D17, 0x10B7); (0x2D18, 0x10B8); (0x2D19, 0x10B9);
    (0x2D1A, 0x10BA); (0x2D1B, 0x10BB); (0x2D1C, 0x10BC); (0x2D1D, 0x10BD);
    (0x2D1E, 0x10BE); (0x2D1F, 0x10BF); (0x2D20, 0x10C0); (0x2D21, 0x10C1);
    (0x2D22, 0x10C2); (0x2D23, 0x10C3); (0x2D24, 0x10C4); (0x2D25, 0x10C5);
    (0x2D27, 0x10C7); (0x2D2D, 0x10CD); (0xA641, 0xA640); (0xA643, 0xA642);
    (0xA645, 0xA644); (0xA647, 0xA646); (0xA649, 0xA648); (0xA64B, 0xA64A);
    (0xA64D, 0xA64C); (0xA64F, 0xA64E); (0xA651, 0xA650); (0xA653, 0xA652);
    (0xA655, 0xA654); (0xA657, 0xA656); (0xA659, 0xA658); (0xA65B, 0xA65A);
    (0xA65D, 0xA65C); (0xA65F, 0xA65E); (0xA661, 0xA660); (0xA663, 0xA662);
    (0xA665, 0xA664); (0xA667, 0xA666); (0xA669, 0xA668); (0xA66B, 0xA66A);
    (0xA66D, 0xA66C); (0xA681, 0xA680); (0xA683, 0xA682); (0xA685, 0xA684);
    (0xA687, 0xA686); (0xA689, 0xA688); (0xA68B, 0xA68A); (0xA68D, 0xA68C);
    (0xA68F, 0xA68E); (0xA691, 0xA690); (0xA693, 0xA692); (0xA695, 0xA694);
    (0xA697, 0xA696); (0xA699, 0xA698); (0xA69B, 0xA69A); (0xA723, 0xA722);
    (0xA725, 0xA724); (0xA727, 0xA726); (0xA729, 0xA728); (0xA72B, 0xA72A);
    (0xA72D, 0xA72C); (0xA72F, 0xA72E); (0xA733, 0xA732); (0xA735, 0xA734);
    (0xA737, 0xA736); (0xA739, 0xA738); (0xA73B, 0xA73A); (0xA73D, 0xA73C);
    (0xA73F, 0xA73E); (0xA741, 0xA740); (0xA743, 0xA742); (0xA745, 0xA744);
    (0xA747, 0xA746); (0xA749, 0xA748); (0xA74B, 0xA74A); (0xA74D, 0xA74C);
    (0xA74F, 0xA74E); (0xA751, 0xA750); (0xA753, 0xA752); (0xA755, 0xA754);
    (0xA757, 0xA756); (0xA759, 0xA758); (0xA75B, 0xA75A); (0xA75D, 0xA75C);
    (0xA75F, 0xA75E); (0xA761, 0xA760); (0xA763, 0xA762); (0xA765, 0xA764);
    (0xA767, 0xA766); (0xA769, 0xA768); (0xA76B, 0xA76A); (0xA76D, 0xA76C);
    (0xA76F, 0xA76E); (0xA77A, 0xA779); (0xA77C, 0xA77B); (0xA77F, 0xA77E);
    (0xA781, 0xA780); (0xA783, 0xA782); (0xA785, 0xA784); (0xA787, 0xA786);
    (0xA78C, 0xA78B); (0xA791, 0xA790); (0xA793, 0xA792); (0xA794, 0xA7C4);
    (0xA797, 0xA796); (0xA799, 0xA798); (0xA79B, 0xA79A); (0xA79D, 0xA79C);
    (0xA79F, 0xA79E); (0xA7A1, 0xA7A0); (0xA7A3, 0xA7A2); (0xA7A5, 0xA7A4);
    (0xA7A7, 0xA7A6); (0xA7A9, 0xA7A8); (0xA7B5, 0xA7B4); (0xA7B7, 0xA7B6);
    (0xA7B9, 0xA7B8); (0xA7BB, 0xA7BA); (0xA7BD, 0xA7BC); (0xA7BF, 0xA7BE);
    (0xA7C1, 0xA7C0); (0xA7C3, 0xA7C2); (0xA7C8, 0xA7C7); (0xA7CA, 0xA7C9);
    (0xA7D1, 0xA7D0); (0xA7D7, 0xA7D6); (0xA7D9, 0xA7D8); (0xA7F6, 0xA7F5);
    (0xAB53, 0xA7B3); (0xAB70, 0x13A0); (0xAB71, 0x13A1); (0xAB72, 0x13A2);
    (0xAB73, 0x13A3); (0xAB74, 0x13A4); (0xAB75, 0x13A5); (0xAB76, 0x13A6);
    (0xAB77, 0x13A7); (0xAB78, 0x13A8); (0xAB79, 0x13A9); (0xAB7A, 0x13AA);
    (0xAB7B, 0x13AB); (0xAB7C, 0x13AC); (0xAB7D, 0x13AD); (0xAB7E, 0x13AE);
    (0xAB7F, 0x13AF); (0xAB80, 0x13B0); (0xAB81, 0x13B1); (0xAB82, 0x13B2);
    (0xAB83, 0x13B3); (0xAB84, 0x13B4); (0xAB85, 0x13B5); (0xAB86, 0x13B6);
    (0xAB87, 0x13B7); (0xAB88, 0x13B8); (0xAB89, 0x13B9); (0xAB8A, 0x13BA);
    (0xAB8B, 0x13BB); (0xAB8C, 0x13BC); (0xAB8D, 0x13BD); (0xAB8E, 0x13BE);
    (0xAB8F, 0x13BF); (0xAB90, 0x13C0); (0xAB91, 0x13C1); (0xAB92, 0x13C2);
    (0xAB93, 0x13C3); (0xAB94, 0x13C4); (0xAB95, 0x13C5); (0xAB96, 0x13C6);
    (0xAB97, 0x13C7); (0xAB98, 0x13C8); (0xAB99, 0x13C9); (0xAB9A, 0x13CA);
    (0xAB9B, 0x13CB); (0xAB9C, 0x13CC); (0xAB9D, 0x13CD); (0xAB9E, 0x13CE);
    (0xAB9F, 0x13CF); (0xABA0, 0x13D0); (0xABA1, 0x13D1); (0xABA2, 0x13D2);
    (0xABA3, 0x13D3); (0xABA4, 0x13D4); (0xABA5, 0x13D5); (0xABA6, 0x13D6);
    (0xABA7, 0x13D7); (0xABA8, 0x13D8); (0xABA9, 0x13D9); (0xABAA, 0x13DA);
    (0xABAB, 0x13DB); (0xABAC, 0x13DC); (0xABAD, 0x13DD); (0xABAE, 0x13DE);
    (0xABAF, 0x13DF); (0xABB0, 0x13E0); (0xABB1, 0x13E1); (0xABB2, 0x13E2);
    (0xABB3, 0x13E3); (0xABB4, 0x13E4); (0xABB5, 0x13E5); (0xABB6, 0x13E6);
    (0xABB7, 0x13E7); (0xABB8, 0x13E8); (0xABB9, 0x13E9); (0xABBA, 0x13EA);
    (0xABBB, 0x13EB); (0xABBC, 0x13EC); (0xABBD, 0x13ED); (0xABBE, 0x13EE);
    (0xABBF, 0x13EF); (0xFF41, 0xFF21); (0xFF42, 0xFF22); (0xFF43, 0xFF23);
    (0xFF44, 0xFF24); (0xFF45, 0xFF25); (0xFF46, 0xFF26); (0xFF47, 0xFF27);
    (0xFF48, 0xFF28); (0xFF49, 0xFF29); (0xFF4A, 0xFF2A); (0xFF4B, 0xFF2B);
    (0xFF4C, 0xFF2C); (0xFF4D, 0xFF2D); (0xFF4E, 0xFF2E); (0xFF4F, 0xFF2F);
    (0xFF50, 0xFF30); (0xFF51, 0xFF31); (0xFF52, 0xFF32); (0xFF53, 0xFF33);
    (0xFF54, 0xFF34); (0xFF55, 0xFF35); (0xFF56, 0xFF36); (0xFF57, 0xFF37);
    (0xFF58, 0xFF38); (0xFF59, 0xFF39); (0xFF5A, 0xFF3A); (0x10428, 0x10400);
    (0x10429, 0x10401); (0x1042A, 0x10402); (0x1042B, 0x10403);
    (0x1042C, 0x10404); (0x1042D, 0x10405); (0x1042E, 0x10406);
    (0x1042F, 0x10407); (0x10430, 0x10408); (0x10431, 0x10409);
    (0x10432, 0x1040A); (0x10433, 0x1040B); (0x10434, 0x1040C);
    (0x10435, 0x1040D); (0x10436, 0x1040E); (0x10437, 0x1040F);
    (0x10438, 0x10410); (0x10439, 0x10411); (0x1043A, 0x10412);
    (0x1043B, 0x10413); (0x1043C, 0x10414); (0x1043D, 0x10415);
    (0x1043E, 0x10416); (0x1043F, 0x10417); (0x10440, 0x10418);
    (0x10441, 0x10419); (0x10442, 0x1041A); (0x10443, 0x1041B);
    (0x10444, 0x1041C); (0x10445, 0x1041D); (0x10446, 0x1041E);
    (0x10447, 0x1041F); (0x10448, 0x10420); (0x10449, 0x10421);
    (0x1044A, 0x10422); (0x1044B, 0x10423); (0x1044C, 0x10424);
    (0x1044D, 0x10425); (0x1044E, 0x10426); (0x1044F, 0x10427);
    (0x104D8, 0x104B0); (0x104D9, 0x104B1); (0x104DA, 0x104B2);
    (0x104DB, 0x104B3); (0x104DC, 0x104B4); (0x104DD, 0x104B5);
    (0x104DE, 0x104B6); (0x104DF, 0x104B7); (0x104E0, 0x104B8);
    (0x104E1, 0x104B9); (0x104E2, 0x104BA); (0x104E3, 0x104BB);
    (0x104E4, 0x104BC); (0x104E5, 0x104BD); (0x104E6, 0x104BE);
    (0x104E7, 0x104BF); (0x104E8, 0x104C0); (0x104E9, 0x104C1);
    (0x104EA, 0x104C2); (0x104EB, 0x104C3); (0x104EC, 0x104C4);
    (0x104ED, 0x104C5); (0x104EE, 0x104C6); (0x104EF, 0x104C7);
    (0x104F0, 0x104C8); (0x104F1, 0x104C9); (0x104F2, 0x104CA);
    (0x104F3, 0x104CB); (0x104F4, 0x104CC); (0x104F5, 0x104CD);
    (0x104F6, 0x104CE); (0x104F7, 0x104CF); (0x104F8, 0x104D0);
    (0x104F9, 0x104D1); (0x104FA, 0x104D2); (0x104FB, 0x104D3);
    (0x10597, 0x10570); (0x10598, 0x10571); (0x10599, 0x10572);
    (0x1059A, 0x10573); (0x1059B, 0x10574); (0x1059C, 0x10575);
    (0x1059D, 0x10576); (0x1059E, 0x10577); (0x1059F, 0x10578);
    (0x105A0, 0x10579); (0x105A1, 0x1057A); (0x105A3, 0x1057C);
    (0x105A4, 0x1057D); (0x105A5, 0x1057E); (0x105A6, 0x1057F);
    (0x105A7, 0x10580); (0x105A8, 0x10581); (0x105A9, 0x10582);
    (0x105AA, 0x10583); (0x105AB, 0x10584); (0x105AC, 0x10585);
    (0x105AD, 0x10586); (0x105AE, 0x10587); (0x105AF, 0x10588);
    (0x105B0, 0x10589); (0x105B1, 0x1058A); (0x105B3, 0x1058C);
    (0x105B4, 0x1058D); (0x105B5, 0x1058E); (0x105B6, 0x1058F);
    (0x105B7, 0x10590); (0x105B8, 0x10591); (0x105B9, 0x10592);
    (0x105BB, 0x10594); (0x105BC, 0x10595); (0x10CC0, 0x10C80);
    (0x10CC1, 0x10C81); (0x10CC2, 0x10C82); (0x10CC3, 0x10C83);
    (0x10CC4, 0x10C84); (0x10CC5, 0x10C85); (0x10CC6, 0x10C86);
    (0x10CC7, 0x10C87); (0x10CC8, 0x10C88); (0x10CC9, 0x10C89);
    (0x10CCA, 0x10C8A); (0x10CCB, 0x10C8B); (0x10CCC, 0x10C8C);
    (0x10CCD, 0x10C8D); (0x10CCE, 0x10C8E); (0x10CCF, 0x10C8F);
    (0x10CD0, 0x10C90); (0x10CD1, 0x10C91); (0x10CD2, 0x10C92);
    (0x10CD3, 0x10C93); (0x10CD4, 0x10C94); (0x10CD5, 0x10C95);
    (0x10CD6, 0x10C96); (0x10CD7, 0x10C97); (0x10CD8, 0x10C98);
    (0x10CD9, 0x10C99); (0x10CDA, 0x10C9A); (0x10CDB, 0x10C9B);
    (0x10CDC, 0x10C9C); (0x10CDD, 0x10C9D); (0x10CDE, 0x10C9E);
    (0x10CDF, 0x10C9F); (0x10CE0, 0x10CA0); (0x10CE1, 0x10CA1);
    (0x10CE2, 0x10CA2); (0x10CE3, 0x10CA3); (0x10CE4, 0x10CA4);
    (0x10CE5, 0x10CA5); (0x10CE6, 0x10CA6); (0x10CE7, 0x10CA7);
    (0x10CE8, 0x10CA8); (0x10CE9, 0x10CA9); (0x10CEA, 0x10CAA);
    (0x10CEB, 0x10CAB); (0x10CEC, 0x10CAC); (0x10CED, 0x10CAD);
    (0x10CEE, 0x10CAE); (0x10CEF, 0x10CAF); (0x10CF0, 0x10CB0);
    (0x10CF1, 0x10CB1); (0x10CF2, 0x10CB2); (0x118C0, 0x118A0);
    (0x118C1, 0x118A1); (0x118C2, 0x118A2); (0x118C3, 0x118A3);
    (0x118C4, 0x118A4); (0x118C5, 0x118A5); (0x118C6, 0x118A6);
    (0x118C7, 0x118A7); (0x118C8, 0x118A8); (0x118C9, 0x118A9);
    (0x118CA, 0x118AA); (0x118CB, 0x118AB); (0x118CC, 0x118AC);
    (0x118CD, 0x118AD); (0x118CE, 0x118AE); (0x118CF, 0x118AF);
    (0x118D0, 0x118B0); (0x118D1, 0x118B1); (0x118D2, 0x118B2);
    (0x118D3, 0x118B3); (0x118D4, 0x118B4); (0x118D5, 0x118B5);
    (0x118D6, 0x118B6); (0x118D7, 0x118B7); (0x118D8, 0x118B8);
    (0x118D9, 0x118B9); (0x118DA, 0x118BA); (0x118DB, 0x118BB);
    (0x118DC, 0x118BC); (0x118DD, 0x118BD); (0x118DE, 0x118BE);
    (0x118DF, 0x118BF); (0x16E60, 0x16E40); (0x16E61, 0x16E41);
    (0x16E62, 0x16E42); (0x16E63, 0x16E43); (0x16E64, 0x16E44);
    (0x16E65, 0x16E45); (0x16E66, 0x16E46); (0x16E67, 0x16E47);
    (0x16E68, 0x16E48); (0x16E69, 0x16E49); (0x16E6A, 0x16E4A);
    (0x16E6B, 0x16E4B); (0x16E6C, 0x16E4C); (0x16E6D, 0x16E4D);
    (0x16E6E, 0x16E4E); (0x16E6F, 0x16E4F); (0x16E70, 0x16E50);
    (0x16E71, 0x16E51); (0x16E72, 0x16E52); (0x16E73, 0x16E53);
    (0x16E74, 0x16E54); (0x16E75, 0x16E55); (0x16E76, 0x16E56);
    (0x16E77, 0x16E57); (0x16E78, 0x16E58); (0x16E79, 0x16E59);
    (0x16E7A, 0x16E5A); (0x16E7B, 0x16E5B); (0x16E7C, 0x16E5C);
    (0x16E7D, 0x16E5D); (0x16E7E, 0x16E5E); (0x16E7F, 0x16E5F);
    (0x1E922, 0x1E900); (0x1E923, 0x1E901); (0x1E924, 0x1E902);
    (0x1E925, 0x1E903); (0x1E926, 0x1E904); (0x1E927, 0x1E905);
    (0x1E928, 0x1E906); (0x1E929, 0x1E907); (0x1E92A, 0x1E908);
    (0x1E92B, 0x1E909); (0x1E92C, 0x1E90A); (0x1E92D, 0x1E90B);
    (0x1E92E, 0x1E90C); (0x1E92F, 0x1E90D); (0x1E930, 0x1E90E);
    (0x1E931, 0x1E90F); (0x1E932, 0x1E910); (0x1E933, 0x1E911);
    (0x1E934, 0x1E912); (0x1E935, 0x1E913); (0x1E936, 0x1E914);
    (0x1E937, 0x1E915); (0x1E938, 0x1E916); (0x1E939, 0x1E917);
    (0x1E93A, 0x1E918); (0x1E93B, 0x1E919); (0x1E93C, 0x1E91A);
    (0x1E93D, 0x1E91B); (0x1E93E, 0x1E91C); (0x1E93F, 0x1E91D);
    (0x1E940, 0x1E91E); (0x1E941, 0x1E91F); (0x1E942, 0x1E920);
    (0x1E943, 0x1E921)
  ].

Fixpoint assoc {A : Type} (cp : N) (t : list (N * A)) : option A :=
  match t with
  | [] => None
  | (k, a) :: r => if cp =? k then Some a else assoc cp r
  end.

(** The upper case of a code point: one or more code points. *)
Definition upperCodePoint (cp : N) : list N :=
  match assoc cp upperSpecial with
  | Some outs => outs
  | None =>
      match assoc cp upperSimple with
      | Some o => [o]
      | None => [cp]
      end
  end.

(** [s.toUpperCase()]: the code points of [s], read from the left, each
    replaced by its upper case.  A leading surrogate followed by a
    trailing one is the code point of the pair; any other surrogate stands
    for itself. *)
Fixpoint toUpperCase (s : list N) : list N :=
  match s with
  | [] => []
  | c :: r =>
      match r with
      | l :: r' =>
          if is_high c && is_low l
          then units (upperCodePoint (decode c l)) ++ toUpperCase r'
          else units (upperCodePoint c) ++ toUpperCase r
      | [] => units (upperCodePoint c)
      end
  end.

(** [s.replace(/[p]/g, "")] *)
Definition remove (p : N -> bool) (s : list N) : list N :=
  filter (fun c => negb (p c)) s.

(** [s.replace(/\s+/g, " ")] *)
Fixpoint collapse_from (in_run : bool) (s : list N) : list N :=
  match s with
  | [] => []
  | c :: r =>
      if is_space c
      then if in_run then collapse_from true r
           else 0x20 :: collapse_from true r
      else c :: collapse_from false r
  end.

Definition collapse (s : list N) : list N := collapse_from false s.

Fixpoint trimStart (s : list N) : list N :=
  match s with
  | [] => []
  | c :: r => if is_space c then trimStart r else s
  end.

Fixpoint trimEnd (s : list N) : list N :=
  match s with
  | [] => []
  | c :: r =>
      match trimEnd r with
      | [] => if is_space c then [] else [c]
      | r' => c :: r'
      end
  end.

(** [s.trim()] *)
Definition trim (s : list N) : list N := trimEnd (trimStart s).

(** The code units of an ASCII text. *)
Definition ofString (s : string) : list N :=
  List.map N_of_ascii (list_ascii_of_string s).

(** The values [normalizeText] can be given. *)
Inductive value : Type :=
| VUndefined
| VNull
| VBool (b : bool)
| VNum (nonzero : bool) (text : list N)
| VStr (s : list N).

Definition truthy (v : value) : bool :=
  match v with
  | VUndefined | VNull => false
  | VBool b => b
  | VNum nonzero _ => nonzero
  | VStr [] => false
  | VStr (_ :: _) => true
  end.

Definition toString (v : value) : list N :=
  match v with
  | VUndefined => ofString "undefined"
  | VNull => ofString "null"
  | VBool true => ofString "true"
  | VBool false => ofString "false"
  | VNum _ text => text
  | VStr s => s
  end.

Definition normalizeString (s : list N) : list N :=
  trim (collapse (remove is_mark (toUpperCase s))).

Definition normalizeText (text : value) : list N :=
  if negb (truthy text) then []
  else normalizeString (toString text).

(** The string reads as code points that all satisfy [p]: every unit is
    below [0x10000] and no surrogate is unpaired. *)
Fixpoint pointsb (p : N -> bool) (s : list N) : bool :=
  match s with
  | [] => true
  | c :: r =>
      if is_high c
      then match r with
           | l :: r' => is_low l && p (decode c l) && pointsb p r'
           | [] => false
           end
      else (c <? 0x10000) && negb (is_low c) && p c && pointsb p r
  end.

(** Well-formed UTF-16. *)
Definition wellFormed (s : list N) : bool := pointsb (fun _ => true) s.

Inductive Points (P : N -> Prop) : list N -> Prop :=
| Points_nil : Points P []
| Points_bmp (c : N) (r : list N) :
    c < 0x10000 -> is_surrogate c = false -> P c -> Points P r ->
    Points P (c :: r)
| Points_pair (h l : N) (r : list N) :
    is_high h = true -> is_low l = true -> P (decode h l) -> Points P r ->
    Points P (h :: l :: r).

(** The code point is its own upper case. *)
Definition Fixed (cp : N) : Prop := upperCodePoint cp = [cp].

(** The code points that have an upper case of their own, and the code
    points that are the upper case of another. *)
Definition upperKeys : list N :=
  List.map fst upperSpecial ++ List.map fst upperSimple.

Definition upperOutputs : list N :=
  flat_map snd upperSpecial ++ List.map snd upperSimple.

(** White space occurs in [s] only as single spaces; [prev] tells that a
    space stands just before [s]. *)
Fixpoint tidy (prev : bool) (s : list N) : bool :=
  match s with
  | [] => true
  | c :: r =>
      if is_space c
      then (c =? 0x20) && negb prev && tidy true r
      else tidy false r
  end.

End Utf16.

(** The text of the pipeline is ASCII. *)
Definition isAscii (s : string) : bool :=
  Str.all (fun c => (N_of_ascii c <? 128)%N) s.

(** A value of the pipeline as a value over UTF-16. *)
Definition ofValue (v : value) : Utf16.value :=
  match v with
  | VUndefined => Utf16.VUndefined
  | VNull => Utf16.VNull
  | VBool b => Utf16.VBool b
  | VNum nonzero text => Utf16.VNum nonzero (Utf16.ofString text)
  | VStr s => Utf16.VStr (Utf16.ofString s)
  end.

(* ================================================================= *)
(** ** Strings: lemmas *)

Section StringFacts.

Variable p : ascii -> bool.

Lemma all_map (f : ascii -> ascii) (s : string) :
  (forall c, p (f c) = true) -> Str.all p (Str.map f s) = true.
Proof.
  intros Hf. induction s as [|c r IH]; simpl; [reflexivity|].
  now rewrite Hf, IH.
Qed.

Lemma all_remove (q : ascii -> bool) (s : string) :
  Str.all p s = true -> Str.all p (Str.remove q s) = true.
Proof.
  induction s as [|c r IH]; simpl; [reflexivity|].
  intros H. apply andb_true_iff in H as [Hc Hr].
  destruct (q c); simpl; [now apply IH|].
  now rewrite Hc, IH.
Qed.

Lemma all_collapse (b : bool) (s : string) :
  p " "%char = true ->
  Str.all p s = true -> Str.all p (Str.collapse_from b s) = true.
Proof.
  intros Hsp. revert b. induction s as [|c r IH]; intros b; simpl;
    [reflexivity|].
  intros H. apply andb_true_iff in H as [Hc Hr].
  destruct (Str.is_space c).
  - destruct b; simpl; [now apply IH|]. now rewrite Hsp, IH.
  - simpl. now rewrite Hc, IH.
Qed.

Lemma all_trimStart (s : string) :
  Str.all p s = true -> Str.all p (Str.trimStart s) = true.
Proof.
  induction s as [|c r IH]; simpl; [reflexivity|].
  intros H. destruct (Str.is_space c).
  - apply andb_true_iff in H as [_ Hr]. now apply IH.
  - exact H.
Qed.

Lemma all_trimEnd (s : string) :
  Str.all p s = true -> Str.all p (Str.trimEnd s) = true.
Proof.
  induction s as [|c r IH]; simpl; [reflexivity|].
  intros H. apply andb_true_iff in H as [Hc Hr].
  specialize (IH Hr).
  destruct (Str.trimEnd r) as [|d r'].
  - destruct (Str.is_space c); simpl; [reflexivity|]. now rewrite Hc.
  - simpl in *. now rewrite Hc, IH.
Qed.

End StringFacts.

Lemma all_not_removed (q : ascii -> bool) (s : string) :
  Str.all (fun c => negb (q c)) (Str.remove q s) = true.
Proof.
  induction s as [|c r IH]; simpl; [reflexivity|].
  destruct (q c) eqn:E; simpl; [exact IH|]. now rewrite E, IH.
Qed.

Lemma remove_none (q : ascii -> bool) (s : string) :
  Str.all (fun c => negb (q c)) s = true -> Str.remove q s = s.
Proof.
  induction s as [|c r IH]; simpl; [reflexivity|].
  intros H. apply andb_true_iff in H as [Hc Hr].
  apply negb_true_iff in Hc. rewrite Hc. now rewrite IH.
Qed.

Lemma map_fixed (f : ascii -> ascii) (s : string) :
  Str.all (fun c => Ascii.eqb (f c) c) s = true -> Str.map f s = s.
Proof.
  induction s as [|c r IH]; simpl; [reflexivity|].
  intros H. apply andb_true_iff in H as [Hc Hr].
  apply Ascii.eqb_eq in Hc. now rewrite Hc, IH.
Qed.

Lemma upper_char_idem (c : ascii) :
  Str.upper_char (Str.upper_char c) = Str.upper_char c.
Proof.
  destruct c as [[|] [|] [|] [|] [|] [|] [|] [|]]; reflexivity.
Qed.

Lemma tidy_collapse (b : bool) (s : string) :
  tidy b (Str.collapse_from b s) = true.
Proof.
  revert b. induction s as [|c r IH]; intros b; simpl; [reflexivity|].
  destruct (Str.is_space c) eqn:E.
  - destruct b; [apply IH|]. simpl. apply IH.
  - simpl. rewrite E. apply IH.
Qed.

Lemma tidy_weaken (s : string) : tidy true s = true -> tidy false s = true.
Proof.
  destruct s as [|c r]; simpl; [reflexivity|].
  destruct (Str.is_space c); [|trivial].
  rewrite andb_false_r. discriminate.
Qed.

Lemma tidy_trimStart (b : bool) (s : string) :
  tidy b s = true -> tidy false (Str.trimStart s) = true.
Proof.
  revert b. induction s as [|c r IH]; intros b; simpl; [reflexivity|].
  destruct (Str.is_space c) eqn:E.
  - intros H. apply andb_true_iff in H as [_ Hr]. now apply (IH true).
  - simpl. now rewrite E.
Qed.

Lemma tidy_trimEnd (b : bool) (s : string) :
  tidy b s = true -> tidy b (Str.trimEnd s) = true.
Proof.
  revert b. induction s as [|c r IH]; intros b; simpl; [reflexivity|].
  destruct (Str.is_space c) eqn:E.
  - intros H. apply andb_true_iff in H as [H1 Hr].
    specialize (IH true Hr).
    destruct (Str.trimEnd r) as [|d r']; [reflexivity|].
    cbn [tidy]. rewrite E, H1. exact IH.
  - intros H. specialize (IH false H).
    destruct (Str.trimEnd r) as [|d r'].
    + simpl. now rewrite E.
    + cbn [tidy]. rewrite E. exact IH.
Qed.

Lemma collapse_tidy (b : bool) (s : string) :
  tidy b s = true -> Str.collapse_from b s = s.
Proof.
  revert b. induction s as [|c r IH]; intros b; simpl; [reflexivity|].
  destruct (Str.is_space c).
  - intros H. apply andb_true_iff in H as [H1 Hr].
    apply andb_true_iff in H1 as [Hc Hb].
    apply Ascii.eqb_eq in Hc. apply negb_true_iff in Hb. subst.
    now rewrite IH.
  - intros H. now rewrite IH.
Qed.

Lemma trimStart_head (s : string) :
  Str.trimStart s = EmptyString
  \/ exists c r, Str.trimStart s = String c r /\ Str.is_space c = false.
Proof.
  induction s as [|c r IH]; simpl; [now left|].
  destruct (Str.is_space c) eqn:E; [exact IH|].
  right. now exists c, r.
Qed.

Lemma trimEnd_idem (s : string) :
  Str.trimEnd (Str.trimEnd s) = Str.trimEnd s.
Proof.
  induction s as [|c r IH]; simpl; [reflexivity|].
  destruct (Str.trimEnd r) as [|d r'] eqn:E.
  - destruct (Str.is_space c) eqn:Ec; simpl; [reflexivity|]. now rewrite Ec.
  - cbn [Str.trimEnd]. cbn [Str.trimEnd] in IH. now rewrite IH.
Qed.

Lemma trimStart_trim (s : string) :
  Str.trimStart (Str.trim s) = Str.trim s.
Proof.
  unfold Str.trim.
  destruct (trimStart_head s) as [E | (c & r & E & Hc)]; rewrite E;
    [reflexivity|].
  cbn [Str.trimEnd].
  destruct (Str.trimEnd r); rewrite ?Hc; cbn [Str.trimStart]; now rewrite Hc.
Qed.

Lemma normalizeString_canonical (s : string) : canonical (normalizeString s).
Proof.
  unfold canonical, normalizeString, Str.trim, Str.collapse, Str.toUpperCase.
  repeat split.
  - apply all_trimEnd, all_trimStart, all_collapse; [reflexivity|].
    apply all_remove, all_map. intros c. rewrite upper_char_idem.
    apply Ascii.eqb_refl.
  - apply all_trimEnd, all_trimStart, all_collapse; [reflexivity|].
    apply all_not_removed.
  - apply tidy_trimEnd, (tidy_trimStart false), tidy_collapse.
  - apply trimStart_trim.
  - apply trimEnd_idem.
Qed.

Lemma normalizeString_fixed (s : string) :
  canonical s -> normalizeString s = s.
Proof.
  intros (Hu & Hp & Ht & Hs & He).
  unfold normalizeString, Str.trim, Str.collapse, Str.toUpperCase.
  rewrite (map_fixed _ _ Hu), (remove_none _ _ Hp), (collapse_tidy _ _ Ht).
  now rewrite Hs, He.
Qed.

(* ================================================================= *)
(** ** normalizeText over UTF-16: code points *)

Lemma pointsb_Points (p : N -> bool) (s : list N) :
  Utf16.pointsb p s = true -> Utf16.Points (fun cp => p cp = true) s.
Proof.
  remember (List.length s) as n eqn:Hn. revert s Hn.
  induction n as [n IH] using lt_wf_ind. intros s Hn.
  destruct s as [|c r]; [constructor|]. cbn [Utf16.pointsb].
  destruct (Utf16.is_high c) eqn:Eh.
  - destruct r as [|l r']; [discriminate|]. intros H.
    apply andb_true_iff in H as [H H3]. apply andb_true_iff in H as [H1 H2].
    apply Utf16.Points_pair; try assumption.
    apply (IH (List.length r')); [subst n; cbn [List.length]; lia | reflexivity
                                 | assumption].
  - intros H. apply andb_true_iff in H as [H H4].
    apply andb_true_iff in H as [H H3]. apply andb_true_iff in H as [H1 H2].
    apply Utf16.Points_bmp; try assumption.
    + now apply N.ltb_lt.
    + unfold Utf16.is_surrogate. rewrite Eh. now apply negb_true_iff in H2.
    + apply (IH (List.length r)); [subst n; cbn [List.length]; lia
                                  | reflexivity | assumption].
Qed.

Lemma Points_impl (P Q : N -> Prop) (s : list N) :
  (forall cp, P cp -> Q cp) -> Utf16.Points P s -> Utf16.Points Q s.
Proof.
  intros H.
  induction 1 as [|c r Hc Hs Hf _ IH|h l r Hh Hl Hf _ IH];
    [apply Utf16.Points_nil | apply Utf16.Points_bmp | apply Utf16.Points_pair];
    auto.
Qed.

Lemma wellFormed_Points (s : list N) :
  Utf16.wellFormed s = true -> Utf16.Points (fun _ => True) s.
Proof.
  intros H. apply pointsb_Points in H. revert H. now apply Points_impl.
Qed.

Lemma encode_bmp (c : N) : (c < 0x10000)%N -> Utf16.encode c = [c].
Proof. intros H. unfold Utf16.encode. apply N.ltb_lt in H. now rewrite H. Qed.

Lemma encode_decode (h l : N) :
  Utf16.is_high h = true -> Utf16.is_low l = true ->
  Utf16.encode (Utf16.decode h l) = [h; l].
Proof.
  unfold Utf16.is_high, Utf16.is_low, Utf16.encode, Utf16.decode.
  intros Hh Hl.
  assert (E : ((h - 0xD800) * 0x400 + (l - 0xDC00)
               = 0x400 * (h - 0xD800) + (l - 0xDC00))%N) by lia.
  replace (0x10000 + (h - 0xD800) * 0x400 + (l - 0xDC00) - 0x10000)%N
    with (0x400 * (h - 0xD800) + (l - 0xDC00))%N by lia.
  rewrite <- (N.div_unique _ 0x400 (h - 0xD800) (l - 0xDC00))%N
    by (try reflexivity; lia).
  rewrite <- (N.mod_unique _ 0x400 (h - 0xD800) (l - 0xDC00))%N
    by (try reflexivity; lia).
  replace (_ <? _)%N with false by lia.
  f_equal; [lia|]. f_equal. lia.
Qed.

Lemma decode_scalar (h l : N) :
  Utf16.is_high h = true -> Utf16.is_low l = true ->
  Utf16.scalar (Utf16.decode h l) = true.
Proof.
  unfold Utf16.scalar, Utf16.is_surrogate, Utf16.is_high, Utf16.is_low,
    Utf16.decode. lia.
Qed.

Lemma encode_supplementary (o : N) :
  Utf16.scalar o = true -> (0x10000 <= o)%N ->
  exists h l,
    Utf16.encode o = [h; l] /\ Utf16.is_high h = true
    /\ Utf16.is_low l = true /\ Utf16.decode h l = o.
Proof.
  unfold Utf16.scalar. intros Hs Ho.
  exists (0xD800 + (o - 0x10000) / 0x400)%N,
         (0xDC00 + (o - 0x10000) mod 0x400)%N.
  assert (Hq : ((o - 0x10000) / 0x400 < 0x400)%N)
    by (apply N.Div0.div_lt_upper_bound; lia).
  assert (Hr : ((o - 0x10000) mod 0x400 < 0x400)%N)
    by (apply N.mod_lt; discriminate).
  pose proof (N.div_mod (o - 0x10000) 0x400 ltac:(discriminate)) as Hdm.
  unfold Utf16.encode, Utf16.is_high, Utf16.is_low, Utf16.decode.
  replace (o <? 0x10000)%N with false by lia.
  split; [reflexivity|].
  revert Hq Hr Hdm.
  generalize ((o - 0x10000) / 0x400)%N, ((o - 0x10000) mod 0x400)%N.
  intros q r Hq Hr Hdm. repeat split; lia.
Qed.

Lemma Points_app (P : N -> Prop) (a b : list N) :
  Utf16.Points P a -> Utf16.Points P b -> Utf16.Points P (a ++ b).
Proof.
  intros Ha Hb. induction Ha; cbn [app];
    [assumption | apply Utf16.Points_bmp | apply Utf16.Points_pair];
    assumption.
Qed.

Lemma Points_encode (P : N -> Prop) (o : N) :
  Utf16.scalar o = true -> P o -> Utf16.Points P (Utf16.encode o).
Proof.
  intros Hs Ho. destruct (N.ltb_spec o 0x10000) as [Hlt | Hge].
  - rewrite (encode_bmp _ Hlt).
    apply Utf16.Points_bmp; try assumption; [|apply Utf16.Points_nil].
    unfold Utf16.scalar in Hs. lia.
  - destruct (encode_supplementary o Hs Hge) as (h & l & -> & Hh & Hl & E).
    apply Utf16.Points_pair; try assumption;
      [now rewrite E | apply Utf16.Points_nil].
Qed.

Lemma Points_units (P : N -> Prop) (outs : list N) :
  Forall (fun o => Utf16.scalar o = true /\ P o) outs ->
  Utf16.Points P (Utf16.units outs).
Proof.
  unfold Utf16.units. induction 1 as [|o r [Hs Ho] _ IH]; cbn [flat_map];
    [apply Utf16.Points_nil|].
  apply Points_app; [now apply Points_encode | exact IH].
Qed.

(* ================================================================= *)
(** ** normalizeText over UTF-16: the upper case *)

Lemma assoc_In {A : Type} (cp : N) (t : list (N * A)) (a : A) :
  Utf16.assoc cp t = Some a -> In (cp, a) t.
Proof.
  induction t as [|[k b] r IH]; cbn [Utf16.assoc]; [discriminate|].
  destruct (N.eqb_spec cp k) as [-> | _].
  - intros H. injection H as ->. now left.
  - intros H. right. now apply IH.
Qed.

Lemma assoc_None {A : Type} (cp : N) (t : list (N * A)) :
  existsb (N.eqb cp) (List.map fst t) = false -> Utf16.assoc cp t = None.
Proof.
  induction t as [|[k b] r IH]; cbn [Utf16.assoc List.map existsb fst];
    [reflexivity|].
  intros H. apply orb_false_iff in H as [H1 H2]. rewrite H1. now apply IH.
Qed.

Lemma upperCodePoint_not_key (o : N) :
  existsb (N.eqb o) Utf16.upperKeys = false -> Utf16.upperCodePoint o = [o].
Proof.
  unfold Utf16.upperKeys, Utf16.upperCodePoint. rewrite existsb_app.
  intros H. apply orb_false_iff in H as [H1 H2].
  now rewrite (assoc_None _ _ H1), (assoc_None _ _ H2).
Qed.

Lemma upperCodePoint_outputs (cp o : N) :
  In o (Utf16.upperCodePoint cp) ->
  (o = cp /\ Utf16.upperCodePoint cp = [cp]) \/ In o Utf16.upperOutputs.
Proof.
  unfold Utf16.upperCodePoint, Utf16.upperOutputs.
  destruct (Utf16.assoc cp Utf16.upperSpecial) as [outs|] eqn:E1.
  - intros H. right. apply in_or_app. left. apply in_flat_map.
    exists (cp, outs). split; [now apply assoc_In | exact H].
  - destruct (Utf16.assoc cp Utf16.upperSimple) as [u|] eqn:E2.
    + intros [<- | []]. right. apply in_or_app. right.
      apply in_map_iff. exists (cp, u). split; [reflexivity|].
      now apply assoc_In.
    + intros [<- | []]. now left.
Qed.

(** No upper case has an upper case of its own, and none is a
    surrogate. *)
Lemma upperOutputs_fixed :
  forallb
    (fun o => Utf16.scalar o && negb (existsb (N.eqb o) Utf16.upperKeys))
    Utf16.upperOutputs
  = true.
Proof. vm_compute. reflexivity. Qed.

Lemma upperCodePoint_fixed (cp : N) :
  Utf16.scalar cp = true ->
  Forall (fun o => Utf16.scalar o = true /\ Utf16.Fixed o)
         (Utf16.upperCodePoint cp).
Proof.
  intros Hs. apply Forall_forall. intros o Ho.
  apply upperCodePoint_outputs in Ho as [[-> E] | Ho]; [now split|].
  pose proof upperOutputs_fixed as H.
  rewrite forallb_forall in H. specialize (H o Ho).
  apply andb_true_iff in H as [H1 H2]. split; [exact H1|].
  apply upperCodePoint_not_key. now apply negb_true_iff in H2.
Qed.

Lemma toUpperCase_bmp (c : N) (r : list N) :
  Utf16.is_high c = false ->
  Utf16.toUpperCase (c :: r)
  = Utf16.units (Utf16.upperCodePoint c) ++ Utf16.toUpperCase r.
Proof.
  intros H. destruct r as [|l r']; cbn [Utf16.toUpperCase].
  - now rewrite app_nil_r.
  - now rewrite H.
Qed.

Lemma toUpperCase_pair (h l : N) (r : list N) :
  Utf16.is_high h = true -> Utf16.is_low l = true ->
  Utf16.toUpperCase (h :: l :: r)
  = Utf16.units (Utf16.upperCodePoint (Utf16.decode h l))
    ++ Utf16.toUpperCase r.
Proof.
  intros Hh Hl. change (Utf16.toUpperCase (h :: l :: r))
    with (if Utf16.is_high h && Utf16.is_low l
          then Utf16.units (Utf16.upperCodePoint (Utf16.decode h l))
               ++ Utf16.toUpperCase r
          else Utf16.units (Utf16.upperCodePoint h)
               ++ Utf16.toUpperCase (l :: r)).
  now rewrite Hh, Hl.
Qed.

Lemma not_surrogate_not_high (c : N) :
  Utf16.is_surrogate c = false -> Utf16.is_high c = false.
Proof. unfold Utf16.is_surrogate. now intros H%orb_false_iff. Qed.

Lemma bmp_scalar (c : N) :
  (c < 0x10000)%N -> Utf16.is_surrogate c = false -> Utf16.scalar c = true.
Proof. unfold Utf16.scalar. intros H ->. lia. Qed.

(** The upper case of a well-formed string reads as code points that are
    their own upper case. *)
Lemma toUpperCase_Fixed (s : list N) :
  Utf16.Points (fun _ => True) s ->
  Utf16.Points Utf16.Fixed (Utf16.toUpperCase s).
Proof.
  induction 1 as [|c r Hc Hs _ _ IH|h l r Hh Hl _ _ IH].
  - apply Utf16.Points_nil.
  - rewrite toUpperCase_bmp by now apply not_surrogate_not_high.
    apply Points_app; [|exact IH].
    apply Points_units, upperCodePoint_fixed. now apply bmp_scalar.
  - rewrite toUpperCase_pair by assumption.
    apply Points_app; [|exact IH].
    apply Points_units, upperCodePoint_fixed. now apply decode_scalar.
Qed.

(** Such a string is its own upper case. *)
Lemma Fixed_toUpperCase (t : list N) :
  Utf16.Points Utf16.Fixed t -> Utf16.toUpperCase t = t.
Proof.
  induction 1 as [|c r Hc Hs Hf _ IH|h l r Hh Hl Hf _ IH].
  - reflexivity.
  - rewrite toUpperCase_bmp by now apply not_surrogate_not_high.
    rewrite Hf, IH. unfold Utf16.units. cbn [flat_map].
    now rewrite (encode_bmp _ Hc).
  - rewrite toUpperCase_pair by assumption.
    rewrite Hf, IH. unfold Utf16.units. cbn [flat_map].
    now rewrite (encode_decode _ _ Hh Hl).
Qed.

Section PointsKept.

Variable P : N -> Prop.

Lemma Points_remove (p : N -> bool) (s : list N) :
  (forall c, Utf16.is_surrogate c = true -> p c = false) ->
  Utf16.Points P s -> Utf16.Points P (Utf16.remove p s).
Proof.
  intros Hp. unfold Utf16.remove.
  induction 1 as [|c r Hc Hs Hf _ IH|h l r Hh Hl Hf _ IH]; cbn [filter].
  - apply Utf16.Points_nil.
  - destruct (negb (p c)); [now apply Utf16.Points_bmp | exact IH].
  - rewrite !Hp by (unfold Utf16.is_surrogate; rewrite ?Hh, ?Hl;
                    auto using orb_true_r).
    cbn [negb]. now apply Utf16.Points_pair.
Qed.

Lemma surrogate_not_space (c : N) :
  Utf16.is_surrogate c = true -> Utf16.is_space c = false.
Proof.
  unfold Utf16.is_surrogate, Utf16.is_high, Utf16.is_low, Utf16.is_space. lia.
Qed.

Lemma surrogate_not_mark (c : N) :
  Utf16.is_surrogate c = true -> Utf16.is_mark c = false.
Proof.
  unfold Utf16.is_surrogate, Utf16.is_high, Utf16.is_low, Utf16.is_mark. lia.
Qed.

Lemma high_not_space (h : N) :
  Utf16.is_high h = true -> Utf16.is_space h = false.
Proof.
  intros H. apply surrogate_not_space. unfold Utf16.is_surrogate.
  now rewrite H.
Qed.

Lemma low_not_space (l : N) :
  Utf16.is_low l = true -> Utf16.is_space l = false.
Proof.
  intros H. apply surrogate_not_space. unfold Utf16.is_surrogate.
  rewrite H. apply orb_true_r.
Qed.

Hypothesis P_space : P 0x20%N.

Lemma Points_collapse (s : list N) :
  Utf16.Points P s ->
  forall b, Utf16.Points P (Utf16.collapse_from b s).
Proof.
  induction 1 as [|c r Hc Hs Hf _ IH|h l r Hh Hl Hf _ IH]; intros b;
    cbn [Utf16.collapse_from].
  - apply Utf16.Points_nil.
  - destruct (Utf16.is_space c); [|now apply Utf16.Points_bmp].
    destruct b; [apply IH|].
    apply Utf16.Points_bmp;
      [reflexivity | reflexivity | exact P_space | apply IH].
  - rewrite (high_not_space _ Hh), (low_not_space _ Hl).
    now apply Utf16.Points_pair.
Qed.

Lemma Points_trimStart (s : list N) :
  Utf16.Points P s -> Utf16.Points P (Utf16.trimStart s).
Proof.
  induction 1 as [|c r Hc Hs Hf Hr IH|h l r Hh Hl Hf Hr IH];
    cbn [Utf16.trimStart].
  - apply Utf16.Points_nil.
  - destruct (Utf16.is_space c); [exact IH | now apply Utf16.Points_bmp].
  - rewrite (high_not_space _ Hh). now apply Utf16.Points_pair.
Qed.

Lemma trimEnd_cons (c : N) (r : list N) :
  Utf16.is_space c = false ->
  Utf16.trimEnd (c :: r) = c :: Utf16.trimEnd r.
Proof.
  intros H. cbn [Utf16.trimEnd]. rewrite H.
  now destruct (Utf16.trimEnd r).
Qed.

Lemma Points_trimEnd (s : list N) :
  Utf16.Points P s -> Utf16.Points P (Utf16.trimEnd s).
Proof.
  induction 1 as [|c r Hc Hs Hf Hr IH|h l r Hh Hl Hf Hr IH].
  - apply Utf16.Points_nil.
  - cbn [Utf16.trimEnd]. destruct (Utf16.trimEnd r) as [|d r'].
    + destruct (Utf16.is_space c); [apply Utf16.Points_nil|].
      now apply Utf16.Points_bmp.
    + now apply Utf16.Points_bmp.
  - rewrite (trimEnd_cons h) by now apply high_not_space.
    rewrite (trimEnd_cons l) by now apply low_not_space.
    now apply Utf16.Points_pair.
Qed.

End PointsKept.

Lemma Fixed_space : Utf16.Fixed 0x20%N.
Proof. vm_compute. reflexivity. Qed.

(** The normal form of a well-formed string is its own upper case. *)
Lemma normalizeString_upper (s : list N) :
  Utf16.wellFormed s = true ->
  Utf16.toUpperCase (Utf16.normalizeString s) = Utf16.normalizeString s.
Proof.
  intros H. apply Fixed_toUpperCase.
  unfold Utf16.normalizeString, Utf16.trim, Utf16.collapse.
  apply Points_trimEnd, Points_trimStart, Points_collapse;
    [exact Fixed_space|].
  apply Points_remove; [exact surrogate_not_mark|].
  now apply toUpperCase_Fixed, wellFormed_Points.
Qed.

(* ================================================================= *)
(** ** normalizeText over UTF-16: the normal form *)

Section UnitsKept.

Variable q : N -> bool.

Lemma forallb_remove (p : N -> bool) (s : list N) :
  forallb q s = true -> forallb q (Utf16.remove p s) = true.
Proof.
  unfold Utf16.remove. induction s as [|c r IH]; cbn [forallb filter];
    [reflexivity|].
  intros H. apply andb_true_iff in H as [Hc Hr].
  destruct (negb (p c)); cbn [forallb]; [|now apply IH].
  now rewrite Hc, IH.
Qed.

Lemma forallb_collapse (b : bool) (s : list N) :
  q 0x20%N = true ->
  forallb q s = true -> forallb q (Utf16.collapse_from b s) = true.
Proof.
  intros Hsp. revert b.
  induction s as [|c r IH]; intros b; cbn [forallb Utf16.collapse_from];
    [reflexivity|].
  intros H. apply andb_true_iff in H as [Hc Hr].
  destruct (Utf16.is_space c).
  - destruct b; cbn [forallb]; [now apply IH|]. now rewrite Hsp, IH.
  - cbn [forallb]. now rewrite Hc, IH.
Qed.

Lemma forallb_trimStart (s : list N) :
  forallb q s = true -> forallb q (Utf16.trimStart s) = true.
Proof.
  induction s as [|c r IH]; cbn [Utf16.trimStart]; [reflexivity|].
  intros H. destruct (Utf16.is_space c); [|exact H].
  cbn [forallb] in H. apply andb_true_iff in H as [_ Hr]. now apply IH.
Qed.

Lemma forallb_trimEnd (s : list N) :
  forallb q s = true -> forallb q (Utf16.trimEnd s) = true.
Proof.
  induction s as [|c r IH]; cbn [forallb Utf16.trimEnd]; [reflexivity|].
  intros H. apply andb_true_iff in H as [Hc Hr]. specialize (IH Hr).
  destruct (Utf16.trimEnd r) as [|d r'].
  - destruct (Utf16.is_space c); cbn [forallb]; [reflexivity|].
    now rewrite Hc.
  - cbn [forallb] in *. now rewrite Hc, IH.
Qed.

End UnitsKept.

Lemma forallb_not_removed (p : N -> bool) (s : list N) :
  forallb (fun c => negb (p c)) (Utf16.remove p s) = true.
Proof.
  unfold Utf16.remove. induction s as [|c r IH]; cbn [filter];
    [reflexivity|].
  destruct (negb (p c)) eqn:E; cbn [forallb]; [|exact IH]. now rewrite E, IH.
Qed.

Lemma remove_nothing (p : N -> bool) (s : list N) :
  forallb (fun c => negb (p c)) s = true -> Utf16.remove p s = s.
Proof.
  unfold Utf16.remove. induction s as [|c r IH]; cbn [forallb filter];
    [reflexivity|].
  intros H. apply andb_true_iff in H as [Hc Hr]. now rewrite Hc, IH.
Qed.

Lemma utf16_tidy_collapse (b : bool) (s : list N) :
  Utf16.tidy b (Utf16.collapse_from b s) = true.
Proof.
  revert b.
  induction s as [|c r IH]; intros b; cbn [Utf16.collapse_from];
    [reflexivity|].
  destruct (Utf16.is_space c) eqn:E.
  - destruct b; [apply IH|].
    change (Utf16.tidy false (0x20%N :: Utf16.collapse_from true r))
      with (Utf16.tidy true (Utf16.collapse_from true r)).
    apply IH.
  - cbn [Utf16.tidy]. rewrite E. apply IH.
Qed.

Lemma utf16_tidy_trimStart (b : bool) (s : list N) :
  Utf16.tidy b s = true -> Utf16.tidy false (Utf16.trimStart s) = true.
Proof.
  revert b.
  induction s as [|c r IH]; intros b; cbn [Utf16.tidy Utf16.trimStart];
    [reflexivity|].
  destruct (Utf16.is_space c) eqn:E.
  - intros H. apply andb_true_iff in H as [_ Hr]. now apply (IH true).
  - cbn [Utf16.tidy]. now rewrite E.
Qed.

Lemma utf16_tidy_trimEnd (b : bool) (s : list N) :
  Utf16.tidy b s = true -> Utf16.tidy b (Utf16.trimEnd s) = true.
Proof.
  revert b.
  induction s as [|c r IH]; intros b; cbn [Utf16.tidy Utf16.trimEnd];
    [reflexivity|].
  destruct (Utf16.is_space c) eqn:E.
  - intros H. apply andb_true_iff in H as [H1 Hr].
    specialize (IH true Hr).
    destruct (Utf16.trimEnd r) as [|d r']; [reflexivity|].
    cbn [Utf16.tidy]. rewrite E, H1. exact IH.
  - intros H. specialize (IH false H).
    destruct (Utf16.trimEnd r) as [|d r'].
    + cbn [Utf16.tidy]. now rewrite E.
    + cbn [Utf16.tidy]. rewrite E. exact IH.
Qed.

Lemma utf16_collapse_tidy (b : bool) (s : list N) :
  Utf16.tidy b s = true -> Utf16.collapse_from b s = s.
Proof.
  revert b.
  induction s as [|c r IH]; intros b; cbn [Utf16.tidy Utf16.collapse_from];
    [reflexivity|].
  destruct (Utf16.is_space c).
  - intros H. apply andb_true_iff in H as [H1 Hr].
    apply andb_true_iff in H1 as [Hc Hb].
    apply N.eqb_eq in Hc. apply negb_true_iff in Hb. subst.
    now rewrite IH.
  - intros H. now rewrite IH.
Qed.

Lemma utf16_trimStart_head (s : list N) :
  Utf16.trimStart s = []
  \/ exists c r, Utf16.trimStart s = c :: r /\ Utf16.is_space c = false.
Proof.
  induction s as [|c r IH]; cbn [Utf16.trimStart]; [now left|].
  destruct (Utf16.is_space c) eqn:E; [exact IH|].
  right. now exists c, r.
Qed.

Lemma utf16_trimEnd_idem (s : list N) :
  Utf16.trimEnd (Utf16.trimEnd s) = Utf16.trimEnd s.
Proof.
  induction s as [|c r IH]; cbn [Utf16.trimEnd]; [reflexivity|].
  destruct (Utf16.trimEnd r) as [|d r'] eqn:E.
  - destruct (Utf16.is_space c) eqn:Ec; cbn [Utf16.trimEnd];
      [reflexivity|]. now rewrite Ec.
  - change (Utf16.trimEnd (c :: d :: r'))
      with (match Utf16.trimEnd (d :: r') with
            | [] => if Utf16.is_space c then [] else [c]
            | r'' => c :: r''
            end).
    now rewrite IH.
Qed.

Lemma utf16_trimStart_trim (s : list N) :
  Utf16.trimStart (Utf16.trim s) = Utf16.trim s.
Proof.
  unfold Utf16.trim.
  destruct (utf16_trimStart_head s) as [E | (c & r & E & Hc)]; rewrite E;
    [reflexivity|].
  rewrite (trimEnd_cons c r Hc). cbn [Utf16.trimStart]. now rewrite Hc.
Qed.

(** What [normalizeString] leaves of any string: none of the four marks,
    no white space but single spaces, and no space at either end. *)
Lemma utf16_normalizeString_tidy (s : list N) :
  let t := Utf16.normalizeString s in
  forallb (fun c => negb (Utf16.is_mark c)) t = true
  /\ Utf16.tidy false t = true
  /\ Utf16.trimStart t = t
  /\ Utf16.trimEnd t = t.
Proof.
  cbv zeta. unfold Utf16.normalizeString, Utf16.trim, Utf16.collapse.
  repeat split.
  - apply forallb_trimEnd, forallb_trimStart, forallb_collapse;
      [reflexivity|]. apply forallb_not_removed.
  - apply utf16_tidy_trimEnd, (utf16_tidy_trimStart false),
      utf16_tidy_collapse.
  - apply utf16_trimStart_trim.
  - apply utf16_trimEnd_idem.
Qed.

Lemma utf16_normalizeString_fixed (t : list N) :
  Utf16.toUpperCase t = t ->
  forallb (fun c => negb (Utf16.is_mark c)) t = true ->
  Utf16.tidy false t = true ->
  Utf16.trimStart t = t ->
  Utf16.trimEnd t = t ->
  Utf16.normalizeString t = t.
Proof.
  intros Hu Hp Ht Hs He.
  unfold Utf16.normalizeString, Utf16.trim, Utf16.collapse.
  rewrite Hu, (remove_nothing _ _ Hp), (utf16_collapse_tidy _ _ Ht).
  now rewrite Hs, He.
Qed.

Lemma utf16_normalizeString_idem (s : list N) :
  Utf16.wellFormed s = true ->
  Utf16.normalizeString (Utf16.normalizeString s) = Utf16.normalizeString s.
Proof.
  intros H. destruct (utf16_normalizeString_tidy s) as (Hp & Ht & Hs & He).
  apply utf16_normalizeString_fixed; try assumption.
  now apply normalizeString_upper.
Qed.

Lemma utf16_normalizeString_nil : Utf16.normalizeString [] = [].
Proof. reflexivity. Qed.

Lemma utf16_normalizeText_string (s : list N) :
  Utf16.normalizeText (Utf16.VStr s) = Utf16.normalizeString s.
Proof. destruct s; reflexivity. Qed.

(* ================================================================= *)
(** ** normalizeText *)

(** The string [\uD801.\uDC28]: two unpaired surrogates around a dot.
    Its normal form is the pair they make, the letter U+10428, which is
    not in upper case: the normal form of that is U+10400.  So for this
    [x], [normalizeText(normalizeText(x))] is not [normalizeText(x)]. *)
Lemma normalizeText_not_idempotent_on_unpaired_surrogates :
  Utf16.normalizeText (Utf16.VStr [0xD801; 0x2E; 0xDC28]%N)
  = [0xD801; 0xDC28]%N
  /\ Utf16.normalizeText (Utf16.VStr [0xD801; 0xDC28]%N)
     = [0xD801; 0xDC00]%N
  /\ Utf16.normalizeText
       (Utf16.VStr
          (Utf16.normalizeText (Utf16.VStr [0xD801; 0x2E; 0xDC28]%N)))
     <> Utf16.normalizeText (Utf16.VStr [0xD801; 0x2E; 0xDC28]%N).
Proof.
  split; [vm_compute; reflexivity|]. split; [vm_compute; reflexivity|].
  vm_compute. discriminate.
Qed.

(** C9, as the code has it: [normalizeText] is idempotent on every input
    whose text is well-formed UTF-16, that is, has no unpaired surrogate;
    and it maps [null], [undefined] and the empty string to the empty
    string. *)
Theorem normalizeText_idempotent_on_well_formed :
  (forall x : Utf16.value,
     Utf16.wellFormed (Utf16.toString x) = true ->
     Utf16.normalizeText (Utf16.VStr (Utf16.normalizeText x))
     = Utf16.normalizeText x)
  /\ Utf16.normalizeText Utf16.VNull = []
  /\ Utf16.normalizeText Utf16.VUndefined = []
  /\ Utf16.normalizeText (Utf16.VStr []) = [].
Proof.
  split; [|repeat split].
  intros x Hx. rewrite utf16_normalizeText_string.
  unfold Utf16.normalizeText.
  destruct (negb (Utf16.truthy x)); [apply utf16_normalizeString_nil|].
  now apply utf16_normalizeString_idem.
Qed.

(** The witness of C9: the text [o'Neil], a space, the sharp s U+00DF and
    the letter U+10428, whose normal form is [ONEIL SS] followed by
    U+10400. *)
Lemma normalizeText_idempotent_on_well_formed_witness :
  Utf16.normalizeText
    (Utf16.VStr
       (Utf16.normalizeText
          (Utf16.VStr
             [0x6F; 0x27; 0x4E; 0x65; 0x69; 0x6C; 0x20; 0xDF; 0xD801;
              0xDC28]%N)))
  = [0x4F; 0x4E; 0x45; 0x49; 0x4C; 0x20; 0x53; 0x53; 0xD801; 0xDC00]%N.
Proof.
  rewrite (proj1 normalizeText_idempotent_on_well_formed
             (Utf16.VStr
                [0x6F; 0x27; 0x4E; 0x65; 0x69; 0x6C; 0x20; 0xDF; 0xD801;
                 0xDC28]%N)).
  - vm_compute. reflexivity.
  - vm_compute. reflexivity.
Defined.

(* ================================================================= *)
(** ** normalizeText: the two embeddings agree on ASCII text *)

Lemma ofString_cons (c : ascii) (r : string) :
  Utf16.ofString (String c r) = N_of_ascii c :: Utf16.ofString r.
Proof. reflexivity. Qed.

Lemma ascii_upper (c : ascii) :
  (N_of_ascii c <? 128)%N = true ->
  Utf16.upperCodePoint (N_of_ascii c) = [N_of_ascii (Str.upper_char c)].
Proof.
  destruct c as [[|] [|] [|] [|] [|] [|] [|] [|]]; intros H;
    try (vm_compute in H; discriminate H); vm_compute; reflexivity.
Qed.

Lemma ascii_upper_ascii (c : ascii) :
  (N_of_ascii c <? 128)%N = true ->
  (N_of_ascii (Str.upper_char c) <? 128)%N = true.
Proof.
  destruct c as [[|] [|] [|] [|] [|] [|] [|] [|]]; intros H;
    try (vm_compute in H; discriminate H); vm_compute; reflexivity.
Qed.

Lemma ascii_mark (c : ascii) :
  Utf16.is_mark (N_of_ascii c) = Str.is_punct c.
Proof.
  destruct c as [[|] [|] [|] [|] [|] [|] [|] [|]]; vm_compute; reflexivity.
Qed.

Lemma ascii_space (c : ascii) :
  (N_of_ascii c <? 128)%N = true ->
  Utf16.is_space (N_of_ascii c) = Str.is_space c.
Proof.
  destruct c as [[|] [|] [|] [|] [|] [|] [|] [|]]; intros H;
    try (vm_compute in H; discriminate H); vm_compute; reflexivity.
Qed.

Lemma toUpperCase_ascii (s : string) :
  isAscii s = true ->
  Utf16.toUpperCase (Utf16.ofString s) = Utf16.ofString (Str.toUpperCase s).
Proof.
  unfold isAscii, Str.toUpperCase.
  induction s as [|c r IH]; [reflexivity|]. cbn [Str.all Str.map].
  intros H. apply andb_true_iff in H as [Hc Hr].
  rewrite !ofString_cons, toUpperCase_bmp
    by (unfold Utf16.is_high; lia).
  rewrite (ascii_upper c Hc), (IH Hr). unfold Utf16.units. cbn [flat_map].
  rewrite encode_bmp; [reflexivity|].
  pose proof (ascii_upper_ascii c Hc). lia.
Qed.

Lemma remove_ascii (s : string) :
  Utf16.remove Utf16.is_mark (Utf16.ofString s)
  = Utf16.ofString (Str.remove Str.is_punct s).
Proof.
  unfold Utf16.remove. induction s as [|c r IH]; [reflexivity|].
  rewrite ofString_cons. cbn [filter Str.remove]. rewrite ascii_mark, IH.
  now destruct (Str.is_punct c).
Qed.

Lemma collapse_ascii (s : string) :
  isAscii s = true ->
  forall b,
    Utf16.collapse_from b (Utf16.ofString s)
    = Utf16.ofString (Str.collapse_from b s).
Proof.
  unfold isAscii. induction s as [|c r IH]; [reflexivity|].
  cbn [Str.all]. intros H b. apply andb_true_iff in H as [Hc Hr].
  rewrite ofString_cons. cbn [Utf16.collapse_from Str.collapse_from].
  rewrite (ascii_space c Hc), !(IH Hr).
  destruct (Str.is_space c); [destruct b|]; reflexivity.
Qed.

Lemma trimStart_ascii (s : string) :
  isAscii s = true ->
  Utf16.trimStart (Utf16.ofString s) = Utf16.ofString (Str.trimStart s).
Proof.
  unfold isAscii. induction s as [|c r IH]; [reflexivity|].
  cbn [Str.all]. intros H. apply andb_true_iff in H as [Hc Hr].
  rewrite ofString_cons. cbn [Utf16.trimStart Str.trimStart].
  rewrite (ascii_space c Hc), (IH Hr).
  destruct (Str.is_space c); reflexivity.
Qed.

Lemma trimEnd_ascii (s : string) :
  isAscii s = true ->
  Utf16.trimEnd (Utf16.ofString s) = Utf16.ofString (Str.trimEnd s).
Proof.
  unfold isAscii. induction s as [|c r IH]; [reflexivity|].
  cbn [Str.all]. intros H. apply andb_true_iff in H as [Hc Hr].
  rewrite ofString_cons. cbn [Utf16.trimEnd Str.trimEnd].
  rewrite (ascii_space c Hc), (IH Hr).
  destruct (Str.trimEnd r) as [|d r']; [|reflexivity].
  destruct (Str.is_space c); reflexivity.
Qed.

Lemma all_map_in (p : ascii -> bool) (f : ascii -> ascii) (s : string) :
  (forall c, p c = true -> p (f c) = true) ->
  Str.all p s = true -> Str.all p (Str.map f s) = true.
Proof.
  intros Hf. induction s as [|c r IH]; cbn [Str.all Str.map]; [reflexivity|].
  intros H. apply andb_true_iff in H as [Hc Hr]. now rewrite (Hf c Hc), IH.
Qed.

(** On ASCII text the embedding of [normalizeText] over [string] and the
    one over UTF-16 give the same string. *)
Lemma normalizeString_ascii (s : string) :
  isAscii s = true ->
  Utf16.normalizeString (Utf16.ofString s)
  = Utf16.ofString (normalizeString s).
Proof.
  intros H. unfold Utf16.normalizeString, normalizeString, Utf16.trim,
    Str.trim, Utf16.collapse, Str.collapse.
  assert (H1 : isAscii (Str.toUpperCase s) = true)
    by (apply all_map_in; [exact ascii_upper_ascii | exact H]).
  assert (H2 : isAscii (Str.remove Str.is_punct (Str.toUpperCase s)) = true)
    by now apply all_remove.
  assert (H3 : isAscii (Str.collapse_from false
                          (Str.remove Str.is_punct (Str.toUpperCase s)))
               = true)
    by now apply all_collapse.
  assert (H4 : isAscii (Str.trimStart
                          (Str.collapse_from false
                             (Str.remove Str.is_punct (Str.toUpperCase s))))
               = true)
    by now apply all_trimStart.
  now rewrite (toUpperCase_ascii s H), remove_ascii, (collapse_ascii _ H2),
    (trimStart_ascii _ H3), (trimEnd_ascii _ H4).
Qed.

Lemma ofString_nil (s : string) : Utf16.ofString s = [] -> s = "".
Proof. destruct s; [reflexivity | discriminate]. Qed.

Lemma normalizeText_ascii (x : value) :
  isAscii (toString x) = true ->
  Utf16.normalizeText (ofValue x) = Utf16.ofString (normalizeText x).
Proof.
  intros H. unfold Utf16.normalizeText, normalizeText.
  assert (Ht : Utf16.truthy (ofValue x) = truthy x).
  { destruct x as [| |b|nz t|s]; try reflexivity. destruct s; reflexivity. }
  rewrite Ht. destruct (negb (truthy x)); [reflexivity|].
  assert (Hs : Utf16.toString (ofValue x) = Utf16.ofString (toString x)).
  { destruct x as [| |[|]|nz t|s]; reflexivity. }
  rewrite Hs. now apply normalizeString_ascii.
Qed.

(* ================================================================= *)
(** ** searchName *)

Lemma split_not_nil (s : string) : Str.split s <> [].
Proof.
  induction s as [|c r IH]; simpl; [discriminate|].
  destruct (Ascii.eqb c " "); [discriminate|].
  destruct (Str.split r); discriminate.
Qed.

Lemma startsWith_prefix (t p : string) :
  Str.startsWith t p = true <-> IsPrefix p t.
Proof.
  unfold Str.startsWith, IsPrefix. revert t.
  induction p as [|a p IH]; intros t.
  - simpl. destruct t; split; intros _; try reflexivity; eexists; reflexivity.
  - destruct t as [|b t]; simpl.
    + split; [discriminate|]. intros [rest H]. discriminate.
    + destruct (ascii_dec a b) as [->|Hab].
      * rewrite IH. split; intros [rest H]; exists rest.
        -- now rewrite H.
        -- now injection H.
      * split; [discriminate|]. intros [rest H]. injection H as H1 H2.
        now symmetry in H1.
Qed.

Lemma filter_length_all {A : Type} (f : A -> bool) (l : list A) :
  List.length (filter f l) = List.length l <-> forallb f l = true.
Proof.
  induction l as [|x r IH]; simpl; [tauto|].
  pose proof (filter_length_le f r) as Hle.
  destruct (f x); simpl.
  - rewrite <- IH. lia.
  - split; [lia | discriminate].
Qed.

Lemma Zpos_of_nat_S (k : nat) : Z.pos (Pos.of_nat (S k)) = Z.of_nat (S k).
Proof. rewrite <- Pos.of_nat_succ, Zpos_P_of_succ_nat. lia. Qed.

Lemma div_length_same (n : nat) : 0 < n -> div_length n n = one.
Proof.
  intros Hn. destruct n as [|k]; [lia|]. unfold div_length, one.
  f_equal. change 1%Q with (Qred 1). apply Qred_complete.
  unfold Qeq. cbn [Qnum Qden]. rewrite Zpos_of_nat_S. lia.
Qed.

Lemma div_length_one (a n : nat) :
  strict_eq (div_length a n) one = true <-> 0 < n /\ a = n.
Proof.
  split.
  - destruct n as [|k]; cbn [div_length strict_eq one].
    + destruct a; discriminate.
    + intros H. apply Qeq_bool_iff in H. rewrite Qred_correct in H.
      unfold Qeq in H. cbn [Qnum Qden] in H. rewrite Zpos_of_nat_S in H.
      lia.
  - intros [Hn ->]. now rewrite div_length_same.
Qed.

Lemma matchEntry_covers (tokens : list string) (e : entry) :
  tokens <> [] ->
  matchEntry tokens e = if coversb tokens e then Some (matchOf e) else None.
Proof.
  intros Hne. unfold matchEntry, coversb.
  set (f := fun pw => existsb (fun ew => Str.startsWith ew pw) (entry_words e)).
  assert (Hlen : 0 < List.length tokens) by (destruct tokens; simpl; [easy|lia]).
  destruct (forallb f tokens) eqn:E.
  - apply filter_length_all in E. rewrite E, div_length_same by exact Hlen.
    reflexivity.
  - destruct (strict_eq _ one) eqn:S; [|reflexivity].
    apply div_length_one in S as [_ S]. apply filter_length_all in S.
    congruence.
Qed.

Lemma filterBoolean_select {A B : Type} (f : A -> bool) (g : A -> B)
    (l : list A) :
  filterBoolean (List.map (fun x => if f x then Some (g x) else None) l)
  = List.map g (filter f l).
Proof.
  induction l as [|x r IH]; simpl; [reflexivity|].
  destruct (f x); simpl; now rewrite IH.
Qed.

(** [searchName] keeps, in corpus order, the entries that cover the tokens
    of the subject. *)
Lemma searchName_filter (publisherName : value) (entries : list entry) :
  searchName publisherName entries
  = List.map matchOf
      (filter (coversb (Str.split (normalizeText publisherName))) entries).
Proof.
  unfold searchName. rewrite <- filterBoolean_select. f_equal.
  apply map_ext. intros e. apply matchEntry_covers, split_not_nil.
Qed.

Lemma coversb_Covers (tokens : list string) (e : entry) :
  coversb tokens e = true <-> Covers tokens e.
Proof.
  unfold coversb, Covers. rewrite forallb_forall.
  split; intros H pw Hin.
  - apply H in Hin. apply existsb_exists in Hin as (t & Ht & Hp).
    exists t. split; [exact Ht|]. now apply startsWith_prefix.
  - destruct (H pw Hin) as (t & Ht & Hp). apply existsb_exists.
    exists t. split; [exact Ht|]. now apply startsWith_prefix.
Qed.

(** C2: a match is returned for an entry exactly when every token of the
    normalized subject name is a prefix of some token of that entry, and
    every returned match has score 1. *)
Theorem searchName_full_coverage :
  forall (publisherName : value) (entries : list entry),
    (forall r : matchResult,
        In r (searchName publisherName entries) <->
        exists e, In e entries
                  /\ Covers (Str.split (normalizeText publisherName)) e
                  /\ r = {| match_id := entry_id e;
                            matchedName := entry_name e;
                            score := one |})
    /\ (forall r, In r (searchName publisherName entries) -> score r = Fin 1).
Proof.
  intros publisherName entries.
  assert (Hiff : forall r : matchResult,
             In r (searchName publisherName entries) <->
             exists e, In e entries
                       /\ Covers (Str.split (normalizeText publisherName)) e
                       /\ r = matchOf e).
  { intros r. rewrite searchName_filter, in_map_iff. split.
    - intros (e & <- & Hin). apply filter_In in Hin as [Hin Hc].
      exists e. repeat split; [exact Hin|]. now apply coversb_Covers.
    - intros (e & Hin & Hc & ->). exists e. split; [reflexivity|].
      apply filter_In. split; [exact Hin|]. now apply coversb_Covers. }
  split; [exact Hiff|].
  intros r Hr. apply Hiff in Hr as (e & _ & _ & ->). reflexivity.
Qed.

(** The witness of C2: the corpus "JOHN SMITH", "JOHN SMITHSON" and the
    subject "John Smit"; the second entry is returned, with score 1. *)
Lemma searchName_full_coverage_witness :
  In {| match_id := "entry_2"; matchedName := "JOHN SMITHSON";
        score := Fin 1 |}
     (searchName (VStr "John Smit") sample_entries)
  /\ (forall r, In r (searchName (VStr "John Smit") sample_entries) ->
                score r = Fin 1).
Proof.
  destruct (searchName_full_coverage (VStr "John Smit") sample_entries)
    as [Hiff Hscore].
  split; [|exact Hscore].
  apply Hiff.
  exists {| entry_id := "entry_2"; entry_name := "JOHN SMITHSON";
            entry_words := ["JOHN"; "SMITHSON"] |}.
  split; [vm_compute; right; left; reflexivity|].
  split; [|reflexivity].
  intros p Hp. vm_compute in Hp. destruct Hp as [<- | [<- | []]].
  - exists "JOHN". split; [now left | now exists ""].
  - exists "SMITHSON". split; [right; now left | now exists "HSON"].
Defined.

(** An entry loaded from the folder has at least one word. *)
Lemma coversb_empty_token (e : entry) :
  entry_words e <> [] -> coversb [""] e = true.
Proof.
  unfold coversb. simpl. destruct (entry_words e) as [|w ws]; [easy|].
  intros _. simpl. unfold Str.startsWith. destruct w; reflexivity.
Qed.

(** A subject whose name normalizes to the empty string has the one empty
    token, which is a prefix of every word: every entry is returned. *)
Lemma searchName_empty_subject (publisherName : value) (entries : list entry) :
  normalizeText publisherName = "" ->
  Forall (fun e => entry_words e <> []) entries ->
  searchName publisherName entries = List.map matchOf entries.
Proof.
  intros Hn Hw. rewrite searchName_filter, Hn.
  change (Str.split "") with [""]. f_equal.
  induction Hw as [|e r He Hr IH]; cbn [filter]; [reflexivity|].
  now rewrite (coversb_empty_token e He), IH.
Qed.

(** C1: on the empty subject name the token list is [[""]] and the score of
    every entry is [1 / 1]: the whole corpus is returned, not zero
    matches. *)
Theorem searchName_empty_name_returns_corpus :
  Str.split (normalizeText (VStr "")) = [""]
  /\ searchName (VStr "")
       [ {| entry_id := "entry_1"; entry_name := "JOHN SMITH";
            entry_words := ["JOHN"; "SMITH"] |};
         {| entry_id := "entry_2"; entry_name := "ACME";
            entry_words := ["ACME"] |} ]
     = [ {| match_id := "entry_1"; matchedName := "JOHN SMITH";
            score := Fin 1 |};
         {| match_id := "entry_2"; matchedName := "ACME";
            score := Fin 1 |} ].
Proof. split; reflexivity. Qed.

(* ================================================================= *)
(** ** loadCSVFolder *)

Lemma of_nat_inj (n m : nat) : Str.of_nat n = Str.of_nat m -> n = m.
Proof.
  unfold Str.of_nat. intros H.
  apply (f_equal NilEmpty.uint_of_string) in H.
  rewrite !NilEmpty.usu in H. injection H as H.
  now apply Unsigned.to_uint_inj.
Qed.

Lemma pushRow_app (entries row : list string) :
  pushRow entries row
  = entries ++ filter nonEmpty (List.map (fun v => normalizeText (VStr v)) row).
Proof.
  unfold pushRow. revert entries.
  induction row as [|v r IH]; intros entries; simpl.
  - now rewrite app_nil_r.
  - rewrite IH. unfold nonEmpty at 2.
    destruct (negb (String.eqb (normalizeText (VStr v)) "")).
    + now rewrite <- app_assoc.
    + reflexivity.
Qed.

Lemma pushRows_app (rows : list (list string)) (entries : list string) :
  fold_left pushRow rows entries
  = entries
    ++ filter nonEmpty
         (List.map (fun v => normalizeText (VStr v)) (List.concat rows)).
Proof.
  revert entries. induction rows as [|row r IH]; intros entries; simpl.
  - now rewrite app_nil_r.
  - rewrite IH, pushRow_app, map_app, filter_app. now rewrite app_assoc.
Qed.

Lemma readAll_names (files : list csvFile) (entries out : list string) :
  readAll entries files = Return out ->
  out = entries ++ referenceNames files.
Proof.
  unfold referenceNames. revert entries.
  induction files as [|f r IH]; intros entries; simpl.
  - intros H. injection H as <-. now rewrite app_nil_r.
  - unfold readCsv. destruct (file_rows f) as [rows|]; simpl; [|discriminate].
    intros H. apply IH in H. rewrite H, pushRows_app.
    rewrite map_app, filter_app. now rewrite app_assoc.
Qed.

Lemma readAll_throws (files : list csvFile) (entries : list string) (e : error) :
  readAll entries files = Throw e -> e = StreamError.
Proof.
  revert entries. induction files as [|f r IH]; intros entries; simpl;
    [discriminate|].
  unfold readCsv. destruct (file_rows f) as [rows|]; simpl.
  - apply IH.
  - intros H. now injection H.
Qed.

Lemma length_zero_nil {A : Type} (l : list A) :
  (List.length l =? 0) = true <-> l = [].
Proof. destruct l; simpl; split; congruence. Qed.

(** What [loadCSVFolder] returns: one entry a non-empty normalized cell of
    the qualifying files, numbered from 1 in reading order. *)
Lemma loadCSVFolder_returns (folder : list csvFile) (entries : list entry) :
  loadCSVFolder folder = Return entries ->
  entries = mapi_from 0 mkReference (referenceNames (qualifying folder))
  /\ referenceNames (qualifying folder) <> [].
Proof.
  unfold loadCSVFolder. fold (qualifying folder).
  destruct (List.length (qualifying folder) =? 0); [discriminate|].
  destruct (readAll [] (qualifying folder)) as [names|e] eqn:E; simpl;
    [|discriminate].
  apply readAll_names in E. simpl in E. subst names.
  destruct (List.length _ =? 0) eqn:L; [discriminate|].
  intros H. injection H as <-. split; [reflexivity|].
  intros Hnil. apply length_zero_nil in Hnil. congruence.
Qed.

Lemma mapi_names (i : nat) (names : list string) :
  List.map entry_name (mapi_from i mkReference names) = names.
Proof.
  revert i. induction names as [|n r IH]; intros i; simpl; [reflexivity|].
  now rewrite IH.
Qed.

Lemma mapi_ids_from (i : nat) (names : list string) (x : string) :
  In x (List.map entry_id (mapi_from i mkReference names)) ->
  exists k, i <= k /\ x = ("entry_" ++ Str.of_nat (k + 1))%string.
Proof.
  revert i. induction names as [|n r IH]; intros i; simpl; [easy|].
  intros [<- | Hin].
  - exists i. split; [lia | reflexivity].
  - destruct (IH _ Hin) as (k & Hk & ->). exists k. split; [lia | reflexivity].
Qed.

Lemma mapi_ids_NoDup (i : nat) (names : list string) :
  NoDup (List.map entry_id (mapi_from i mkReference names)).
Proof.
  revert i. induction names as [|n r IH]; intros i; simpl; constructor.
  - intros Hin. apply mapi_ids_from in Hin as (k & Hk & E).
    injection E as E. apply of_nat_inj in E. lia.
  - apply IH.
Qed.

Lemma mapi_words (i : nat) (names : list string) :
  Forall (fun e => entry_words e = Str.split (entry_name e))
         (mapi_from i mkReference names).
Proof.
  revert i. induction names as [|n r IH]; intros i; simpl; constructor;
    [reflexivity | apply IH].
Qed.

(** C7: with no qualifying file, or with no non-empty normalized cell in
    the qualifying files, [loadCSVFolder] throws and the run stops there:
    no callback call, no file written, no row. *)
Theorem empty_corpus_aborts_run :
  forall (w : world) (downloadsFolder : string) (progressCallback : bool),
    qualifying (csvFolder w) = []
    \/ referenceNames (qualifying (csvFolder w)) = [] ->
    exists e,
      loadCSVFolder (csvFolder w) = Throw e
      /\ (e = Error "No CSV files found in folder."
          \/ e = Error "No entries loaded from CSVs."
          \/ e = StreamError)
      /\ runChecker w downloadsFolder progressCallback
         = {| run_calls := []; run_files := []; run_result := Throw e |}.
Proof.
  intros w d cb H.
  assert (Hload : exists e,
             loadCSVFolder (csvFolder w) = Throw e
             /\ (e = Error "No CSV files found in folder."
                 \/ e = Error "No entries loaded from CSVs."
                 \/ e = StreamError)).
  { unfold loadCSVFolder. fold (qualifying (csvFolder w)).
    destruct (List.length (qualifying (csvFolder w)) =? 0) eqn:L.
    - eexists. split; [reflexivity | now left].
    - destruct H as [H | H]; [rewrite H in L; discriminate|].
      destruct (readAll [] (qualifying (csvFolder w))) as [names|e] eqn:E;
        simpl.
      + apply readAll_names in E. simpl in E. rewrite H in E. subst names.
        simpl. eexists. split; [reflexivity | right; now left].
      + apply readAll_throws in E. subst e.
        eexists. split; [reflexivity | right; now right]. }
  destruct Hload as (e & Hload & He). exists e.
  repeat split; try assumption.
  unfold runChecker. now rewrite Hload.
Qed.

(** The witness of C7: a folder whose only CSV file holds cells of
    punctuation and blanks. *)
Lemma empty_corpus_aborts_run_witness :
  exists e,
    loadCSVFolder (csvFolder blank_world) = Throw e
    /\ (e = Error "No CSV files found in folder."
        \/ e = Error "No entries loaded from CSVs."
        \/ e = StreamError)
    /\ runChecker blank_world "/srv/temp" true
       = {| run_calls := []; run_files := []; run_result := Throw e |}.
Proof.
  apply (empty_corpus_aborts_run blank_world "/srv/temp" true).
  right. vm_compute. reflexivity.
Defined.

(** Among entries loaded from a folder, coverage depends on the name
    alone, so every occurrence of a covered name is retained. *)
Lemma covered_name_count (tokens : list string) (n : string) :
  (forall p, In p tokens -> exists t, In t (Str.split n) /\ IsPrefix p t) ->
  forall (names : list string) (i : nat),
    count_occ string_dec
      (List.map entry_name
         (filter (coversb tokens) (mapi_from i mkReference names))) n
    = count_occ string_dec names n.
Proof.
  intros Hcov names. induction names as [|x r IH]; intros i;
    cbn [mapi_from filter]; [reflexivity|].
  destruct (string_dec x n) as [->|Hx].
  - assert (Hc : coversb tokens (mkReference n i) = true)
      by (apply coversb_Covers; exact Hcov).
    rewrite Hc. cbn [List.map mkReference entry_name].
    rewrite !count_occ_cons_eq by reflexivity. now rewrite IH.
  - rewrite (count_occ_cons_neq _ r Hx).
    destruct (coversb tokens (mkReference x i)).
    + cbn [List.map mkReference entry_name].
      rewrite count_occ_cons_neq by exact Hx. apply IH.
    + apply IH.
Qed.

(** C10: the loader makes one entry for every non-empty normalized cell,
    in reading order and under distinct ids, without merging equal names;
    a subject covered by a name gets one match for each cell that holds
    the name. *)
Theorem corpus_not_deduplicated :
  forall (folder : list csvFile) (entries : list entry),
    loadCSVFolder folder = Return entries ->
    List.map entry_name entries = referenceNames (qualifying folder)
    /\ NoDup (List.map entry_id entries)
    /\ forall (subject : value) (n : string),
         (forall p, In p (Str.split (normalizeText subject)) ->
                    exists t, In t (Str.split n) /\ IsPrefix p t) ->
         count_occ string_dec
           (List.map matchedName (searchName subject entries)) n
         = count_occ string_dec (referenceNames (qualifying folder)) n.
Proof.
  intros folder entries H. apply loadCSVFolder_returns in H as [-> _].
  split; [apply mapi_names|]. split; [apply mapi_ids_NoDup|].
  intros subject n Hcov. rewrite searchName_filter, map_map.
  change (fun x => matchedName (matchOf x)) with entry_name.
  now apply covered_name_count.
Qed.

(** The witness of C10: "JOHN SMITH" fills three cells of the folder and
    the subject "John Smit" gets three matches of that name. *)
Lemma corpus_not_deduplicated_witness :
  NoDup (List.map entry_id repeated_entries)
  /\ count_occ string_dec
       (List.map matchedName (searchName (VStr "John Smit") repeated_entries))
       "JOHN SMITH"
     = 3.
Proof.
  destruct (corpus_not_deduplicated repeated_folder repeated_entries eq_refl)
    as (_ & Hids & Hcount).
  split; [exact Hids|].
  rewrite (Hcount (VStr "John Smit") "JOHN SMITH"); [reflexivity|].
  intros p Hp. vm_compute in Hp.
  destruct Hp as [<- | [<- | []]].
  - exists "JOHN". split; [now left | now exists ""].
  - exists "SMITH". split; [right; now left | now exists "H"].
Defined.

(* ================================================================= *)
(** ** runChecker: the loop *)

Lemma safeNameOf_string (pub : publisher) :
  isString (Name pub) = true -> exists s, safeNameOf pub = Return s.
Proof.
  unfold safeNameOf, or_else.
  destruct (Name pub) as [| |b|nz t|s]; try discriminate.
  intros _. destruct (truthy (VStr s)); eexists; reflexivity.
Qed.

(** One turn of the loop: it throws only when the name has no [replace]
    or the JSON file cannot be written; else it appends one row, and two
    calls of the callback when there is one, whatever the page does. *)
Lemma iteration_returns (w : world) (entries : list entry)
    (sf rf : string) (cb : bool) (total i : nat) (pub : publisher)
    (st st' : progress) :
  iteration w entries sf rf cb total i pub st = (st', Return tt) ->
  exists row,
    RowFor entries i pub row
    /\ results st' = results st ++ [row]
    /\ List.map call_current (calls st')
       = List.map call_current (calls st)
         ++ (if cb then [i + 1; i + 1] else []).
Proof.
  unfold iteration. destruct (safeNameOf pub) as [safeName|e] eqn:Esafe;
    [|discriminate].
  cbv zeta. destruct (SAVE_JSON_RESPONSES && negb (writable w _));
    [discriminate|].
  match goal with
  | |- (pushRowOf ?r ?s, _) = _ -> _ =>
      set (row := r); set (st4 := s)
  end.
  intros H. injection H as <-. exists row. split; [|split].
  - constructor; try reflexivity.
    exists safeName. split; [exact Esafe | reflexivity].
  - cbn [pushRowOf results]. f_equal. subst st4.
    destruct (takeScreenshot _ _ _ _); cbn [results];
      destruct cb; reflexivity.
  - cbn [pushRowOf calls]. subst st4.
    destruct (takeScreenshot _ _ _ _); cbn [calls];
      destruct cb; cbn [notify writeFile calls SAVE_JSON_RESPONSES];
      rewrite ?map_app, <- ?app_assoc, ?app_nil_r; reflexivity.
Qed.

Lemma iteration_total (w : world) (entries : list entry)
    (sf rf : string) (cb : bool) (total i : nat) (pub : publisher)
    (st : progress) :
  isString (Name pub) = true ->
  (forall p, writable w p = true) ->
  exists st', iteration w entries sf rf cb total i pub st = (st', Return tt).
Proof.
  intros Hs Hw. destruct (safeNameOf_string pub Hs) as [s Es].
  unfold iteration. rewrite Es. cbv zeta. rewrite Hw.
  cbn [negb andb]. rewrite andb_false_r. eexists. reflexivity.
Qed.

Lemma forLoop_returns (w : world) (entries : list entry)
    (sf rf : string) (cb : bool) (total : nat) (pubs : list publisher) :
  forall (i : nat) (st st' : progress),
    forLoop w entries sf rf cb total i pubs st = (st', Return tt) ->
    exists rows,
      RowsFrom entries i pubs rows
      /\ results st' = results st ++ rows
      /\ List.map call_current (calls st')
         = List.map call_current (calls st)
           ++ (if cb then twice_from i (List.length pubs) else []).
Proof.
  induction pubs as [|pub rest IH]; intros i st st'; cbn [forLoop].
  - intros H. injection H as <-. exists []. split; [constructor|].
    destruct cb; cbn [List.length twice_from]; rewrite !app_nil_r;
      split; reflexivity.
  - destruct (iteration w entries sf rf cb total i pub st) as [st1 [[]|e]] eqn:E;
      [|discriminate].
    intros H. apply iteration_returns in E as (row & Hrow & Hres & Hcalls).
    apply IH in H as (rows & Hrows & Hres' & Hcalls').
    exists (row :: rows). split; [now constructor|]. split.
    + rewrite Hres', Hres, <- app_assoc. reflexivity.
    + rewrite Hcalls', Hcalls, <- app_assoc.
      destruct cb; reflexivity.
Qed.

Lemma forLoop_total (w : world) (entries : list entry)
    (sf rf : string) (cb : bool) (total : nat) (pubs : list publisher) :
  forallb (fun pub => isString (Name pub)) pubs = true ->
  (forall p, writable w p = true) ->
  forall (i : nat) (st : progress),
    exists st', forLoop w entries sf rf cb total i pubs st = (st', Return tt).
Proof.
  induction pubs as [|pub rest IH]; intros Hall Hw i st; cbn [forLoop].
  - eexists. reflexivity.
  - cbn [forallb] in Hall. apply andb_true_iff in Hall as [Hp Hrest].
    destruct (iteration_total w entries sf rf cb total i pub st Hp Hw)
      as [st1 E].
    rewrite E. now apply IH.
Qed.

Lemma RowsFrom_length (entries : list entry) (i : nat)
    (pubs : list publisher) (rows : list reportRow) :
  RowsFrom entries i pubs rows -> List.length rows = List.length pubs.
Proof. induction 1; simpl; congruence. Qed.

Lemma RowsFrom_publishers (entries : list entry) (i : nat)
    (pubs : list publisher) (rows : list reportRow) :
  RowsFrom entries i pubs rows ->
  List.map Publisher rows = List.map Name pubs.
Proof.
  induction 1 as [|i pub row pubs rows Hrow _ IH]; simpl; [reflexivity|].
  now rewrite IH, (row_publisher _ _ _ _ Hrow).
Qed.

Lemma RowsFrom_nth (entries : list entry) (i : nat)
    (pubs : list publisher) (rows : list reportRow) :
  RowsFrom entries i pubs rows ->
  forall (k : nat) (row : reportRow),
    nth_error rows k = Some row ->
    exists pub, nth_error pubs k = Some pub /\ RowFor entries (i + k) pub row.
Proof.
  induction 1 as [|i pub row pubs rows Hrow _ IH]; intros k r Hk.
  - destruct k; discriminate.
  - destruct k as [|k]; simpl in Hk.
    + injection Hk as <-. exists pub. rewrite Nat.add_0_r. now split.
    + destruct (IH k r Hk) as (pub' & Hp & Hr). exists pub'.
      split; [exact Hp|]. now replace (i + S k) with (S i + k) by lia.
Qed.

(** A run that returns went through the whole loop: its rows are the rows
    of the subjects, in order. *)
Lemma runChecker_returns (w : world) (d : string) (cb : bool)
    (folder : string) (rows : list reportRow) :
  run_result (runChecker w d cb) = Return (folder, rows) ->
  exists entries,
    loadCSVFolder (csvFolder w) = Return entries
    /\ launches w = true
    /\ RowsFrom entries 0 (loadPublishers (sheet w)) rows
    /\ List.map call_current (run_calls (runChecker w d cb))
       = if cb then twice_from 0 (List.length (sheet w)) else [].
Proof.
  unfold runChecker.
  destruct (loadCSVFolder (csvFolder w)) as [entries|e]; [|discriminate].
  destruct (launches w); cbn [negb]; [|discriminate].
  match goal with
  | |- context [forLoop ?a ?b ?c ?e ?f ?g ?h ?pubs ?st] =>
      destruct (forLoop a b c e f g h pubs st) as [st' [[]|e']] eqn:E
  end; cbv zeta; [|discriminate].
  destruct (writable w _); cbn [run_result run_calls]; [|discriminate].
  intros H. injection H as _ <-.
  apply forLoop_returns in E as (rows & Hrows & Hres & Hcalls).
  exists entries. repeat split; try reflexivity.
  - cbn [results app] in Hres. now rewrite Hres.
  - rewrite Hcalls. cbn [calls List.map app]. unfold loadPublishers.
    now rewrite length_map.
Qed.

(** A run returns when the corpus loads, the browser launches, every
    subject name is a string and the files can be written, whatever the
    page does. *)
Lemma runChecker_total (w : world) (d : string) (cb : bool)
    (entries : list entry) :
  loadCSVFolder (csvFolder w) = Return entries ->
  launches w = true ->
  forallb (fun pub => isString (Name pub)) (loadPublishers (sheet w)) = true ->
  (forall p, writable w p = true) ->
  exists folder rows,
    run_result (runChecker w d cb) = Return (folder, rows).
Proof.
  intros Hload Hlaunch Hall Hw. unfold runChecker. rewrite Hload, Hlaunch.
  cbn [negb].
  match goal with
  | |- context [forLoop ?a ?b ?c ?e ?f ?g ?h ?pubs ?st] =>
      destruct (forLoop_total a b c e f g pubs Hall Hw h st) as [st' E];
      rewrite E
  end.
  cbv zeta. rewrite Hw. cbn [run_result]. eexists. eexists. reflexivity.
Qed.

Lemma returned_entries (r : result (list entry)) :
  returned r = true -> r = Return (entriesOf r).
Proof. destruct r; [reflexivity | discriminate]. Qed.

Lemma returned_run (r : run) :
  returned (run_result r) = true ->
  run_result r = Return (folderOf r, rowsOf r).
Proof.
  unfold folderOf, rowsOf. destruct (run_result r) as [[folder rows]|e];
    [reflexivity | discriminate].
Qed.

(* ================================================================= *)
(** ** runChecker: the report *)

(** C3: a run that returns has written one row a subject, in the order of
    the sheet; and it returns whenever the corpus loads, the browser
    launches, the names are strings and the files can be written, whatever
    the calls on the page do: a failed capture costs neither the row nor
    the rest of the batch. *)
Theorem report_one_row_per_subject :
  forall (w : world) (downloadsFolder : string) (progressCallback : bool),
    (forall folder rows,
        run_result (runChecker w downloadsFolder progressCallback)
        = Return (folder, rows) ->
        List.length rows = List.length (sheet w)
        /\ List.map Publisher rows = List.map Name (loadPublishers (sheet w)))
    /\ (forall entries,
          loadCSVFolder (csvFolder w) = Return entries ->
          launches w = true ->
          forallb (fun pub => isString (Name pub)) (loadPublishers (sheet w))
          = true ->
          (forall p, writable w p = true) ->
          exists folder rows,
            run_result (runChecker w downloadsFolder progressCallback)
            = Return (folder, rows)).
Proof.
  intros w d cb. split.
  - intros folder rows H.
    apply runChecker_returns in H as (entries & _ & _ & Hrows & _).
    split.
    + rewrite (RowsFrom_length _ _ _ _ Hrows). unfold loadPublishers.
      apply length_map.
    + now apply RowsFrom_publishers in Hrows.
  - intros entries. apply runChecker_total.
Qed.

(** The witness of C3: every call on the page fails for every subject and
    the report still has the three rows, in order. *)
Lemma report_one_row_per_subject_witness :
  exists folder rows,
    run_result (runChecker failing_world "/srv/temp" true)
    = Return (folder, rows)
    /\ List.length rows = 3
    /\ List.map Publisher rows = [VStr "John Smit"; VStr ""; VStr "Jane Doe"].
Proof.
  destruct (report_one_row_per_subject failing_world "/srv/temp" true)
    as [Hrows Htotal].
  destruct (Htotal sample_entries) as (folder & rows & H);
    [vm_compute; reflexivity | reflexivity | reflexivity
    | intros p; reflexivity |].
  exists folder, rows. split; [exact H|].
  destruct (Hrows folder rows H) as [Hlen Hmap]. split; assumption.
Defined.

(** C4: in every row of the report, the status is MATCH exactly when the
    count is positive, and CLEAR exactly when it is zero. *)
Theorem match_status_iff_count :
  forall (w : world) (downloadsFolder : string) (progressCallback : bool)
         (folder : string) (rows : list reportRow) (row : reportRow),
    run_result (runChecker w downloadsFolder progressCallback)
    = Return (folder, rows) ->
    In row rows ->
    (MatchStatus row = "MATCH" <-> 0 < MatchCount row)
    /\ (MatchStatus row = "CLEAR" <-> MatchCount row = 0).
Proof.
  intros w d cb folder rows row H Hin.
  apply runChecker_returns in H as (entries & _ & _ & Hrows & _).
  apply In_nth_error in Hin as [k Hk].
  destruct (RowsFrom_nth _ _ _ _ Hrows k row Hk) as (pub & _ & Hrow).
  rewrite (row_status _ _ _ _ Hrow).
  destruct (0 <? MatchCount row) eqn:E.
  - apply Nat.ltb_lt in E. repeat split; try easy; try lia.
  - apply Nat.ltb_ge in E. repeat split; try easy; try lia.
Qed.

(** The witness of C4: the first row of the sample run, a MATCH with two
    matches. *)
Lemma match_status_iff_count_witness :
  (MatchStatus (nth 0 sample_rows blank_row) = "MATCH"
   <-> 0 < MatchCount (nth 0 sample_rows blank_row))
  /\ (MatchStatus (nth 0 sample_rows blank_row) = "CLEAR"
      <-> MatchCount (nth 0 sample_rows blank_row) = 0).
Proof.
  apply (match_status_iff_count sample_world "/srv/temp" true
           sample_results_folder sample_rows).
  - vm_compute. reflexivity.
  - vm_compute. left. reflexivity.
Defined.

(** Every row of a report carries a link, whatever became of the
    capture. *)
Lemma screenshot_cell_never_blank (w : world) (d : string) (cb : bool)
    (folder : string) (rows : list reportRow) (row : reportRow) :
  run_result (runChecker w d cb) = Return (folder, rows) ->
  In row rows ->
  exists link, Screenshot row = Hyperlink "View Screenshot" link.
Proof.
  intros H Hin.
  apply runChecker_returns in H as (entries & _ & _ & Hrows & _).
  apply In_nth_error in Hin as [k Hk].
  destruct (RowsFrom_nth _ _ _ _ Hrows k row Hk) as (pub & _ & Hrow).
  destruct (row_link _ _ _ _ Hrow) as (safeName & _ & Hcell).
  eexists. exact Hcell.
Qed.

(** C5: in the sample run the capture is skipped for the second subject
    (no name) and fails for the third; only the first screenshot is
    written, yet the three rows carry a link. *)
Theorem screenshot_link_without_artifact :
  run_files (runChecker sample_world "/srv/temp" true)
  = [ "/srv/temp/OFAC Results 2024-01-02T03-04-05-678Z/responses/John_Smit_1.json";
      "/srv/temp/OFAC Results 2024-01-02T03-04-05-678Z/screenshots/John_Smit_1.png";
      "/srv/temp/OFAC Results 2024-01-02T03-04-05-678Z/responses/EMPTY_2.json";
      "/srv/temp/OFAC Results 2024-01-02T03-04-05-678Z/responses/Jane_Doe_3.json";
      "/srv/temp/OFAC Results 2024-01-02T03-04-05-678Z/OFAC_Results.xlsx" ]
  /\ List.map Screenshot sample_rows
     = [ Hyperlink "View Screenshot" "./screenshots/John_Smit_1.png";
         Hyperlink "View Screenshot" "./screenshots/EMPTY_2.png";
         Hyperlink "View Screenshot" "./screenshots/Jane_Doe_3.png" ].
Proof. split; vm_compute; reflexivity. Qed.

(* ================================================================= *)
(** ** runChecker: the cut of the Matches cell *)

Lemma length_append (a b : string) :
  String.length (a ++ b) = String.length a + String.length b.
Proof. induction a as [|c a IH]; simpl; [reflexivity | now rewrite IH]. Qed.

Lemma length_slice0 (n : nat) (s : string) :
  n <= String.length s -> String.length (Str.slice0 n s) = n.
Proof.
  unfold Str.slice0. revert n. induction s as [|c s IH]; intros n; simpl.
  - intros H. now replace n with 0 by lia.
  - destruct n as [|n]; simpl; [reflexivity|].
    intros H. rewrite IH by lia. reflexivity.
Qed.

Lemma substring_whole (s : string) : substring 0 (String.length s) s = s.
Proof. induction s as [|c s IH]; simpl; [reflexivity | now rewrite IH]. Qed.

Lemma substring_suffix (a b : string) :
  substring (String.length a) (String.length b) (a ++ b) = b.
Proof. induction a as [|c a IH]; simpl; [apply substring_whole | exact IH]. Qed.

Lemma endsWith_append (a b : string) : Str.endsWith (a ++ b) b = true.
Proof.
  unfold Str.endsWith. rewrite length_append.
  replace (String.length a + String.length b - String.length b)
    with (String.length a) by lia.
  rewrite substring_suffix, String.eqb_refl.
  apply andb_true_iff. split; [apply Nat.leb_le; lia | reflexivity].
Qed.

Lemma truncateCell_long (s : string) :
  MAX_CELL_LENGTH < String.length s ->
  truncateCell s = (Str.slice0 MAX_CELL_LENGTH s ++ TRUNCATION_MARKER)%string.
Proof.
  intros H. unfold truncateCell. apply Nat.ltb_lt in H. now rewrite H.
Qed.

Lemma truncateCell_short (s : string) :
  String.length s <= MAX_CELL_LENGTH -> truncateCell s = s.
Proof.
  intros H. unfold truncateCell. apply Nat.ltb_ge in H. now rewrite H.
Qed.

(** C8: the Matches cell of a subject whose joined matches are longer than
    the maximum is the first [MAX_CELL_LENGTH] characters followed by the
    marker, so its length is the maximum plus the length of the marker;
    joined matches within the maximum are stored as they are. *)
Theorem matches_cell_truncation :
  forall (w : world) (downloadsFolder : string) (progressCallback : bool)
         (folder : string) (rows : list reportRow) (entries : list entry)
         (i : nat) (pub : publisher) (row : reportRow),
    loadCSVFolder (csvFolder w) = Return entries ->
    run_result (runChecker w downloadsFolder progressCallback)
    = Return (folder, rows) ->
    nth_error (loadPublishers (sheet w)) i = Some pub ->
    nth_error rows i = Some row ->
    (MAX_CELL_LENGTH < String.length (joinedMatches entries pub) ->
     String.length (Matches row)
     = MAX_CELL_LENGTH + String.length TRUNCATION_MARKER
     /\ Str.endsWith (Matches row) TRUNCATION_MARKER = true
     /\ Matches row
        = (Str.slice0 MAX_CELL_LENGTH (joinedMatches entries pub)
           ++ TRUNCATION_MARKER)%string)
    /\ (String.length (joinedMatches entries pub) <= MAX_CELL_LENGTH ->
        Matches row = joinedMatches entries pub).
Proof.
  intros w d cb folder rows entries i pub row Hload H Hpub Hrow.
  apply runChecker_returns in H as (entries' & Hload' & _ & Hrows & _).
  assert (entries' = entries) by congruence. subst entries'.
  destruct (RowsFrom_nth _ _ _ _ Hrows i row Hrow) as (pub' & Hpub' & HR).
  assert (pub' = pub) by congruence. subst pub'.
  rewrite (row_matches _ _ _ _ HR). cbn [Nat.add]. split.
  - intros Hlong. rewrite (truncateCell_long _ Hlong).
    split; [|split].
    + rewrite length_append, length_slice0 by lia. reflexivity.
    + apply endsWith_append.
    + reflexivity.
  - intros Hshort. now apply truncateCell_short.
Qed.

(** The witness of C8: 1300 matches of "JOHN SMITH" join into 33798
    characters; the cell keeps 32000 of them and the marker. *)
Lemma matches_cell_truncation_witness :
  String.length (Matches (nth 0 (rowsOf (runChecker long_world "/srv/temp" false)) blank_row))
  = MAX_CELL_LENGTH + String.length TRUNCATION_MARKER
  /\ Str.endsWith (Matches (nth 0 (rowsOf (runChecker long_world "/srv/temp" false)) blank_row))
       TRUNCATION_MARKER
     = true.
Proof.
  destruct (matches_cell_truncation long_world "/srv/temp" false
              (folderOf (runChecker long_world "/srv/temp" false)) (rowsOf (runChecker long_world "/srv/temp" false))
              (entriesOf (loadCSVFolder (csvFolder long_world))) 0
              {| Name := VStr "John" |} (nth 0 (rowsOf (runChecker long_world "/srv/temp" false)) blank_row))
    as [Hlong _].
  - apply returned_entries. vm_compute. reflexivity.
  - apply (returned_run (runChecker long_world "/srv/temp" false)). vm_compute. reflexivity.
  - reflexivity.
  - apply nth_error_nth'. apply Nat.ltb_lt. vm_compute. reflexivity.
  - destruct Hlong as (Hlen & Hend & _).
    + apply Nat.ltb_lt. vm_compute. reflexivity.
    + split; assumption.
Defined.

(* ================================================================= *)
(** ** server.js: the stream of progress events *)

Lemma currents_app (a b : list sseMessage) :
  currents (a ++ b) = currents a ++ currents b.
Proof. apply flat_map_app. Qed.

Lemma terminals_app (a b : list sseMessage) :
  terminals (a ++ b) = terminals a ++ terminals b.
Proof. apply flat_map_app. Qed.

Lemma writes_no_terminal (currentSSE : nat -> bool) (cs : list progressCall) :
  forall k, terminals (writes currentSSE k cs) = [].
Proof.
  induction cs as [|c r IH]; intros k; cbn [writes]; [reflexivity|].
  rewrite terminals_app, IH. destruct (currentSSE k); reflexivity.
Qed.

Lemma writes_connected (cs : list progressCall) :
  forall k, currents (writes (fun _ => true) k cs) = List.map call_current cs.
Proof.
  induction cs as [|c r IH]; intros k; cbn [writes]; [reflexivity|].
  rewrite currents_app, IH. reflexivity.
Qed.

Lemma twice_from_lower (n : nat) :
  forall i x, In x (twice_from i n) -> i + 1 <= x.
Proof.
  induction n as [|n IH]; intros i x; cbn [twice_from]; [easy|].
  intros [<- | [<- | H]]; try lia. apply IH in H. lia.
Qed.

Lemma twice_from_nondecreasing (n : nat) :
  forall i, nondecreasing (twice_from i n).
Proof.
  induction n as [|n IH]; intros i; cbn [twice_from]; [exact I|].
  cbn [nondecreasing]. split; [lia|].
  specialize (IH (S i)). destruct (twice_from (S i) n) as [|y r] eqn:E;
    [exact I|].
  split; [|exact IH].
  assert (H : In y (twice_from (S i) n)) by (rewrite E; now left).
  apply twice_from_lower in H. lia.
Qed.

(** C6, as the code has it: the stream of a run that returns, with a
    consumer connected at every write, is the progress events followed by
    the one terminal event; the [current] fields of the progress events are
    [1, 1, 2, 2, ..., total, total], which never decreases; and whatever
    the connection does, the terminal event occurs at most once, after
    every progress event. *)
Theorem progress_events_two_per_subject :
  forall (w : world) (dirname folder : string) (rows : list reportRow),
    run_result (runChecker w (path_join dirname "temp") true)
    = Return (folder, rows) ->
    (exists events,
        upload w dirname (fun _ => true)
        = events ++ [Done (basename folder ++ ".zip")]
        /\ terminals events = []
        /\ currents events = twice_from 0 (List.length (sheet w))
        /\ nondecreasing (currents events))
    /\ (forall currentSSE, exists events,
          terminals events = []
          /\ (upload w dirname currentSSE = events
              \/ upload w dirname currentSSE
                 = events ++ [Done (basename folder ++ ".zip")])).
Proof.
  intros w dirname folder rows H.
  pose proof (runChecker_returns _ _ _ _ _ H) as (_ & _ & _ & _ & Hcalls).
  split.
  - exists (writes (fun _ => true) 0
              (run_calls (runChecker w (path_join dirname "temp") true))).
    split; [|split; [|split]].
    + unfold upload. cbv zeta. rewrite H. reflexivity.
    + apply writes_no_terminal.
    + now rewrite writes_connected.
    + rewrite writes_connected, Hcalls. apply twice_from_nondecreasing.
  - intros currentSSE.
    exists (writes currentSSE 0
              (run_calls (runChecker w (path_join dirname "temp") true))).
    split; [apply writes_no_terminal|].
    unfold upload. cbv zeta. rewrite H.
    destruct (currentSSE _); [now right | left; apply app_nil_r].
Qed.

(** The witness of C6: the sample run, three subjects. *)
Lemma progress_events_two_per_subject_witness :
  exists events,
    upload sample_world "/srv" (fun _ => true)
    = events ++ [Done (basename sample_results_folder ++ ".zip")]
    /\ terminals events = []
    /\ currents events = [1; 1; 2; 2; 3; 3]
    /\ nondecreasing (currents events).
Proof.
  destruct (progress_events_two_per_subject sample_world "/srv"
              sample_results_folder sample_rows) as [Hall _].
  - vm_compute. reflexivity.
  - exact Hall.
Defined.

(** The counterexample of C6: the two events of a subject carry the same
    [current], so the sequence is not strictly increasing. *)
Lemma progress_current_not_strictly_increasing :
  currents (upload sample_world "/srv" (fun _ => true)) = [1; 1; 2; 2; 3; 3]
  /\ ~ strictly_increasing
        (currents (upload sample_world "/srv" (fun _ => true))).
Proof.
  assert (E : currents (upload sample_world "/srv" (fun _ => true))
              = [1; 1; 2; 2; 3; 3]) by (vm_compute; reflexivity).
  split; [exact E|]. rewrite E. cbn [strictly_increasing]. lia.
Qed.

(* ================================================================= *)
(** ** Further properties: normalizeText *)

Lemma normalizeText_string (s : string) :
  normalizeText (VStr s) = normalizeString s.
Proof.
  unfold normalizeText. cbn [truthy]. rewrite negb_involutive.
  destruct (String.eqb s "") eqn:E; [|reflexivity].
  apply String.eqb_eq in E. now subst s.
Qed.

Lemma canonical_empty : canonical "".
Proof. repeat split. Qed.

Lemma normalizeText_normal_form (x : value) : canonical (normalizeText x).
Proof.
  unfold normalizeText.
  destruct (negb (truthy x)); [apply canonical_empty|].
  apply normalizeString_canonical.
Qed.

(** X1: whatever the input, the text [normalizeText] returns has none of
    the four stripped marks, no white space but single spaces between
    words, and no space at either end; when the text of the input is
    well-formed UTF-16 it has no lower-case letter either: it is its own
    upper case. *)
Theorem normalizeText_canonical :
  forall x : Utf16.value,
    let t := Utf16.normalizeText x in
    forallb (fun c => negb (Utf16.is_mark c)) t = true
    /\ Utf16.tidy false t = true
    /\ Utf16.trimStart t = t
    /\ Utf16.trimEnd t = t
    /\ (Utf16.wellFormed (Utf16.toString x) = true ->
        Utf16.toUpperCase t = t).
Proof.
  intros x. cbv zeta. unfold Utf16.normalizeText.
  destruct (negb (Utf16.truthy x)); [repeat split|].
  destruct (utf16_normalizeString_tidy (Utf16.toString x))
    as (Hp & Ht & Hs & He).
  repeat split; try assumption. apply normalizeString_upper.
Qed.

(** The witness of X1: the text [o'Neil], a space, the sharp s U+00DF and
    the letter U+10428. *)
Lemma normalizeText_canonical_witness :
  Utf16.toUpperCase
    [0x4F; 0x4E; 0x45; 0x49; 0x4C; 0x20; 0x53; 0x53; 0xD801; 0xDC00]%N
  = [0x4F; 0x4E; 0x45; 0x49; 0x4C; 0x20; 0x53; 0x53; 0xD801; 0xDC00]%N.
Proof.
  destruct (normalizeText_canonical
              (Utf16.VStr
                 [0x6F; 0x27; 0x4E; 0x65; 0x69; 0x6C; 0x20; 0xDF; 0xD801;
                  0xDC28]%N))
    as (_ & _ & _ & _ & Hupper).
  apply Hupper. vm_compute. reflexivity.
Defined.

Lemma is_punct_upper (c : ascii) :
  Str.is_punct (Str.upper_char c) = Str.is_punct c.
Proof.
  destruct c as [[|] [|] [|] [|] [|] [|] [|] [|]]; reflexivity.
Qed.

Lemma map_upper_idem (s : string) :
  Str.map Str.upper_char (Str.map Str.upper_char s) = Str.map Str.upper_char s.
Proof.
  induction s as [|c r IH]; simpl; [reflexivity|].
  now rewrite upper_char_idem, IH.
Qed.

Lemma remove_map_upper (s : string) :
  Str.remove Str.is_punct (Str.map Str.upper_char s)
  = Str.map Str.upper_char (Str.remove Str.is_punct s).
Proof.
  induction s as [|c r IH]; simpl; [reflexivity|].
  rewrite is_punct_upper. destruct (Str.is_punct c); simpl; now rewrite IH.
Qed.

Lemma remove_idem (q : ascii -> bool) (s : string) :
  Str.remove q (Str.remove q s) = Str.remove q s.
Proof. apply remove_none, all_not_removed. Qed.

Lemma normalizeText_upper_and_marks (s : string) :
  normalizeText (VStr (Str.toUpperCase s)) = normalizeText (VStr s)
  /\ normalizeText (VStr (Str.remove Str.is_punct s))
     = normalizeText (VStr s).
Proof.
  rewrite !normalizeText_string. unfold normalizeString, Str.toUpperCase.
  split.
  - now rewrite map_upper_idem.
  - now rewrite !remove_map_upper, remove_idem.
Qed.

Lemma mark_fixed (c : N) :
  Utf16.is_mark c = true -> Utf16.upperCodePoint c = [c] /\ (c < 0x10000)%N.
Proof.
  unfold Utf16.is_mark. intros H.
  repeat (apply orb_true_iff in H as [H | H]);
    apply N.eqb_eq in H; subst c; split; vm_compute; reflexivity.
Qed.

Lemma remove_app (p : N -> bool) (a b : list N) :
  Utf16.remove p (a ++ b) = Utf16.remove p a ++ Utf16.remove p b.
Proof. apply filter_app. Qed.

(** In a well-formed string the marks can be stripped before the upper
    case is taken or after. *)
Lemma remove_toUpperCase_remove (s : list N) :
  Utf16.Points (fun _ => True) s ->
  Utf16.remove Utf16.is_mark
    (Utf16.toUpperCase (Utf16.remove Utf16.is_mark s))
  = Utf16.remove Utf16.is_mark (Utf16.toUpperCase s).
Proof.
  induction 1 as [|c r Hc Hs _ _ IH|h l r Hh Hl _ _ IH].
  - reflexivity.
  - rewrite (toUpperCase_bmp c r) by now apply not_surrogate_not_high.
    rewrite remove_app, <- IH.
    change (Utf16.remove Utf16.is_mark (c :: r))
      with (if negb (Utf16.is_mark c)
            then c :: Utf16.remove Utf16.is_mark r
            else Utf16.remove Utf16.is_mark r).
    destruct (Utf16.is_mark c) eqn:Em; cbn [negb].
    + destruct (mark_fixed c Em) as [-> _]. unfold Utf16.units.
      cbn [flat_map]. rewrite (encode_bmp c Hc), app_nil_r.
      change (Utf16.remove Utf16.is_mark [c])
        with (if negb (Utf16.is_mark c) then [c] else []).
      now rewrite Em.
    + rewrite toUpperCase_bmp by now apply not_surrogate_not_high.
      now rewrite remove_app.
  - assert (Eh : Utf16.is_mark h = false)
      by (apply surrogate_not_mark; unfold Utf16.is_surrogate;
          now rewrite Hh).
    assert (El : Utf16.is_mark l = false)
      by (apply surrogate_not_mark; unfold Utf16.is_surrogate;
          rewrite Hl; apply orb_true_r).
    change (Utf16.remove Utf16.is_mark (h :: l :: r))
      with (if negb (Utf16.is_mark h)
            then h :: (if negb (Utf16.is_mark l)
                       then l :: Utf16.remove Utf16.is_mark r
                       else Utf16.remove Utf16.is_mark r)
            else (if negb (Utf16.is_mark l)
                  then l :: Utf16.remove Utf16.is_mark r
                  else Utf16.remove Utf16.is_mark r)).
    rewrite Eh, El. cbn [negb].
    rewrite !toUpperCase_pair by assumption.
    now rewrite !remove_app, IH.
Qed.

(** X2: the case of the letters and the four marks [. , - '] of the input
    do not count: a well-formed text, the text in upper case and the text
    without the marks normalize to the same string. *)
Theorem normalizeText_ignores_case_and_marks :
  forall s : list N,
    Utf16.wellFormed s = true ->
    Utf16.normalizeText (Utf16.VStr (Utf16.toUpperCase s))
    = Utf16.normalizeText (Utf16.VStr s)
    /\ Utf16.normalizeText (Utf16.VStr (Utf16.remove Utf16.is_mark s))
       = Utf16.normalizeText (Utf16.VStr s).
Proof.
  intros s H. apply wellFormed_Points in H.
  rewrite !utf16_normalizeText_string. unfold Utf16.normalizeString. split.
  - now rewrite (Fixed_toUpperCase _ (toUpperCase_Fixed s H)).
  - now rewrite (remove_toUpperCase_remove s H).
Qed.

(** The witness of X2: [o'Neil] with a space and the sharp s U+00DF, its
    upper case [O'NEIL SS] and the text without the quote all have the
    normal form [ONEIL SS]. *)
Lemma normalizeText_ignores_case_and_marks_witness :
  Utf16.normalizeText
    (Utf16.VStr [0x4F; 0x27; 0x4E; 0x45; 0x49; 0x4C; 0x20; 0x53; 0x53]%N)
  = [0x4F; 0x4E; 0x45; 0x49; 0x4C; 0x20; 0x53; 0x53]%N
  /\ Utf16.normalizeText
       (Utf16.VStr [0x6F; 0x4E; 0x65; 0x69; 0x6C; 0x20; 0xDF]%N)
     = [0x4F; 0x4E; 0x45; 0x49; 0x4C; 0x20; 0x53; 0x53]%N.
Proof.
  destruct (normalizeText_ignores_case_and_marks
              [0x6F; 0x27; 0x4E; 0x65; 0x69; 0x6C; 0x20; 0xDF]%N)
    as [Hupper Hmarks].
  - vm_compute. reflexivity.
  - split.
    + change [0x4F; 0x27; 0x4E; 0x45; 0x49; 0x4C; 0x20; 0x53; 0x53]%N
        with (Utf16.toUpperCase
                [0x6F; 0x27; 0x4E; 0x65; 0x69; 0x6C; 0x20; 0xDF]%N).
      rewrite Hupper. vm_compute. reflexivity.
    + change [0x6F; 0x4E; 0x65; 0x69; 0x6C; 0x20; 0xDF]%N
        with (Utf16.remove Utf16.is_mark
                [0x6F; 0x27; 0x4E; 0x65; 0x69; 0x6C; 0x20; 0xDF]%N).
      rewrite Hmarks. vm_compute. reflexivity.
Defined.

(* ================================================================= *)
(** ** Further properties: loadCSVFolder *)

Lemma join_split (s : string) : Str.join " " (Str.split s) = s.
Proof.
  unfold Str.join. induction s as [|c r IH]; [reflexivity|].
  cbn [Str.split]. pose proof (split_not_nil r) as Hne.
  destruct (Str.split r) as [|w ws]; [easy|].
  destruct (Ascii.eqb c " ") eqn:E.
  - apply Ascii.eqb_eq in E. subst c.
    change (concat " " ("" :: w :: ws))
      with (String " " (concat " " (w :: ws))).
    now rewrite IH.
  - destruct ws as [|x xs].
    + cbn [concat] in *. now rewrite IH.
    + change (concat " " (String c w :: x :: xs))
        with (String c (concat " " (w :: x :: xs))).
      now rewrite IH.
Qed.

Lemma trimEnd_tail (c : ascii) (r : string) :
  Str.trimEnd (String c r) = String c r ->
  r = EmptyString \/ Str.trimEnd r = r.
Proof.
  cbn [Str.trimEnd]. destruct (Str.trimEnd r) as [|d r'] eqn:E.
  - destruct (Str.is_space c); [discriminate|].
    intros H. injection H as H. now left.
  - intros H. injection H as H. now right.
Qed.

Lemma trimEnd_not_space (c : ascii) :
  Str.is_space c = true -> Str.trimEnd (String c EmptyString) <> String c EmptyString.
Proof. intros H. cbn [Str.trimEnd]. rewrite H. discriminate. Qed.

Lemma not_space_not_blank (c : ascii) :
  Str.is_space c = false -> Ascii.eqb c " " = false.
Proof.
  intros H. destruct (Ascii.eqb c " ") eqn:E; [|reflexivity].
  apply Ascii.eqb_eq in E. subst c. discriminate.
Qed.

(** The tokens of a single-spaced text without a space at its end: after
    a leading space, or from the start, every token is a word. *)
Lemma split_words (s : string) :
  forall b : bool,
    tidy b s = true -> Str.trimEnd s = s ->
    match s with
    | EmptyString => True
    | String c _ =>
        if Str.is_space c then Forall wordlike (tl (Str.split s))
        else Forall wordlike (Str.split s)
    end.
Proof.
  induction s as [|c r IH]; intros b Ht He; [exact I|].
  cbn [tidy] in Ht. destruct (Str.is_space c) eqn:Ec.
  - apply andb_true_iff in Ht as [H1 Hr].
    apply andb_true_iff in H1 as [Hc _]. cbn [Str.split].
    rewrite Hc. cbn [tl].
    destruct (trimEnd_tail _ _ He) as [-> | Her].
    + exfalso. now apply (trimEnd_not_space c Ec).
    + specialize (IH true Hr Her). destruct r as [|d r']; [|].
      * exfalso. now apply (trimEnd_not_space c Ec).
      * cbn [tidy] in Hr. destruct (Str.is_space d) eqn:Ed; [|exact IH].
        rewrite andb_false_r in Hr. discriminate.
  - cbn [Str.split]. rewrite (not_space_not_blank c Ec).
    destruct (trimEnd_tail _ _ He) as [-> | Her].
    + cbn [Str.split]. constructor; [|constructor].
      split; [discriminate|]. simpl. now rewrite Ec.
    + specialize (IH false Ht Her). destruct r as [|d r'].
      * cbn [Str.split]. constructor; [|constructor].
        split; [discriminate|]. simpl. now rewrite Ec.
      * destruct (Str.is_space d) eqn:Ed.
        -- cbn [tidy] in Ht. rewrite Ed in Ht.
           apply andb_true_iff in Ht as [H1 _].
           apply andb_true_iff in H1 as [Hd _].
           cbn [Str.split] in *. rewrite Hd in *. cbn [tl] in IH.
           constructor; [|exact IH].
           split; [discriminate|]. simpl. now rewrite Ec.
        -- pose proof (split_not_nil (String d r')) as Hne.
           destruct (Str.split (String d r')) as [|w ws]; [easy|].
           inversion IH as [|? ? [Hw1 Hw2] Hws]; subst.
           constructor; [|exact Hws].
           split; [discriminate|]. simpl. now rewrite Ec, Hw2.
Qed.

Lemma canonical_words (s : string) :
  canonical s -> s <> "" -> Forall wordlike (Str.split s).
Proof.
  intros (_ & _ & Ht & Hs & He) Hne.
  destruct s as [|c r]; [easy|].
  pose proof (split_words _ false Ht He) as H. cbn beta iota in H.
  destruct (Str.is_space c) eqn:Ec; [|exact H].
  cbn [Str.trimStart] in Hs. rewrite Ec in Hs.
  exfalso. assert (Hlen : String.length (Str.trimStart r) <= String.length r).
  { clear. induction r as [|d r IH]; simpl; [lia|].
    destruct (Str.is_space d); simpl; lia. }
  rewrite Hs in Hlen. simpl in Hlen. lia.
Qed.

Lemma referenceNames_canonical (files : list csvFile) (n : string) :
  In n (referenceNames files) -> n <> "" /\ canonical n.
Proof.
  unfold referenceNames. intros H. apply filter_In in H as [Hin Hne].
  apply in_map_iff in Hin as (v & <- & _). split.
  - unfold nonEmpty in Hne. apply negb_true_iff, String.eqb_neq in Hne.
    exact Hne.
  - apply normalizeText_normal_form.
Qed.

Lemma mapi_members (i : nat) (names : list string) (e : entry) :
  In e (mapi_from i mkReference names) ->
  exists n k, In n names /\ e = mkReference n k.
Proof.
  revert i. induction names as [|n r IH]; intros i; simpl; [easy|].
  intros [<- | H].
  - exists n, i. split; [now left | reflexivity].
  - destruct (IH _ H) as (m & k & Hm & ->). exists m, k.
    split; [now right | reflexivity].
Qed.

Lemma normalizeString_isAscii (s : string) :
  isAscii s = true -> isAscii (normalizeString s) = true.
Proof.
  intros H. unfold normalizeString, Str.trim, Str.collapse, Str.toUpperCase.
  apply all_trimEnd, all_trimStart, all_collapse; [reflexivity|].
  apply all_remove, all_map_in; [exact ascii_upper_ascii | exact H].
Qed.

Lemma cellsOf_qualifying (folder : list csvFile) (v : string) :
  In v (cellsOf (qualifying folder)) -> In v (cellsOf folder).
Proof.
  unfold cellsOf, qualifying. intros H.
  apply in_flat_map in H as (f & Hf & Hv). apply filter_In in Hf as [Hf _].
  apply in_flat_map. now exists f.
Qed.

Lemma referenceNames_ascii (folder : list csvFile) (n : string) :
  forallb isAscii (cellsOf folder) = true ->
  In n (referenceNames (qualifying folder)) ->
  isAscii n = true.
Proof.
  unfold referenceNames. intros Hall H. apply filter_In in H as [Hin _].
  apply in_map_iff in Hin as (v & <- & Hv).
  rewrite normalizeText_string. apply normalizeString_isAscii.
  rewrite forallb_forall in Hall. now apply Hall, cellsOf_qualifying.
Qed.

(** X3: over a folder whose cells are ASCII text, every entry
    [loadCSVFolder] returns has a name that is not empty and is in the
    normal form, also as a string of UTF-16 code units, where
    [normalizeText] leaves it as it is; and its words are the words of the
    name: at least one, none empty, none with white space, and joined by
    single spaces they give the name back. *)
Theorem loaded_entries_well_formed :
  forall (folder : list csvFile) (entries : list entry),
    forallb isAscii (cellsOf folder) = true ->
    loadCSVFolder folder = Return entries ->
    Forall
      (fun e =>
         entry_name e <> ""
         /\ canonical (entry_name e)
         /\ Utf16.normalizeText (Utf16.VStr (Utf16.ofString (entry_name e)))
            = Utf16.ofString (entry_name e)
         /\ entry_words e <> []
         /\ Forall wordlike (entry_words e)
         /\ Str.join " " (entry_words e) = entry_name e)
      entries.
Proof.
  intros folder entries Hascii H.
  apply loadCSVFolder_returns in H as [-> _].
  apply Forall_forall. intros e He.
  apply mapi_members in He as (n & k & Hn & ->).
  pose proof (referenceNames_ascii folder n Hascii Hn) as Hn'.
  apply referenceNames_canonical in Hn as [Hne Hcan].
  cbn [mkReference entry_name entry_words].
  split; [exact Hne|]. split; [exact Hcan|]. split; [|repeat split].
  - rewrite utf16_normalizeText_string, (normalizeString_ascii n Hn').
    now rewrite (normalizeString_fixed n Hcan).
  - apply split_not_nil.
  - now apply canonical_words.
  - apply join_split.
Qed.

(** The witness of X3: the folder with "John Smith" in three spellings. *)
Lemma loaded_entries_well_formed_witness :
  Forall
    (fun e =>
       entry_name e <> ""
       /\ canonical (entry_name e)
       /\ Utf16.normalizeText (Utf16.VStr (Utf16.ofString (entry_name e)))
          = Utf16.ofString (entry_name e)
       /\ entry_words e <> []
       /\ Forall wordlike (entry_words e)
       /\ Str.join " " (entry_words e) = entry_name e)
    repeated_entries.
Proof.
  apply (loaded_entries_well_formed repeated_folder repeated_entries).
  - reflexivity.
  - apply returned_entries. reflexivity.
Defined.

Lemma mapi_ids_seq (names : list string) :
  forall i,
    List.map entry_id (mapi_from i mkReference names)
    = List.map (fun k => ("entry_" ++ Str.of_nat k)%string)
        (seq (i + 1) (List.length names)).
Proof.
  induction names as [|n r IH]; intros i; [reflexivity|].
  cbn [mapi_from List.map List.length seq mkReference entry_id].
  f_equal. rewrite IH. now replace (S i + 1) with (S (i + 1)) by lia.
Qed.

Lemma mapi_length {A B : Type} (f : A -> nat -> B) (l : list A) :
  forall i, List.length (mapi_from i f l) = List.length l.
Proof. induction l as [|x r IH]; intros i; simpl; [reflexivity | now rewrite IH]. Qed.

(** X4: the corpus [loadCSVFolder] returns is never empty, has one entry
    for each non-empty normalized cell, and its ids are [entry_1],
    [entry_2], ... in reading order. *)
Theorem loaded_entries_numbered :
  forall (folder : list csvFile) (entries : list entry),
    loadCSVFolder folder = Return entries ->
    entries <> []
    /\ List.length entries = List.length (referenceNames (qualifying folder))
    /\ List.map entry_id entries
       = List.map (fun k => ("entry_" ++ Str.of_nat k)%string)
           (seq 1 (List.length entries)).
Proof.
  intros folder entries H. apply loadCSVFolder_returns in H as [-> Hne].
  split; [|split].
  - destruct (referenceNames (qualifying folder)); [easy | discriminate].
  - apply mapi_length.
  - rewrite mapi_length. apply (mapi_ids_seq _ 0).
Qed.

(** The witness of X4: four cells, four ids. *)
Lemma loaded_entries_numbered_witness :
  List.map entry_id repeated_entries
  = ["entry_1"; "entry_2"; "entry_3"; "entry_4"].
Proof.
  destruct (loaded_entries_numbered repeated_folder repeated_entries)
    as (_ & _ & Hids).
  - apply returned_entries. reflexivity.
  - exact Hids.
Defined.

Lemma readAll_outcome (files : list csvFile) :
  forall entries,
    readAll entries files
    = if existsb (fun f => negb (returned_rows f)) files
      then Throw StreamError
      else Return (entries ++ referenceNames files).
Proof.
  unfold referenceNames.
  induction files as [|f r IH]; intros entries; cbn [readAll existsb].
  - now rewrite app_nil_r.
  - unfold readCsv, returned_rows. cbn [cellsOf flat_map].
    destruct (file_rows f) as [rows|]; cbn [bind negb orb]; [|reflexivity].
    rewrite IH. destruct (existsb _ r); [reflexivity|].
    rewrite pushRows_app, map_app, filter_app, app_assoc. reflexivity.
Qed.

(** X5: what [loadCSVFolder] does, case by case: without a [.csv] file it
    throws the first error; else a [.csv] file whose parser stream emits
    [error] makes it throw that error, whatever the other files hold; else
    without a non-empty normalized cell it throws the second error; else
    it returns the numbered entries.  Files of another extension never
    count. *)
Theorem loadCSVFolder_outcome :
  forall folder : list csvFile,
    loadCSVFolder folder
    = match qualifying folder with
      | [] => Throw (Error "No CSV files found in folder.")
      | _ :: _ =>
          if existsb (fun f => negb (returned_rows f)) (qualifying folder)
          then Throw StreamError
          else match referenceNames (qualifying folder) with
               | [] => Throw (Error "No entries loaded from CSVs.")
               | _ :: _ =>
                   Return (mapi_from 0 mkReference
                             (referenceNames (qualifying folder)))
               end
      end.
Proof.
  intros folder. unfold loadCSVFolder. fold (qualifying folder).
  destruct (qualifying folder) as [|f r] eqn:Q; [reflexivity|].
  cbn [List.length Nat.eqb]. rewrite readAll_outcome.
  destruct (existsb _ (f :: r)); [reflexivity|].
  cbn [bind app]. destruct (referenceNames (f :: r)); reflexivity.
Qed.

(* ================================================================= *)
(** ** Further properties: searchName *)

(** X6: the entries are judged one by one: the matches over two corpora
    put end to end are the matches over the first followed by the matches
    over the second, and there are never more matches than entries. *)
Theorem searchName_append :
  forall (publisherName : value) (a b : list entry),
    searchName publisherName (a ++ b)
    = searchName publisherName a ++ searchName publisherName b
    /\ List.length (searchName publisherName a) <= List.length a.
Proof.
  intros n a b. rewrite !searchName_filter. split.
  - now rewrite filter_app, map_app.
  - rewrite length_map. apply filter_length_le.
Qed.

(** X7: on the side of the subject, matching ignores the case of the
    letters and the marks [. , - '] of an ASCII name: the name, its upper
    case and the name without the marks have the same matches; the upper
    case and the stripped name are those of [toUpperCase] and [replace]
    on the code units of the name. *)
Theorem searchName_ignores_case_and_marks :
  forall (s : string) (entries : list entry),
    isAscii s = true ->
    searchName (VStr (Str.toUpperCase s)) entries = searchName (VStr s) entries
    /\ searchName (VStr (Str.remove Str.is_punct s)) entries
       = searchName (VStr s) entries
    /\ Utf16.toUpperCase (Utf16.ofString s)
       = Utf16.ofString (Str.toUpperCase s)
    /\ Utf16.remove Utf16.is_mark (Utf16.ofString s)
       = Utf16.ofString (Str.remove Str.is_punct s).
Proof.
  intros s entries Hs.
  destruct (normalizeText_upper_and_marks s) as [Hu Hp].
  unfold searchName. rewrite Hu, Hp.
  repeat split; [now apply toUpperCase_ascii | apply remove_ascii].
Qed.

(** The witness of X7: [john smit.], [JOHN SMIT.] and [john smit] against
    the sample corpus: the same two matches. *)
Lemma searchName_ignores_case_and_marks_witness :
  searchName (VStr "JOHN SMIT.") sample_entries
  = searchName (VStr "john smit.") sample_entries
  /\ searchName (VStr "john smit") sample_entries
     = searchName (VStr "john smit.") sample_entries
  /\ List.map matchedName (searchName (VStr "john smit.") sample_entries)
     = ["JOHN SMITH"; "JOHN SMITHSON"].
Proof.
  destruct (searchName_ignores_case_and_marks "john smit." sample_entries)
    as (Hupper & Hmarks & _).
  - reflexivity.
  - split; [exact Hupper|]. split; [exact Hmarks|]. vm_compute. reflexivity.
Defined.

Lemma append_empty_r (s : string) : (s ++ "")%string = s.
Proof. induction s as [|c r IH]; simpl; [reflexivity | now rewrite IH]. Qed.

Lemma append_assoc (a b c : string) :
  ((a ++ b) ++ c)%string = (a ++ (b ++ c))%string.
Proof. induction a as [|x a IH]; simpl; [reflexivity | now rewrite IH]. Qed.

Lemma IsPrefix_refl (p : string) : IsPrefix p p.
Proof. exists "". now rewrite append_empty_r. Qed.

Lemma IsPrefix_trans (p q t : string) :
  IsPrefix p q -> IsPrefix q t -> IsPrefix p t.
Proof.
  intros [r1 ->] [r2 ->]. exists (r1 ++ r2)%string. apply append_assoc.
Qed.

Lemma mapi_member_of (names : list string) (n : string) :
  forall i, In n names ->
            exists k, In (mkReference n k) (mapi_from i mkReference names).
Proof.
  induction names as [|m r IH]; intros i; simpl; [easy|].
  intros [-> | H].
  - exists i. now left.
  - destruct (IH (S i) H) as [k Hk]. exists k. now right.
Qed.

(** X8: a subject written as a cell of the corpus is always a match of
    that cell: the entry of a non-empty normalized cell is among the
    matches of the raw value of the cell, with score 1. *)
Theorem cell_matches_itself :
  forall (folder : list csvFile) (entries : list entry) (v : string),
    loadCSVFolder folder = Return entries ->
    In v (cellsOf (qualifying folder)) ->
    normalizeText (VStr v) <> "" ->
    exists r,
      In r (searchName (VStr v) entries)
      /\ matchedName r = normalizeText (VStr v)
      /\ score r = Fin 1.
Proof.
  intros folder entries v H Hv Hne.
  apply loadCSVFolder_returns in H as [-> _].
  assert (Hn : In (normalizeText (VStr v)) (referenceNames (qualifying folder))).
  { unfold referenceNames. apply filter_In. split.
    - apply in_map_iff. now exists v.
    - unfold nonEmpty. now apply negb_true_iff, String.eqb_neq. }
  destruct (mapi_member_of _ _ 0 Hn) as [k Hk].
  exists (matchOf (mkReference (normalizeText (VStr v)) k)).
  split; [|split; reflexivity].
  rewrite searchName_filter. apply in_map, filter_In. split; [exact Hk|].
  apply coversb_Covers. intros p Hp. exists p.
  split; [exact Hp | apply IsPrefix_refl].
Qed.

(** The witness of X8: the cell "john  smith." of the second file. *)
Lemma cell_matches_itself_witness :
  exists r,
    In r (searchName (VStr "john  smith.") repeated_entries)
    /\ matchedName r = normalizeText (VStr "john  smith.")
    /\ score r = Fin 1.
Proof.
  apply (cell_matches_itself repeated_folder repeated_entries "john  smith.").
  - apply returned_entries. reflexivity.
  - vm_compute. right. right. right. left. reflexivity.
  - vm_compute. discriminate.
Defined.

(** X9: shortening the subject never loses a match: when every token of
    one name is a prefix of a token of another name, each match of the
    second name is a match of the first. *)
Theorem shorter_subject_keeps_matches :
  forall (a b : value) (entries : list entry),
    (forall p, In p (Str.split (normalizeText a)) ->
               exists q, In q (Str.split (normalizeText b)) /\ IsPrefix p q) ->
    forall r, In r (searchName b entries) -> In r (searchName a entries).
Proof.
  intros a b entries Hab r. rewrite !searchName_filter, !in_map_iff.
  intros (e & <- & He). exists e. split; [reflexivity|].
  apply filter_In in He as [Hin Hc]. apply filter_In. split; [exact Hin|].
  apply coversb_Covers. apply coversb_Covers in Hc.
  intros p Hp. destruct (Hab p Hp) as (q & Hq & Hpq).
  destruct (Hc q Hq) as (t & Ht & Hqt). exists t.
  split; [exact Ht | now apply (IsPrefix_trans p q t)].
Qed.

(** The witness of X9: "Jo Smi" keeps the first entry, a match of
    "John Smith". *)
Lemma shorter_subject_keeps_matches_witness :
  In {| match_id := "entry_1"; matchedName := "JOHN SMITH"; score := Fin 1 |}
     (searchName (VStr "Jo Smi") sample_entries).
Proof.
  apply (shorter_subject_keeps_matches (VStr "Jo Smi") (VStr "John Smith")).
  - intros p Hp. vm_compute in Hp. destruct Hp as [<- | [<- | []]].
    + exists "JOHN". split; [vm_compute; now left | now exists "HN"].
    + exists "SMITH". split; [vm_compute; right; now left | now exists "TH"].
  - vm_compute. left. reflexivity.
Defined.

(* ================================================================= *)
(** ** Further properties: the loop of runChecker in closed form *)

Lemma takeScreenshot_outcome (name : value) (filepath : string)
    (page : step -> bool) (files : list string) :
  takeScreenshot name filepath page files
  = if truthy name
    then if stepsOk page then Return (files ++ [filepath])
         else Throw PageError
    else Return files.
Proof.
  unfold takeScreenshot, stepsOk. destruct (truthy name); [|reflexivity].
  cbn [negb]. destruct (page PageGoto); [|reflexivity].
  destruct (page PageEvaluate); [|reflexivity].
  destruct (page PageType); [|reflexivity].
  destruct (page PageClick); [|reflexivity].
  cbv zeta. destruct (page PageScreenshot); reflexivity.
Qed.

Lemma safeNameOf_sanitizable (pub : publisher) :
  safeNameOf pub
  = if sanitizable pub then Return (safeNameText pub)
    else Throw (TypeError replaceTypeError).
Proof.
  unfold sanitizable, safeNameText, safeNameOf.
  destruct (or_else (Name pub) (VStr "EMPTY")); reflexivity.
Qed.

(** One turn of the loop in closed form. *)
Lemma iteration_outcome (w : world) (entries : list entry)
    (sf rf : string) (cb : bool) (total i : nat) (pub : publisher)
    (st : progress) :
  let out := iteration w entries sf rf cb total i pub st in
  snd out
  = match stepError w rf pub i with
    | None => Return tt
    | Some e => Throw e
    end
  /\ calls (fst out)
     = calls st
       ++ (if cb
           then match stepError w rf pub i with
                | None => callsOf total pub i
                | Some _ =>
                    if sanitizable pub
                    then [mkCall (i + 1) total (Name pub)
                            "Searching SDN/ALT lists"]
                    else []
                end
           else [])
  /\ files (fst out)
     = files st
       ++ match stepError w rf pub i with
          | None => artifactsOf w sf rf pub i
          | Some _ => []
          end
  /\ results (fst out)
     = results st
       ++ match stepError w rf pub i with
          | None => [rowOf entries pub i]
          | Some _ => []
          end.
Proof.
  cbv zeta. unfold iteration, stepError, jsonPathOf.
  rewrite safeNameOf_sanitizable.
  destruct (sanitizable pub) eqn:Es; cbn [negb fst snd].
  - cbv zeta. cbn [SAVE_JSON_RESPONSES andb].
    destruct (writable w _) eqn:Ew; cbn [negb fst snd].
    + rewrite takeScreenshot_outcome.
      unfold artifactsOf, jsonPathOf, captured, callsOf, rowOf,
        joinedMatches, linkOf.
      destruct cb;
        cbn [notify writeFile pushRowOf calls files results];
        destruct (truthy (Name pub)); cbn [andb];
        try destruct (stepsOk (page w i));
        cbn [calls files results]; rewrite <- ?app_assoc, ?app_nil_r;
        repeat split; reflexivity.
    + destruct cb; cbn [notify calls files results];
        rewrite ?app_nil_r; repeat split; reflexivity.
  - destruct cb; rewrite ?app_nil_r; repeat split; reflexivity.
Qed.

(** The loop in closed form: it goes through the subjects before the
    first turn that throws, and stops in that turn. *)
Lemma forLoop_outcome (w : world) (entries : list entry)
    (sf rf : string) (cb : bool) (total : nat) (pubs : list publisher) :
  forall (i : nat) (st : progress),
    let out := forLoop w entries sf rf cb total i pubs st in
    snd out
    = match failureFrom w rf total i pubs with
      | None => Return tt
      | Some (_, e) => Throw e
      end
    /\ calls (fst out)
       = calls st
         ++ (if cb
             then List.concat
                    (mapi_from i (callsOf total) (processedFrom w rf i pubs))
                  ++ match failureFrom w rf total i pubs with
                     | None => []
                     | Some (cs, _) => cs
                     end
             else [])
    /\ files (fst out)
       = files st
         ++ List.concat
              (mapi_from i (artifactsOf w sf rf) (processedFrom w rf i pubs))
    /\ results (fst out)
       = results st
         ++ mapi_from i (rowOf entries) (processedFrom w rf i pubs).
Proof.
  induction pubs as [|pub rest IH]; intros i st; cbv zeta;
    cbn [forLoop processedFrom failureFrom].
  - cbn [mapi_from List.concat fst snd app]. destruct cb;
      rewrite !app_nil_r; repeat split; reflexivity.
  - pose proof (iteration_outcome w entries sf rf cb total i pub st) as Hit.
    cbv zeta in Hit.
    destruct (iteration w entries sf rf cb total i pub st) as [st1 r1].
    cbn [fst snd] in Hit. destruct Hit as (Hs & Hc & Hf & Hr).
    destruct (stepError w rf pub i) as [e|]; subst r1.
    + cbn [fst snd mapi_from List.concat app]. rewrite Hc, Hf, Hr.
      destruct cb; rewrite ?app_nil_r; repeat split; reflexivity.
    + specialize (IH (S i) st1). cbv zeta in IH.
      destruct IH as (Hs' & Hc' & Hf' & Hr').
      rewrite Hs', Hc', Hf', Hr', Hc, Hf, Hr.
      cbn [mapi_from List.concat].
      destruct cb; rewrite <- ?app_assoc, ?app_nil_r; repeat split;
        reflexivity.
Qed.

Lemma processedFrom_all (w : world) (rf : string) (total : nat)
    (pubs : list publisher) :
  forall i, failureFrom w rf total i pubs = None ->
            processedFrom w rf i pubs = pubs.
Proof.
  induction pubs as [|pub rest IH]; intros i; cbn [failureFrom processedFrom];
    [reflexivity|].
  destruct (stepError w rf pub i); [discriminate|].
  intros H. now rewrite (IH _ H).
Qed.

Lemma failure_firstSome (w : world) (rf : string) (total : nat)
    (pubs : list publisher) :
  forall i,
    option_map snd (failureFrom w rf total i pubs)
    = firstSome (mapi_from i (stepError w rf) pubs).
Proof.
  induction pubs as [|pub rest IH]; intros i;
    cbn [failureFrom mapi_from firstSome]; [reflexivity|].
  destruct (stepError w rf pub i); [reflexivity | apply IH].
Qed.

Lemma processedFrom_length (w : world) (rf : string) (pubs : list publisher) :
  forall i, List.length (processedFrom w rf i pubs) <= List.length pubs.
Proof.
  induction pubs as [|pub rest IH]; intros i; cbn [processedFrom List.length];
    [lia|].
  destruct (stepError w rf pub i); cbn [List.length]; [lia|].
  specialize (IH (S i)). lia.
Qed.

Lemma loadPublishers_sanitizable (rows : list sheetRow) :
  forallb sanitizable (loadPublishers rows)
  = forallb (fun pub => isString (Name pub)) (loadPublishers rows).
Proof.
  unfold loadPublishers. induction rows as [|r rest IH]; [reflexivity|].
  cbn [List.map forallb]. rewrite IH. f_equal.
  unfold sanitizable, or_else. cbn [Name].
  destruct (truthy (name_as_per_bank_account r)) eqn:E1.
  - now rewrite !E1.
  - destruct (truthy (name_column r)) eqn:E2.
    + now rewrite !E2.
    + reflexivity.
Qed.

(** The run in closed form: what it returns or throws, the files it
    writes and the calls of the callback. *)
Lemma runChecker_outcome (w : world) (d : string) (cb : bool) :
  let pubs := loadPublishers (sheet w) in
  let folder := resultsFolderOf w d in
  let rf := path_join folder "responses" in
  let workbook := path_join folder "OFAC_Results.xlsx" in
  let failure := failureFrom w rf (List.length pubs) 0 pubs in
  runChecker w d cb
  = match loadCSVFolder (csvFolder w) with
    | Throw e => {| run_calls := []; run_files := []; run_result := Throw e |}
    | Return entries =>
        if negb (launches w)
        then {| run_calls := []; run_files := [];
                run_result := Throw LaunchError |}
        else
          {| run_calls :=
               if cb
               then List.concat
                      (mapi_from 0 (callsOf (List.length pubs))
                         (processedFrom w rf 0 pubs))
                    ++ match failure with
                       | None => []
                       | Some (cs, _) => cs
                       end
               else [];
             run_files :=
               List.concat
                 (mapi_from 0
                    (artifactsOf w (path_join folder "screenshots") rf)
                    (processedFrom w rf 0 pubs))
               ++ match failure with
                  | None => if writable w workbook then [workbook] else []
                  | Some _ => []
                  end;
             run_result :=
               match failure with
               | Some (_, e) => Throw e
               | None =>
                   if writable w workbook
                   then Return (folder, mapi_from 0 (rowOf entries) pubs)
                   else Throw (WriteError workbook)
               end |}
    end.
Proof.
  cbv zeta. unfold runChecker. fold (resultsFolderOf w d).
  destruct (loadCSVFolder (csvFolder w)) as [entries|e]; [|reflexivity].
  destruct (negb (launches w)); [reflexivity|].
  match goal with
  | |- context [forLoop ?a ?b ?c ?e ?f ?g ?h ?pubs ?st] =>
      pose proof (forLoop_outcome a b c e f g pubs h st) as H;
      destruct (forLoop a b c e f g h pubs st) as [st' r]
  end.
  cbv zeta in H. cbn [fst snd calls files results app] in H.
  destruct H as (Hs & Hc & Hf & Hr). subst r.
  destruct (failureFrom w _ _ 0 (loadPublishers (sheet w)))
    as [[cs e]|] eqn:Hfail.
  - rewrite Hc, Hf. now rewrite app_nil_r.
  - rewrite Hc, Hf, Hr.
    rewrite (processedFrom_all _ _ _ _ _ Hfail).
    cbv zeta. destruct (writable w _); rewrite ?app_nil_r; reflexivity.
Qed.

(** What the run returns or throws, in closed form. *)
Lemma run_result_closed (w : world) (d : string) (cb : bool) :
  run_result (runChecker w d cb)
  = match loadCSVFolder (csvFolder w) with
    | Throw e => Throw e
    | Return entries =>
        if negb (launches w) then Throw LaunchError
        else
          match firstSome
                  (mapi_from 0
                     (stepError w
                        (path_join (resultsFolderOf w d) "responses"))
                     (loadPublishers (sheet w))) with
          | Some e => Throw e
          | None =>
              if writable w
                   (path_join (resultsFolderOf w d) "OFAC_Results.xlsx")
              then Return (resultsFolderOf w d,
                           mapi_from 0 (rowOf entries)
                             (loadPublishers (sheet w)))
              else Throw (WriteError
                            (path_join (resultsFolderOf w d)
                               "OFAC_Results.xlsx"))
          end
    end.
Proof.
  pose proof (runChecker_outcome w d cb) as H. cbv zeta in H. rewrite H.
  destruct (loadCSVFolder (csvFolder w)); [|reflexivity].
  destruct (negb (launches w)); [reflexivity|]. cbn [run_result].
  rewrite <- failure_firstSome
    with (total := List.length (loadPublishers (sheet w))).
  destruct (failureFrom _ _ _ _ _) as [[cs e]|]; reflexivity.
Qed.

Lemma mapi_ext {A B : Type} (f g : A -> nat -> B) (l : list A) :
  (forall x i, f x i = g x i) ->
  forall i, mapi_from i f l = mapi_from i g l.
Proof.
  intros H. induction l as [|x r IH]; intros i; simpl; [reflexivity|].
  now rewrite H, IH.
Qed.

Lemma stepError_writable (w w' : world) (rf : string) (pub : publisher)
    (i : nat) :
  (forall p, writable w p = writable w' p) ->
  stepError w rf pub i = stepError w' rf pub i.
Proof. intros H. unfold stepError. now rewrite H. Qed.

Lemma processedFrom_writable (w w' : world) (rf : string)
    (pubs : list publisher) :
  (forall p, writable w p = writable w' p) ->
  forall i, processedFrom w rf i pubs = processedFrom w' rf i pubs.
Proof.
  intros H. induction pubs as [|pub rest IH]; intros i; cbn [processedFrom];
    [reflexivity|].
  now rewrite (stepError_writable w w' rf pub i H), IH.
Qed.

Lemma failureFrom_writable (w w' : world) (rf : string) (total : nat)
    (pubs : list publisher) :
  (forall p, writable w p = writable w' p) ->
  forall i, failureFrom w rf total i pubs = failureFrom w' rf total i pubs.
Proof.
  intros H. induction pubs as [|pub rest IH]; intros i; cbn [failureFrom];
    [reflexivity|].
  now rewrite (stepError_writable w w' rf pub i H), IH.
Qed.

(** The first turn that throws: the subjects before it are processed, the
    turn makes its first call when the name has passed [replace]. *)
Lemma first_failure_at (w : world) (rf : string) (total : nat)
    (pubs : list publisher) :
  forall (i k : nat) (pub : publisher) (e : error),
    nth_error pubs k = Some pub ->
    stepError w rf pub (i + k) = Some e ->
    forallb noError (firstn k (mapi_from i (stepError w rf) pubs)) = true ->
    processedFrom w rf i pubs = firstn k pubs
    /\ failureFrom w rf total i pubs
       = Some (if sanitizable pub
               then [mkCall (i + k + 1) total (Name pub)
                       "Searching SDN/ALT lists"]
               else [],
               e).
Proof.
  induction pubs as [|p rest IH]; intros i k pub e Hk He Hbefore.
  - destruct k; discriminate.
  - destruct k as [|k].
    + cbn [nth_error] in Hk. injection Hk as ->.
      rewrite Nat.add_0_r in *. cbn [processedFrom failureFrom firstn].
      now rewrite He.
    + cbn [nth_error] in Hk.
      cbn [mapi_from firstn forallb] in Hbefore.
      apply andb_true_iff in Hbefore as [Hp Hrest].
      cbn [processedFrom failureFrom firstn].
      destruct (stepError w rf p i); [discriminate|].
      replace (i + S k) with (S i + k) in * by lia.
      destruct (IH (S i) k pub e Hk He Hrest) as [-> ->]. now split.
Qed.

(* ================================================================= *)
(** ** Further properties: runChecker *)



(** X11: the report depends neither on what the page calls do nor on the
    presence of a callback: two runs on the same corpus, sheet, time,
    launch and outcomes of the writes return the same folder and the same
    rows, or throw the same error. *)
Theorem report_independent_of_page_and_callback :
  forall (w w' : world) (downloadsFolder : string) (cb cb' : bool),
    same_inputs w w' ->
    run_result (runChecker w downloadsFolder cb)
    = run_result (runChecker w' downloadsFolder cb').
Proof.
  intros w w' d cb cb' (Hcsv & Hsheet & Htime & Hlaunch & Hw).
  rewrite !run_result_closed. unfold resultsFolderOf.
  rewrite Hcsv, Hsheet, Htime, Hlaunch, Hw.
  destruct (loadCSVFolder (csvFolder w')); [|reflexivity].
  destruct (negb (launches w')); [reflexivity|].
  now rewrite (mapi_ext _ _ _ (fun pub i => stepError_writable w w' _ pub i Hw)).
Qed.

(** The witness of X11: the sample run with a callback, and the run where
    every page call fails, without a callback. *)
Lemma report_independent_of_page_and_callback_witness :
  run_result (runChecker sample_world "/srv/temp" true)
  = run_result (runChecker failing_world "/srv/temp" false).
Proof.
  apply (report_independent_of_page_and_callback sample_world failing_world).
  repeat split.
Defined.

(** X12: the files of a run that returns, in the order they are written:
    subject by subject the JSON file of the matches, always, then the
    screenshot, exactly when the name is not empty and the five page calls
    that can throw succeed; the workbook comes last. *)
Theorem files_of_a_returned_run :
  forall (w : world) (downloadsFolder : string) (progressCallback : bool),
    returned (run_result (runChecker w downloadsFolder progressCallback))
    = true ->
    run_files (runChecker w downloadsFolder progressCallback)
    = List.concat
        (mapi_from 0
           (artifactsOf w
              (path_join (resultsFolderOf w downloadsFolder) "screenshots")
              (path_join (resultsFolderOf w downloadsFolder) "responses"))
           (loadPublishers (sheet w)))
      ++ [path_join (resultsFolderOf w downloadsFolder) "OFAC_Results.xlsx"].
Proof.
  intros w d cb. pose proof (runChecker_outcome w d cb) as H.
  cbv zeta in H. rewrite H.
  destruct (loadCSVFolder (csvFolder w)); [|discriminate].
  destruct (negb (launches w)); [discriminate|].
  cbn [run_result run_files].
  destruct (failureFrom w _ _ 0 (loadPublishers (sheet w)))
    as [[cs e]|] eqn:Hfail; [discriminate|].
  destruct (writable w _); [|discriminate].
  intros _. now rewrite (processedFrom_all _ _ _ _ _ Hfail).
Qed.

(** The witness of X12: the sample run; the screenshot of the subject
    without a name and the one of the failing page are missing. *)
Lemma files_of_a_returned_run_witness :
  run_files (runChecker sample_world "/srv/temp" true)
  = [ "/srv/temp/OFAC Results 2024-01-02T03-04-05-678Z/responses/John_Smit_1.json";
      "/srv/temp/OFAC Results 2024-01-02T03-04-05-678Z/screenshots/John_Smit_1.png";
      "/srv/temp/OFAC Results 2024-01-02T03-04-05-678Z/responses/EMPTY_2.json";
      "/srv/temp/OFAC Results 2024-01-02T03-04-05-678Z/responses/Jane_Doe_3.json";
      "/srv/temp/OFAC Results 2024-01-02T03-04-05-678Z/OFAC_Results.xlsx" ].
Proof.
  rewrite (files_of_a_returned_run sample_world "/srv/temp" true).
  - vm_compute. reflexivity.
  - vm_compute. reflexivity.
Defined.

Lemma sanitizable_loaded (rows : list sheetRow) (pub : publisher) :
  In pub (loadPublishers rows) -> sanitizable pub = isString (Name pub).
Proof.
  unfold loadPublishers. intros H. apply in_map_iff in H as (r & <- & _).
  unfold sanitizable, or_else. cbn [Name].
  destruct (truthy (name_as_per_bank_account r)) eqn:E1.
  - now rewrite !E1.
  - destruct (truthy (name_column r)) eqn:E2; [now rewrite !E2 | reflexivity].
Qed.

(** The run stops at the first turn of the loop that throws. *)
Lemma batch_stops_at (w : world) (d : string) (cb : bool)
    (entries : list entry) (k : nat) (pub : publisher) (e : error) :
  loadCSVFolder (csvFolder w) = Return entries ->
  launches w = true ->
  nth_error (loadPublishers (sheet w)) k = Some pub ->
  stepError w (path_join (resultsFolderOf w d) "responses") pub k = Some e ->
  forallb noError
    (firstn k
       (mapi_from 0
          (stepError w (path_join (resultsFolderOf w d) "responses"))
          (loadPublishers (sheet w))))
  = true ->
  run_result (runChecker w d cb) = Throw e
  /\ run_files (runChecker w d cb)
     = List.concat
         (mapi_from 0
            (artifactsOf w (path_join (resultsFolderOf w d) "screenshots")
               (path_join (resultsFolderOf w d) "responses"))
            (firstn k (loadPublishers (sheet w))))
  /\ run_calls (runChecker w d cb)
     = if cb
       then List.concat
              (mapi_from 0 (callsOf (List.length (sheet w)))
                 (firstn k (loadPublishers (sheet w))))
            ++ (if sanitizable pub
                then [mkCall (k + 1) (List.length (sheet w)) (Name pub)
                        "Searching SDN/ALT lists"]
                else [])
       else [].
Proof.
  intros Hload Hlaunch Hk He Hbefore.
  destruct (first_failure_at w _ (List.length (loadPublishers (sheet w)))
              _ 0 k pub e Hk He Hbefore) as [Hgood Hfail].
  pose proof (runChecker_outcome w d cb) as H. cbv zeta in H.
  rewrite H, Hload, Hlaunch. cbn [negb run_result run_files run_calls].
  rewrite Hgood, Hfail, app_nil_r. cbn [Nat.add].
  replace (List.length (loadPublishers (sheet w)))
    with (List.length (sheet w))
    by (unfold loadPublishers; now rewrite length_map).
  repeat split.
Qed.

(** X13: a number or a boolean in the name column stops the batch at that
    row: when no earlier turn of the loop throws, the run throws the
    TypeError of [replace], no workbook is written and the rows built so
    far are lost; the files and the callback calls of the subjects before
    that row are those of a complete run, and neither that subject nor a
    later one is touched. *)
Theorem non_string_name_aborts_batch :
  forall (w : world) (downloadsFolder : string) (progressCallback : bool)
         (entries : list entry) (k : nat) (pub : publisher),
    loadCSVFolder (csvFolder w) = Return entries ->
    launches w = true ->
    nth_error (loadPublishers (sheet w)) k = Some pub ->
    isString (Name pub) = false ->
    forallb noError
      (firstn k
         (mapi_from 0
            (stepError w
               (path_join (resultsFolderOf w downloadsFolder) "responses"))
            (loadPublishers (sheet w))))
    = true ->
    let r := runChecker w downloadsFolder progressCallback in
    let folder := resultsFolderOf w downloadsFolder in
    run_result r = Throw (TypeError replaceTypeError)
    /\ run_files r
       = List.concat
           (mapi_from 0
              (artifactsOf w (path_join folder "screenshots")
                 (path_join folder "responses"))
              (firstn k (loadPublishers (sheet w))))
    /\ run_calls r
       = if progressCallback
         then List.concat
                (mapi_from 0
                   (callsOf (List.length (sheet w)))
                   (firstn k (loadPublishers (sheet w))))
         else [].
Proof.
  intros w d cb entries k pub Hload Hlaunch Hk Hpub Hbefore.
  assert (Hs : sanitizable pub = false).
  { rewrite (sanitizable_loaded (sheet w)); [exact Hpub|].
    now apply nth_error_In in Hk. }
  assert (He : stepError w (path_join (resultsFolderOf w d) "responses") pub k
               = Some (TypeError replaceTypeError)).
  { unfold stepError. now rewrite Hs. }
  destruct (batch_stops_at w d cb entries k pub _ Hload Hlaunch Hk He Hbefore)
    as (Hres & Hfiles & Hcalls).
  cbv zeta. rewrite Hres, Hfiles, Hcalls, Hs.
  destruct cb; rewrite ?app_nil_r; repeat split.
Qed.

(** The witness of X13: the number 42 in the second row; the files of the
    first subject are written and nothing else. *)
Lemma non_string_name_aborts_batch_witness :
  run_result (runChecker numeric_world "/srv/temp" true)
  = Throw (TypeError replaceTypeError)
  /\ run_files (runChecker numeric_world "/srv/temp" true)
     = [ "/srv/temp/OFAC Results 2024-01-02T03-04-05-678Z/responses/John_Smit_1.json";
         "/srv/temp/OFAC Results 2024-01-02T03-04-05-678Z/screenshots/John_Smit_1.png" ].
Proof.
  destruct (non_string_name_aborts_batch numeric_world "/srv/temp" true
              sample_entries 1 {| Name := VNum true "42" |})
    as (Hres & Hfiles & _).
  - apply returned_entries. reflexivity.
  - reflexivity.
  - reflexivity.
  - reflexivity.
  - vm_compute. reflexivity.
  - split; [exact Hres|]. rewrite Hfiles. vm_compute. reflexivity.
Defined.

(** X26: a JSON file that cannot be written stops the batch at that row:
    when no earlier turn of the loop throws, the run throws the error of
    that write, after the first callback call of the row and before its
    capture; no workbook is written, the files of the subjects before
    that row remain, and no later subject is touched. *)
Theorem unwritable_json_aborts_batch :
  forall (w : world) (downloadsFolder : string) (progressCallback : bool)
         (entries : list entry) (k : nat) (pub : publisher),
    loadCSVFolder (csvFolder w) = Return entries ->
    launches w = true ->
    nth_error (loadPublishers (sheet w)) k = Some pub ->
    isString (Name pub) = true ->
    writable w
      (jsonPathOf (path_join (resultsFolderOf w downloadsFolder) "responses")
         pub k)
    = false ->
    forallb noError
      (firstn k
         (mapi_from 0
            (stepError w
               (path_join (resultsFolderOf w downloadsFolder) "responses"))
            (loadPublishers (sheet w))))
    = true ->
    let r := runChecker w downloadsFolder progressCallback in
    let folder := resultsFolderOf w downloadsFolder in
    run_result r
    = Throw (WriteError (jsonPathOf (path_join folder "responses") pub k))
    /\ run_files r
       = List.concat
           (mapi_from 0
              (artifactsOf w (path_join folder "screenshots")
                 (path_join folder "responses"))
              (firstn k (loadPublishers (sheet w))))
    /\ run_calls r
       = if progressCallback
         then List.concat
                (mapi_from 0
                   (callsOf (List.length (sheet w)))
                   (firstn k (loadPublishers (sheet w))))
              ++ [mkCall (k + 1) (List.length (sheet w)) (Name pub)
                    "Searching SDN/ALT lists"]
         else [].
Proof.
  intros w d cb entries k pub Hload Hlaunch Hk Hpub Hwrite Hbefore.
  assert (Hs : sanitizable pub = true).
  { rewrite (sanitizable_loaded (sheet w)); [exact Hpub|].
    now apply nth_error_In in Hk. }
  assert (He : stepError w (path_join (resultsFolderOf w d) "responses") pub k
               = Some (WriteError
                         (jsonPathOf
                            (path_join (resultsFolderOf w d) "responses")
                            pub k))).
  { unfold stepError. now rewrite Hs, Hwrite. }
  destruct (batch_stops_at w d cb entries k pub _ Hload Hlaunch Hk He Hbefore)
    as (Hres & Hfiles & Hcalls).
  cbv zeta. rewrite Hres, Hfiles, Hcalls, Hs. repeat split.
Qed.

(** The witness of X26: a name of three hundred letters in the second
    row, before a number in the third: the run throws the error of the
    write, not the TypeError. *)
Lemma unwritable_json_aborts_batch_witness :
  returned (run_result (runChecker long_name_world "/srv/temp" true)) = false
  /\ run_files (runChecker long_name_world "/srv/temp" true)
     = [ "/srv/temp/OFAC Results 2024-01-02T03-04-05-678Z/responses/John_Smit_1.json";
         "/srv/temp/OFAC Results 2024-01-02T03-04-05-678Z/screenshots/John_Smit_1.png" ]
  /\ List.map call_current
       (run_calls (runChecker long_name_world "/srv/temp" true))
     = [1; 1; 2].
Proof.
  destruct (unwritable_json_aborts_batch long_name_world "/srv/temp" true
              sample_entries 1 {| Name := VStr long_name |})
    as (Hres & Hfiles & Hcalls).
  - apply returned_entries. reflexivity.
  - reflexivity.
  - reflexivity.
  - reflexivity.
  - vm_compute. reflexivity.
  - vm_compute. reflexivity.
  - rewrite Hres, Hfiles, Hcalls. repeat split; vm_compute; reflexivity.
Defined.

(** X14: whether the results table shows up within its timeout changes
    nothing: two runs whose pages differ only in [waitForSelector] write
    the same files, make the same calls and return the same. *)
Theorem results_table_timeout_is_harmless :
  forall (w w' : world) (downloadsFolder : string) (progressCallback : bool),
    same_inputs w w' ->
    (forall i s, s <> PageWaitForSelector -> page w i s = page w' i s) ->
    runChecker w downloadsFolder progressCallback
    = runChecker w' downloadsFolder progressCallback.
Proof.
  intros w w' d cb (Hcsv & Hsheet & Htime & Hlaunch & Hw) Hpage.
  pose proof (runChecker_outcome w d cb) as H.
  pose proof (runChecker_outcome w' d cb) as H'.
  cbv zeta in H, H'. rewrite H, H'. unfold resultsFolderOf.
  rewrite Hcsv, Hsheet, Htime, Hlaunch.
  destruct (loadCSVFolder (csvFolder w')); [|reflexivity].
  destruct (negb (launches w')); [reflexivity|].
  rewrite !(processedFrom_writable w w' _ _ Hw).
  rewrite !(failureFrom_writable w w' _ _ _ Hw), !Hw.
  f_equal. f_equal. f_equal. apply mapi_ext. intros pub i.
  unfold artifactsOf, captured, stepsOk.
  rewrite !(Hpage i) by discriminate. reflexivity.
Qed.

(** The witness of X14: the sample run, and the same run where the table
    never shows. *)
Lemma results_table_timeout_is_harmless_witness :
  runChecker sample_world "/srv/temp" true
  = runChecker no_table_world "/srv/temp" true.
Proof.
  apply (results_table_timeout_is_harmless sample_world no_table_world).
  - repeat split.
  - intros i s Hs. destruct s; try reflexivity. now elim Hs.
Defined.

Lemma map_length_string (f : ascii -> ascii) (s : string) :
  String.length (Str.map f s) = String.length s.
Proof. induction s as [|c r IH]; simpl; [reflexivity | now rewrite IH]. Qed.

Lemma all_sanitized (s : string) :
  Str.all (fun c => Str.is_alnum c || Ascii.eqb c "_")
          (Str.map (fun c => if Str.is_alnum c then c else "_"%char) s)
  = true.
Proof.
  induction s as [|c r IH]; simpl; [reflexivity|]. rewrite IH, andb_true_r.
  destruct (Str.is_alnum c) eqn:E; [now rewrite E | reflexivity].
Qed.

(** X15: the name used for the files of a subject holds only letters,
    digits and underscores, so no separator of a path and no dot; it is as
    long as the name of the subject, and it is "EMPTY" when the subject
    has no name: it is never empty. *)
Theorem safeName_is_safe :
  forall (pub : publisher) (safeName : string),
    safeNameOf pub = Return safeName ->
    Str.all (fun c => Str.is_alnum c || Ascii.eqb c "_") safeName = true
    /\ safeName <> ""
    /\ (truthy (Name pub) = false -> safeName = "EMPTY")
    /\ (forall s, Name pub = VStr s -> s <> "" ->
                  String.length safeName = String.length s).
Proof.
  intros pub safeName. unfold safeNameOf, or_else.
  destruct (truthy (Name pub)) eqn:Et.
  - destruct (Name pub) as [| |b|z|s] eqn:En; try discriminate.
    intros H. injection H as <-. split; [apply all_sanitized|].
    split; [|split].
    + cbn [truthy] in Et. apply negb_true_iff, String.eqb_neq in Et.
      destruct s; [easy | discriminate].
    + discriminate.
    + intros s' E _. injection E as <-. apply map_length_string.
  - intros H. injection H as <-. split; [reflexivity|].
    split; [discriminate|]. split; [reflexivity|].
    intros s E Hs. rewrite E in Et. cbn [truthy] in Et.
    apply negb_false_iff, String.eqb_eq in Et. contradiction.
Qed.

(** The witness of X15: quote, spaces, ampersand and dot become
    underscores. *)
Lemma safeName_is_safe_witness :
  Str.all (fun c => Str.is_alnum c || Ascii.eqb c "_") "O_Neil___Co_" = true
  /\ "O_Neil___Co_" <> ""
  /\ (truthy (VStr "O'Neil & Co.") = false -> "O_Neil___Co_" = "EMPTY")
  /\ (forall s, VStr "O'Neil & Co." = VStr s -> s <> "" ->
                String.length "O_Neil___Co_" = String.length s).
Proof.
  apply (safeName_is_safe {| Name := VStr "O'Neil & Co." |} "O_Neil___Co_").
  reflexivity.
Defined.

(* ================================================================= *)
(** ** Further properties: the routes of server.js *)

Lemma In_concat_mapi {A B : Type} (f : A -> nat -> list B) (l : list A) (b : B) :
  forall i,
    In b (List.concat (mapi_from i f l)) ->
    exists k x, nth_error l k = Some x /\ In b (f x (i + k)).
Proof.
  induction l as [|x r IH]; intros i; cbn [mapi_from List.concat]; [easy|].
  intros H. apply in_app_or in H as [H | H].
  - exists 0, x. rewrite Nat.add_0_r. now split.
  - destruct (IH (S i) H) as (k & y & Hk & Hy). exists (S k), y.
    split; [exact Hk|]. now replace (i + S k) with (S i + k) by lia.
Qed.

Lemma failure_calls_shape (w : world) (rf : string) (total : nat)
    (pubs : list publisher) (c : progressCall) :
  forall (i : nat) (cs : list progressCall) (e : error),
    failureFrom w rf total i pubs = Some (cs, e) ->
    In c cs ->
    exists k pub,
      k < List.length pubs
      /\ c = mkCall (i + k + 1) total (Name pub) "Searching SDN/ALT lists".
Proof.
  induction pubs as [|p rest IH]; intros i cs e; cbn [failureFrom];
    [discriminate|].
  destruct (stepError w rf p i).
  - intros H Hin. injection H as <- _.
    destruct (sanitizable p); [|easy]. destruct Hin as [<- | []].
    exists 0, p. cbn [List.length]. rewrite Nat.add_0_r. split; [lia|easy].
  - intros H Hin. destruct (IH _ _ _ H Hin) as (k & pub & Hk & ->).
    exists (S k), pub. cbn [List.length]. split; [lia|].
    now replace (i + S k + 1) with (S i + k + 1) by lia.
Qed.

Lemma In_writes (currentSSE : nat -> bool) (cs : list progressCall)
    (m : sseMessage) :
  forall k,
    In m (writes currentSSE k cs) ->
    exists c, In c cs /\ m = Data (call_current c) (call_total c) (statusOf c).
Proof.
  induction cs as [|c r IH]; intros k; cbn [writes]; [easy|].
  intros H. apply in_app_or in H as [H | H].
  - destruct (currentSSE k); [|easy]. destruct H as [<- | []].
    exists c. split; [now left | reflexivity].
  - destruct (IH _ H) as (c' & Hc' & ->). exists c'.
    split; [now right | reflexivity].
Qed.

(** X17: every progress event of an upload carries the number of rows of
    the sheet as [total], a [current] between 1 and [total], and as status
    one of the two texts of [runChecker]: the default text of the callback
    of the server is never sent. *)
Theorem progress_events_shape :
  forall (w : world) (dirname : string) (currentSSE : nat -> bool)
         (current total : nat) (status : string),
    In (Data current total status) (upload w dirname currentSSE) ->
    total = List.length (sheet w)
    /\ 1 <= current <= total
    /\ (status = "Searching SDN/ALT lists"
        \/ exists name,
             status
             = ("Taking screenshot for " ++ dquote ++ name ++ dquote)%string).
Proof.
  intros w dirname sse current total status Hin.
  assert (Hw : In (Data current total status)
                  (writes sse 0
                     (run_calls (runChecker w (path_join dirname "temp") true)))).
  { unfold upload in Hin. cbv zeta in Hin.
    destruct (run_result _) as [[folder rows]|e]; [|exact Hin].
    apply in_app_or in Hin as [H | H]; [exact H|].
    destruct (sse _); [|easy]. destruct H as [H | []]. discriminate. }
  apply In_writes in Hw as (c & Hc & E).
  pose proof (runChecker_outcome w (path_join dirname "temp") true) as H.
  cbv zeta in H. rewrite H in Hc. clear H.
  destruct (loadCSVFolder (csvFolder w)); [|easy].
  destruct (negb (launches w)); [easy|]. cbn [run_calls] in Hc.
  assert (Hlen : List.length (loadPublishers (sheet w))
                 = List.length (sheet w))
    by (unfold loadPublishers; now rewrite length_map).
  rewrite Hlen in Hc. injection E as -> -> ->.
  apply in_app_or in Hc as [Hc | Hc].
  - apply In_concat_mapi in Hc as (k & pub & Hk & Hcall).
    assert (Hlt : k < List.length (sheet w)).
    { assert (Hk' : nth_error
                      (processedFrom w
                         (path_join
                            (resultsFolderOf w (path_join dirname "temp"))
                            "responses")
                         0 (loadPublishers (sheet w))) k <> None)
        by congruence.
      apply nth_error_Some in Hk'.
      pose proof (processedFrom_length w
                    (path_join
                       (resultsFolderOf w (path_join dirname "temp"))
                       "responses")
                    (loadPublishers (sheet w)) 0) as L.
      lia. }
    destruct Hcall as [<- | [<- | []]]; cbn [call_current call_total];
      (split; [reflexivity|]); (split; [lia|]).
    + left. reflexivity.
    + right. exists (toString (Name pub)). reflexivity.
  - destruct (failureFrom w _ _ 0 (loadPublishers (sheet w)))
      as [[cs e]|] eqn:Hfail; [|easy].
    destruct (failure_calls_shape _ _ _ _ _ _ _ _ Hfail Hc)
      as (k & pub & Hk & ->).
    cbn [call_current call_total]. rewrite Hlen in Hk.
    split; [reflexivity|]. split; [lia|]. left. reflexivity.
Qed.

(** The witness of X17: the second event of the sample upload. *)
Lemma progress_events_shape_witness :
  3 = List.length (sheet sample_world)
  /\ 1 <= 1 <= 3
  /\ (("Taking screenshot for " ++ dquote ++ "John Smit" ++ dquote)%string
      = "Searching SDN/ALT lists"
      \/ exists name,
           ("Taking screenshot for " ++ dquote ++ "John Smit" ++ dquote)%string
           = ("Taking screenshot for " ++ dquote ++ name ++ dquote)%string).
Proof.
  apply (progress_events_shape sample_world "/srv" (fun _ => true) 1 3).
  vm_compute. right. left. reflexivity.
Defined.

Lemma writes_disconnected (currentSSE : nat -> bool) (cs : list progressCall) :
  (forall k, currentSSE k = false) ->
  forall k, writes currentSSE k cs = [].
Proof.
  intros H. induction cs as [|c r IH]; intros k; cbn [writes]; [reflexivity|].
  now rewrite H, IH.
Qed.

(** X18: the consumer of the events has no part in the outcome: the
    answer of POST /upload and the folders afterwards are the same with
    any connection, and with no consumer connected nothing at all is
    written on the stream. *)
Theorem upload_outcome_independent_of_consumer :
  forall (file : option string) (w : world) (dirname : string)
         (currentSSE : nat -> bool) (d : disk),
    fst (fst (postUpload file w dirname currentSSE d))
    = fst (fst (postUpload file w dirname (fun _ => false) d))
    /\ snd (postUpload file w dirname currentSSE d)
       = snd (postUpload file w dirname (fun _ => false) d)
    /\ snd (fst (postUpload file w dirname (fun _ => false) d)) = [].
Proof.
  intros file w dirname sse d. unfold postUpload.
  destruct file as [path|]; [|repeat split]. cbv zeta.
  unfold upload. cbv zeta.
  destruct (run_result (runChecker w (path_join dirname "temp") true))
    as [[folder rows]|e]; cbn [fst snd]; repeat split;
    rewrite writes_disconnected; reflexivity.
Qed.

(** X19: when the run throws, POST /upload answers 500, sends no terminal
    event, so a connected consumer is never told the end, and leaves the
    uploaded file in place. *)
Theorem failed_upload_leaves_consumer_waiting :
  forall (path : string) (w : world) (dirname : string)
         (currentSSE : nat -> bool) (d : disk),
    returned (run_result (runChecker w (path_join dirname "temp") true))
    = false ->
    fst (fst (postUpload (Some path) w dirname currentSSE d))
    = Status 500 "Error processing the file. Check server logs."
    /\ terminals (snd (fst (postUpload (Some path) w dirname currentSSE d)))
       = []
    /\ uploads (snd (postUpload (Some path) w dirname currentSSE d))
       = uploads d.
Proof.
  intros path w dirname sse d. unfold postUpload, upload. cbv zeta.
  destruct (run_result (runChecker w (path_join dirname "temp") true))
    as [[folder rows]|e]; [discriminate|].
  intros _. cbn [fst snd uploads]. repeat split. apply writes_no_terminal.
Qed.

(** The witness of X19: the sheet with a number in the name column. *)
Lemma failed_upload_leaves_consumer_waiting_witness :
  fst (fst (postUpload (Some "uploads/3f9a") numeric_world "/srv"
              (fun _ => true) sample_disk))
  = Status 500 "Error processing the file. Check server logs."
  /\ terminals (snd (fst (postUpload (Some "uploads/3f9a") numeric_world "/srv"
                            (fun _ => true) sample_disk)))
     = []
  /\ uploads (snd (postUpload (Some "uploads/3f9a") numeric_world "/srv"
                     (fun _ => true) sample_disk))
     = uploads sample_disk.
Proof.
  apply (failed_upload_leaves_consumer_waiting "uploads/3f9a" numeric_world
           "/srv" (fun _ => true) sample_disk).
  vm_compute. reflexivity.
Defined.

Lemma existsSync_create (x : string) (l : list string) :
  existsSync x (create x l) = true.
Proof.
  unfold create. destruct (existsSync x l) eqn:E; [exact E|].
  unfold existsSync. rewrite existsb_app. cbn [existsb].
  rewrite String.eqb_refl. now rewrite orb_true_r.
Qed.

Lemma existsSync_create_other (x y : string) (l : list string) :
  existsSync x l = true -> existsSync x (create y l) = true.
Proof.
  unfold create. intros H. destruct (existsSync y l); [exact H|].
  unfold existsSync in *. rewrite existsb_app, H. reflexivity.
Qed.

Lemma existsSync_removed (x : string) (l : list string) :
  existsSync x (removeSync x l) = false.
Proof.
  unfold existsSync, removeSync. induction l as [|y r IH]; [reflexivity|].
  cbn [filter]. destruct (String.eqb x y) eqn:E; cbn [negb]; [exact IH|].
  cbn [existsb]. now rewrite E, IH.
Qed.

Lemma existsSync_remove_other (x y : string) (l : list string) :
  x <> y -> existsSync x (removeSync y l) = existsSync x l.
Proof.
  intros Hxy. unfold existsSync, removeSync.
  induction l as [|z r IH]; [reflexivity|]. cbn [filter existsb].
  destruct (String.eqb y z) eqn:E; cbn [negb].
  - apply String.eqb_eq in E. subst z.
    apply String.eqb_neq in Hxy. now rewrite Hxy, IH.
  - cbn [existsb]. now rewrite IH.
Qed.

Lemma append_longer (s t : string) : t <> "" -> s <> (s ++ t)%string.
Proof.
  intros Ht H. apply (f_equal String.length) in H.
  rewrite length_append in H. destruct t; [easy|]. simpl in H. lia.
Qed.

(** X21: an upload whose run returns can be fetched once: POST /upload
    answers with the name of the archive, the name is in the temporary
    folder and the upload is removed; GET /download of that name sends
    the file, a second one answers 404, and the folder of the results
    stays in the temporary folder after the download. *)
Theorem upload_then_download :
  forall (path : string) (w : world) (dirname : string)
         (currentSSE : nat -> bool) (d : disk)
         (folder : string) (rows : list reportRow),
    run_result (runChecker w (path_join dirname "temp") true)
    = Return (folder, rows) ->
    let zip := (basename folder ++ ".zip")%string in
    let d1 := snd (postUpload (Some path) w dirname currentSSE d) in
    let d2 := snd (getDownload zip d1) in
    fst (fst (postUpload (Some path) w dirname currentSSE d)) = Json zip
    /\ existsSync path (uploads d1) = false
    /\ fst (getDownload zip d1) = SendFile zip
    /\ fst (getDownload zip d2) = Status 404 "File not found."
    /\ existsSync (basename folder) (temp d2) = true.
Proof.
  intros path w dirname sse d folder rows H. cbv zeta.
  assert (Hload : returned (loadCSVFolder (csvFolder w)) = true
                  /\ folder = resultsFolderOf w (path_join dirname "temp")).
  { pose proof H as H'. rewrite run_result_closed in H'.
    destruct (loadCSVFolder (csvFolder w)); [|discriminate].
    split; [reflexivity|]. destruct (negb (launches w)); [discriminate|].
    destruct (firstSome _); [discriminate|].
    destruct (writable w _); [|discriminate]. now injection H'. }
  destruct Hload as [Hload Hfolder].
  unfold postUpload. cbv zeta. rewrite H, Hload, <- Hfolder.
  cbn [fst snd uploads temp].
  split; [reflexivity|]. split; [apply existsSync_removed|].
  unfold getDownload. cbn [temp uploads]. rewrite existsSync_create.
  cbn [fst snd temp]. rewrite existsSync_removed. cbn [fst].
  split; [reflexivity|]. split; [reflexivity|].
  rewrite existsSync_remove_other by (apply append_longer; discriminate).
  apply existsSync_create_other, existsSync_create.
Qed.

(** The witness of X21: the sample upload. *)
Lemma upload_then_download_witness :
  fst (fst (postUpload (Some "uploads/3f9a") sample_world "/srv"
              (fun _ => true) sample_disk))
  = Json "OFAC Results 2024-01-02T03-04-05-678Z.zip".
Proof.
  destruct (upload_then_download "uploads/3f9a" sample_world "/srv"
              (fun _ => true) sample_disk sample_results_folder sample_rows)
    as (Hjson & _).
  - vm_compute. reflexivity.
  - rewrite Hjson. vm_compute. reflexivity.
Defined.

Lemma basename_no_slash (b : string) :
  Str.all (fun c => negb (Ascii.eqb c "/")) b = true ->
  forall acc, basename_from acc b = (acc ++ b)%string.
Proof.
  induction b as [|c r IH]; intros H acc; cbn [basename_from].
  - now rewrite append_empty_r.
  - cbn [Str.all] in H. apply andb_true_iff in H as [Hc Hr].
    apply negb_true_iff in Hc. rewrite Hc, (IH Hr), append_assoc.
    reflexivity.
Qed.

Lemma basename_path_join (a b : string) :
  Str.all (fun c => negb (Ascii.eqb c "/")) b = true ->
  basename (path_join a b) = b.
Proof.
  intros Hb. unfold basename, path_join.
  enough (G : forall acc, basename_from acc (a ++ "/" ++ b)%string = b)
    by apply G.
  induction a as [|c r IH]; intros acc.
  - change (basename_from acc ("" ++ "/" ++ b)%string)
      with (basename_from "" b).
    now rewrite (basename_no_slash b Hb).
  - cbn [append basename_from]. destruct (Ascii.eqb c "/"); apply IH.
Qed.

(** X22: the name of the archive comes from the time alone: when the time
    stamp holds no slash, the archive announced on the stream and in the
    answer is "OFAC Results <time>.zip" with the colons and dots of the
    time replaced by dashes, whatever the upload and the folders. *)
Theorem archive_name_from_time :
  forall (w : world) (dirname : string) (folder : string)
         (rows : list reportRow),
    Str.all (fun c => negb (Ascii.eqb c "/")) (isoTime w) = true ->
    run_result (runChecker w (path_join dirname "temp") true)
    = Return (folder, rows) ->
    (basename folder ++ ".zip")%string
    = ("OFAC Results "
       ++ Str.map
            (fun c => if Ascii.eqb c ":" || Ascii.eqb c "." then "-"%char
                      else c)
            (isoTime w)
       ++ ".zip")%string.
Proof.
  intros w dirname folder rows Htime H.
  rewrite run_result_closed in H.
  destruct (loadCSVFolder (csvFolder w)); [|discriminate].
  destruct (negb (launches w)); [discriminate|].
  destruct (firstSome _); [discriminate|].
  destruct (writable w _); [|discriminate].
  injection H as <- _. unfold resultsFolderOf.
  rewrite basename_path_join; [now rewrite append_assoc|].
  cbn [append Str.all Ascii.eqb negb andb Bool.eqb].
  induction (isoTime w) as [|c r IH]; [reflexivity|].
  cbn [Str.map Str.all] in *. apply andb_true_iff in Htime as [Hc Hr].
  rewrite (IH Hr), andb_true_r.
  destruct (Ascii.eqb c ":" || Ascii.eqb c "."); [reflexivity | exact Hc].
Qed.

(** The witness of X22: the sample run. *)
Lemma archive_name_from_time_witness :
  (basename sample_results_folder ++ ".zip")%string
  = "OFAC Results 2024-01-02T03-04-05-678Z.zip".
Proof.
  rewrite (archive_name_from_time sample_world "/srv" sample_results_folder
             sample_rows).
  - reflexivity.
  - reflexivity.
  - vm_compute. reflexivity.
Defined.

(* ================================================================= *)
(** ** Further properties: the earlier variant of runChecker *)

Lemma legacy_iteration_returns (w : world) (entries : list entry)
    (sf rf : string) (cb : bool) (total i : nat) (pub : publisher)
    (st : progress) :
  snd (Legacy.iteration w entries sf rf cb total i pub st) = Return tt ->
  results (fst (Legacy.iteration w entries sf rf cb total i pub st))
  = results st
    ++ [Legacy.rowWith pub (searchName (Name pub) entries) ""]
  /\ files (fst (Legacy.iteration w entries sf rf cb total i pub st))
     = files st ++ Legacy.artifactsOf entries rf pub.
Proof.
  unfold Legacy.iteration, Legacy.artifactsOf. cbv zeta.
  cbn [SAVE_JSON_RESPONSES andb].
  destruct (0 <? List.length (searchName (Name pub) entries)).
  - destruct (Name pub) as [| |b|nz t|s]; cbn [snd]; try discriminate.
    destruct (negb (writable w _)); cbn [snd]; [discriminate|].
    intros _. unfold Legacy.takeScreenshot. cbn [fst pushRowOf results files].
    destruct cb; cbn [notify writeFile results files toString];
      split; reflexivity.
  - intros _. cbn [fst pushRowOf results files].
    destruct cb; cbn [notify results files]; rewrite ?app_nil_r;
      split; reflexivity.
Qed.

Lemma legacy_iteration_total (w : world) (entries : list entry)
    (sf rf : string) (cb : bool) (total i : nat) (pub : publisher)
    (st : progress) :
  isString (Name pub) = true ->
  forallb (writable w) (Legacy.artifactsOf entries rf pub) = true ->
  snd (Legacy.iteration w entries sf rf cb total i pub st) = Return tt.
Proof.
  unfold Legacy.iteration, Legacy.artifactsOf. cbv zeta.
  cbn [SAVE_JSON_RESPONSES andb].
  destruct (Name pub) as [| |b|nz t|s]; try discriminate. intros _.
  destruct (0 <? _); [|reflexivity].
  cbn [forallb toString]. rewrite andb_true_r. intros ->. reflexivity.
Qed.

Lemma legacy_forLoop_returns (w : world) (entries : list entry)
    (sf rf : string) (cb : bool) (total : nat) (pubs : list publisher) :
  forall (i : nat) (st : progress),
    snd (Legacy.forLoop w entries sf rf cb total i pubs st) = Return tt ->
    results (fst (Legacy.forLoop w entries sf rf cb total i pubs st))
    = results st
      ++ List.map
           (fun pub => Legacy.rowWith pub (searchName (Name pub) entries) "")
           pubs
    /\ files (fst (Legacy.forLoop w entries sf rf cb total i pubs st))
       = files st ++ flat_map (Legacy.artifactsOf entries rf) pubs.
Proof.
  induction pubs as [|pub rest IH]; intros i st; cbn [Legacy.forLoop].
  - intros _. cbn [fst List.map flat_map]. now rewrite !app_nil_r.
  - pose proof (legacy_iteration_returns w entries sf rf cb total i pub st)
      as Hit.
    destruct (Legacy.iteration w entries sf rf cb total i pub st)
      as [st1 [[]|e]];
      cbn [fst snd] in *; [|discriminate].
    destruct (Hit eq_refl) as [Hr Hf]. intros H.
    destruct (IH _ _ H) as [Hr' Hf'].
    rewrite Hr', Hf', Hr, Hf. cbn [List.map flat_map].
    now rewrite <- !app_assoc.
Qed.

Lemma legacy_forLoop_total (w : world) (entries : list entry)
    (sf rf : string) (cb : bool) (total : nat) (pubs : list publisher) :
  forallb (fun pub => isString (Name pub)) pubs = true ->
  forallb (writable w) (flat_map (Legacy.artifactsOf entries rf) pubs)
  = true ->
  forall (i : nat) (st : progress),
    snd (Legacy.forLoop w entries sf rf cb total i pubs st) = Return tt.
Proof.
  induction pubs as [|pub rest IH]; intros Hall Hw i st; cbn [Legacy.forLoop];
    [reflexivity|].
  cbn [forallb flat_map] in Hall, Hw.
  apply andb_true_iff in Hall as [Hp Hrest].
  rewrite forallb_app in Hw. apply andb_true_iff in Hw as [Hwp Hwrest].
  pose proof (legacy_iteration_total w entries sf rf cb total i pub st Hp Hwp)
    as Hit.
  destruct (Legacy.iteration w entries sf rf cb total i pub st)
    as [st1 [[]|e]];
    cbn [snd] in Hit; [|discriminate].
  now apply IH.
Qed.

Lemma legacy_runChecker_returns (w : world) (d : string) (cb : bool)
    (folder : string) (rows : list reportRow) :
  run_result (Legacy.runChecker w d cb) = Return (folder, rows) ->
  exists entries,
    loadCSVFolder (csvFolder w) = Return entries
    /\ folder = resultsFolderOf w d
    /\ rows
       = List.map
           (fun pub => Legacy.rowWith pub (searchName (Name pub) entries) "")
           (loadPublishers (sheet w))
    /\ run_files (Legacy.runChecker w d cb)
       = flat_map
           (Legacy.artifactsOf entries (path_join folder "responses"))
           (loadPublishers (sheet w))
         ++ [path_join folder "OFAC_Results.xlsx"].
Proof.
  unfold Legacy.runChecker. fold (resultsFolderOf w d).
  destruct (loadCSVFolder (csvFolder w)) as [entries|e]; [|discriminate].
  match goal with
  | |- context [Legacy.forLoop ?a ?b ?c ?e ?f ?g ?h ?pubs ?st] =>
      pose proof (legacy_forLoop_returns a b c e f g pubs h st) as H;
      destruct (Legacy.forLoop a b c e f g h pubs st) as [st' [[]|e']]
  end; cbn [fst snd run_result run_files] in *; [|discriminate].
  destruct (H eq_refl) as [Hr Hf]. cbn [results files app] in Hr, Hf.
  cbv zeta. destruct (writable w _); cbn [run_result run_files];
    [|discriminate].
  intros E. injection E as <- <-. exists entries.
  rewrite Hr, Hf. repeat split.
Qed.

Lemma legacy_runChecker_total (w : world) (d : string) (cb : bool)
    (entries : list entry) :
  loadCSVFolder (csvFolder w) = Return entries ->
  forallb (fun pub => isString (Name pub)) (loadPublishers (sheet w)) = true ->
  forallb (writable w)
    (flat_map
       (Legacy.artifactsOf entries
          (path_join (resultsFolderOf w d) "responses"))
       (loadPublishers (sheet w)))
  = true ->
  writable w (path_join (resultsFolderOf w d) "OFAC_Results.xlsx") = true ->
  returned (run_result (Legacy.runChecker w d cb)) = true.
Proof.
  intros Hload Hall Hw Hbook.
  unfold Legacy.runChecker. fold (resultsFolderOf w d). rewrite Hload.
  match goal with
  | |- context [Legacy.forLoop ?a ?b ?c ?e ?f ?g ?h ?pubs ?st] =>
      pose proof (legacy_forLoop_total a b c e f g pubs Hall Hw h st) as Ht;
      destruct (Legacy.forLoop a b c e f g h pubs st) as [st' r]
  end.
  cbn [snd] in Ht. subst r. cbv zeta. now rewrite Hbook.
Qed.

(** X24: in the earlier variant no row ever carries a link and no
    screenshot is ever written: the capture throws at its first statement
    for every subject.  A run that returns has written the JSON file of
    each subject with at least one match, named after the subject alone,
    and the workbook, and nothing else. *)
Theorem legacy_run_has_no_evidence :
  forall (w : world) (downloadsFolder : string) (progressCallback : bool)
         (folder : string) (rows : list reportRow),
    run_result (Legacy.runChecker w downloadsFolder progressCallback)
    = Return (folder, rows) ->
    Forall (fun r => Screenshot r = Blank) rows
    /\ exists entries,
         loadCSVFolder (csvFolder w) = Return entries
         /\ run_files (Legacy.runChecker w downloadsFolder progressCallback)
            = flat_map
                (Legacy.artifactsOf entries (path_join folder "responses"))
                (loadPublishers (sheet w))
              ++ [path_join folder "OFAC_Results.xlsx"].
Proof.
  intros w d cb folder rows H.
  apply legacy_runChecker_returns in H as (entries & Hload & _ & -> & Hf).
  split.
  - apply Forall_forall. intros r Hr.
    apply in_map_iff in Hr as (pub & <- & _). reflexivity.
  - exists entries. now split.
Qed.

(** The witness of X24: the sample sheet; the first two subjects have
    matches, the subject without a name under the file name ".json". *)
Lemma legacy_run_has_no_evidence_witness :
  List.map Screenshot (rowsOf (Legacy.runChecker sample_world "/srv/temp" true))
  = [Blank; Blank; Blank]
  /\ run_files (Legacy.runChecker sample_world "/srv/temp" true)
     = [ "/srv/temp/OFAC Results 2024-01-02T03-04-05-678Z/responses/John_Smit.json";
         "/srv/temp/OFAC Results 2024-01-02T03-04-05-678Z/responses/.json";
         "/srv/temp/OFAC Results 2024-01-02T03-04-05-678Z/OFAC_Results.xlsx" ].
Proof.
  destruct (legacy_run_has_no_evidence sample_world "/srv/temp" true
              sample_results_folder
              (rowsOf (Legacy.runChecker sample_world "/srv/temp" true)))
    as (Hblank & entries & Hload & Hfiles).
  - vm_compute. reflexivity.
  - split; vm_compute; reflexivity.
Defined.

Lemma no_error_sanitizable (w : world) (rf : string)
    (pubs : list publisher) :
  forall i,
    firstSome (mapi_from i (stepError w rf) pubs) = None ->
    forallb sanitizable pubs = true.
Proof.
  induction pubs as [|pub rest IH]; intros i; cbn [mapi_from firstSome forallb];
    [reflexivity|].
  unfold stepError at 1. destruct (sanitizable pub); [|discriminate].
  destruct (writable w _); [|discriminate]. apply IH.
Qed.

Lemma verdicts_agree (entries : list entry) (pubs : list publisher) :
  forall i,
    Forall2 same_verdict
      (List.map
         (fun pub => Legacy.rowWith pub (searchName (Name pub) entries) "")
         pubs)
      (mapi_from i (rowOf entries) pubs).
Proof.
  induction pubs as [|pub rest IH]; intros i; cbn [List.map mapi_from];
    constructor; [|apply IH].
  repeat split.
Qed.

(** X25: the two variants give the same verdicts: when a run of
    checker.js returns and the run of the earlier variant on the same
    inputs returns too, they return the same folder and as many rows, and
    row by row the publisher, the status, the count and the matches are
    equal; only the evidence cell differs.  The earlier variant does
    return when, besides, each of its JSON files can be written; it names
    them after the subject with only the white space replaced, so a name
    with a slash points into a folder that does not exist and the write
    throws. *)
Theorem variants_agree_on_verdicts :
  forall (w : world) (downloadsFolder : string) (cb cb' : bool)
         (folder : string) (rows : list reportRow),
    run_result (runChecker w downloadsFolder cb) = Return (folder, rows) ->
    (forall (folder' : string) (rows' : list reportRow),
        run_result (Legacy.runChecker w downloadsFolder cb')
        = Return (folder', rows') ->
        folder' = folder /\ Forall2 same_verdict rows' rows)
    /\ (forallb (writable w)
          (flat_map
             (Legacy.artifactsOf (entriesOf (loadCSVFolder (csvFolder w)))
                (path_join folder "responses"))
             (loadPublishers (sheet w)))
        = true ->
        returned (run_result (Legacy.runChecker w downloadsFolder cb'))
        = true).
Proof.
  intros w d cb cb' folder rows H.
  rewrite run_result_closed in H.
  destruct (loadCSVFolder (csvFolder w)) as [entries|e] eqn:Hload;
    [|discriminate].
  destruct (negb (launches w)); [discriminate|].
  destruct (firstSome _) eqn:Hfirst; [discriminate|].
  destruct (writable w _) eqn:Hbook; [|discriminate].
  injection H as <- <-. split.
  - intros folder' rows' H'.
    apply legacy_runChecker_returns in H' as (entries' & Hload' & -> & -> & _).
    rewrite Hload in Hload'. injection Hload' as <-.
    split; [reflexivity | apply verdicts_agree].
  - cbn [entriesOf]. intros Hw.
    apply (legacy_runChecker_total w d cb' entries Hload); [|exact Hw|exact Hbook].
    rewrite <- loadPublishers_sanitizable.
    apply (no_error_sanitizable w _ _ 0 Hfirst).
Qed.

(** The witness of X25: the sample run and the earlier variant on the
    sample inputs. *)
Lemma variants_agree_on_verdicts_witness :
  folderOf (Legacy.runChecker sample_world "/srv/temp" false)
  = sample_results_folder
  /\ Forall2 same_verdict
       (rowsOf (Legacy.runChecker sample_world "/srv/temp" false))
       sample_rows.
Proof.
  destruct (variants_agree_on_verdicts sample_world "/srv/temp" true false
              sample_results_folder sample_rows) as [Hsame _].
  - vm_compute. reflexivity.
  - apply Hsame. vm_compute. reflexivity.
Defined.
